(** * HMAC request signing client (samples/hmac-python-client)

    A shallow embedding of [hmac_client/client.py] and
    [hmac_client/constants.py]: the size guard, the two signing modes, the
    two verification modes, the timestamp tolerance check and the
    configuration validation, together with the parts of the Python standard
    library they call (UTF-8 codec, SHA-256, HMAC, [compare_digest],
    [datetime.isoformat] / [fromisoformat], [timedelta.total_seconds],
    [uuid.uuid4]).

    Conventions.
    - [bytes] is [list byte]; a Python [str] is the list of its code points.
    - A Python call that may raise returns [result A]; [try ... except]
      blocks are written as matches on the raised exception.
    - The wall clock and the random source are explicit arguments.
    - Configuration values are integers.
    The HTTP methods of the client ([_make_request], [get], [post], ...)
    only attach the triple of [sign256] to a request and are not part of
    this development. *)

From Stdlib Require Import ZArith NArith QArith Qabs Lia List Bool.
From Stdlib Require Import Strings.String Strings.Ascii Strings.Byte DecimalPos.
From stdpp Require Import base gmap strings list fin_maps.

Local Open Scope Z_scope.

(* ===================================================================== *)
(** ** Exceptions and fallible computations *)
(* ===================================================================== *)

(** The exception classes that the modelled code can raise.  All of them are
    subclasses of Python's [Exception]. *)
Inductive exn : Type :=
  | InputTooLargeError
  | ConfigurationError
  | UnicodeDecodeError
  | UnicodeEncodeError
  | TypeError
  | ValueError
  | KeyError.

Inductive result (A : Type) : Type :=
  | Ok (a : A)
  | Raise (e : exn).

Arguments Ok {A} a.
Arguments Raise {A} e.

Definition bind {A B : Type} (m : result A) (k : A -> result B) : result B :=
  match m with
  | Ok a => k a
  | Raise e => Raise e
  end.

Notation "'do' x <- m ; k" := (bind m (fun x => k))
  (at level 10, x name, m at level 100, k at level 200).
Notation "'run' m ; k" := (bind m (fun _ => k))
  (at level 10, m at level 100, k at level 200).

#[global] Instance exn_eq_dec : EqDecision exn.
Proof. solve_decision. Defined.

#[global] Instance result_eq_dec {A : Type} `{EqDecision A} :
  EqDecision (result A).
Proof. solve_decision. Defined.

(* ===================================================================== *)
(** ** Bytes and strings *)
(* ===================================================================== *)

Definition bytes : Type := list byte.

#[global] Instance byte_eq_decision : EqDecision byte := Byte.byte_eq_dec.

(** A Python [str]: a sequence of Unicode code points (lone surrogates
    included, as in CPython). *)
Definition pystr : Type := list N.

Definition byte_to_Z (b : byte) : Z := Z.of_N (Byte.to_N b).

Definition byte_of_Z (z : Z) : byte :=
  match Byte.of_N (Z.to_N (z mod 256)) with
  | Some b => b
  | None => x00
  end.

(** An ASCII literal as [str] and as [bytes]. *)
Definition py (s : string) : pystr :=
  map (fun a => N_of_ascii a) (list_ascii_of_string s).

Definition b_lit (s : string) : bytes := list_byte_of_string s.

Arguments py s%_string.
Arguments b_lit s%_string.

Definition is_ascii (s : pystr) : bool := forallb (fun c => (c <? 128)%N) s.

(** [str.replace(old, new)] for a one-character [old]. *)
Fixpoint replace_char (old : N) (new : pystr) (s : pystr) : pystr :=
  match s with
  | [] => []
  | c :: s' =>
      (if (c =? old)%N then new else [c]) ++ replace_char old new s'
  end.

(** [str.rstrip(chars)] for a one-character [chars]. *)
Fixpoint rstrip_char (ch : N) (s : pystr) : pystr :=
  match s with
  | [] => []
  | c :: s' =>
      match rstrip_char ch s' with
      | [] => if (c =? ch)%N then [] else [c]
      | r => c :: r
      end
  end.

(* --------------------------------------------------------------------- *)
(** *** UTF-8 codec ([str.encode('utf-8')], [bytes.decode('utf-8')]) *)
(* --------------------------------------------------------------------- *)

Definition is_surrogate (c : N) : bool :=
  ((0xD800 <=? c) && (c <=? 0xDFFF))%N.

Definition cont_byte (z : Z) : byte := byte_of_Z (128 + z mod 64).

(** Encoding of one code point; surrogates cannot be encoded (the default
    [errors='strict'] raises [UnicodeEncodeError]). *)
Definition utf8_encode_char (c : N) : option bytes :=
  let z := Z.of_N c in
  if z <? 0x80 then Some [byte_of_Z z]
  else if z <? 0x800 then
    Some [byte_of_Z (192 + z / 64); cont_byte z]
  else if z <? 0x10000 then
    if is_surrogate c then None
    else Some [byte_of_Z (224 + z / 4096); cont_byte (z / 64); cont_byte z]
  else if z <? 0x110000 then
    Some [byte_of_Z (240 + z / 262144); cont_byte (z / 4096);
          cont_byte (z / 64); cont_byte z]
  else None.

Fixpoint utf8_encode_opt (s : pystr) : option bytes :=
  match s with
  | [] => Some []
  | c :: s' =>
      match utf8_encode_char c, utf8_encode_opt s' with
      | Some bs, Some rest => Some (bs ++ rest)
      | _, _ => None
      end
  end.

Definition encode_utf8 (s : pystr) : result bytes :=
  match utf8_encode_opt s with
  | Some bs => Ok bs
  | None => Raise UnicodeEncodeError
  end.

Definition is_cont (z : Z) : bool := (0x80 <=? z) && (z <=? 0xBF).

(** Strict UTF-8 decoding: shortest form only, no surrogates, nothing above
    U+10FFFF (the well-formed byte sequences of the Unicode standard). *)
Fixpoint utf8_decode_opt (bs : bytes) : option pystr :=
  match bs with
  | [] => Some []
  | b0 :: r0 =>
      let z0 := byte_to_Z b0 in
      if z0 <? 0x80 then
        option_map (cons (Z.to_N z0)) (utf8_decode_opt r0)
      else
        match r0 with
        | [] => None
        | b1 :: r1 =>
            let z1 := byte_to_Z b1 in
            if (0xC2 <=? z0) && (z0 <=? 0xDF) then
              if is_cont z1 then
                option_map (cons (Z.to_N ((z0 - 192) * 64 + (z1 - 128))))
                           (utf8_decode_opt r1)
              else None
            else
              match r1 with
              | [] => None
              | b2 :: r2 =>
                  let z2 := byte_to_Z b2 in
                  if (0xE0 <=? z0) && (z0 <=? 0xEF) then
                    if ((if z0 =? 0xE0 then 0xA0 else 0x80) <=? z1)
                       && (z1 <=? (if z0 =? 0xED then 0x9F else 0xBF))
                       && is_cont z2
                    then
                      option_map
                        (cons (Z.to_N ((z0 - 224) * 4096 + (z1 - 128) * 64
                                       + (z2 - 128))))
                        (utf8_decode_opt r2)
                    else None
                  else
                    match r2 with
                    | [] => None
                    | b3 :: r3 =>
                        let z3 := byte_to_Z b3 in
                        if (0xF0 <=? z0) && (z0 <=? 0xF4) then
                          if ((if z0 =? 0xF0 then 0x90 else 0x80) <=? z1)
                             && (z1 <=? (if z0 =? 0xF4 then 0x8F else 0xBF))
                             && is_cont z2 && is_cont z3
                          then
                            option_map
                              (cons (Z.to_N ((z0 - 240) * 262144
                                             + (z1 - 128) * 4096
                                             + (z2 - 128) * 64
                                             + (z3 - 128))))
                              (utf8_decode_opt r3)
                          else None
                        else None
                    end
              end
        end
  end.

Definition decode_utf8 (bs : bytes) : result pystr :=
  match utf8_decode_opt bs with
  | Some s => Ok s
  | None => Raise UnicodeDecodeError
  end.

(* ===================================================================== *)
(** ** SHA-256 (FIPS 180-4), as computed by [hashlib.sha256] *)
(* ===================================================================== *)

Module SHA256.

(** 32-bit words are integers in [0, 2^32); addition wraps around. *)
Definition wrap32 (x : Z) : Z := x mod 2 ^ 32.
Definition add32 (x y : Z) : Z := wrap32 (x + y).
Definition not32 (x : Z) : Z := Z.lxor x 0xFFFFFFFF.
Definition rotr (n x : Z) : Z :=
  Z.lor (Z.shiftr x n) (wrap32 (Z.shiftl x (32 - n))).

Definition Ch (x y z : Z) : Z := Z.lxor (Z.land x y) (Z.land (not32 x) z).
Definition Maj (x y z : Z) : Z :=
  Z.lxor (Z.lxor (Z.land x y) (Z.land x z)) (Z.land y z).
Definition Sigma0 (x : Z) : Z :=
  Z.lxor (Z.lxor (rotr 2 x) (rotr 13 x)) (rotr 22 x).
Definition Sigma1 (x : Z) : Z :=
  Z.lxor (Z.lxor (rotr 6 x) (rotr 11 x)) (rotr 25 x).
Definition sigma0 (x : Z) : Z :=
  Z.lxor (Z.lxor (rotr 7 x) (rotr 18 x)) (Z.shiftr x 3).
Definition sigma1 (x : Z) : Z :=
  Z.lxor (Z.lxor (rotr 17 x) (rotr 19 x)) (Z.shiftr x 10).

(** The constants of the standard are defined from the primes: the round
    constants are the first 32 bits of the fractional parts of the cube
    roots of the first 64 primes, the initial hash value those of the
    square roots of the first 8 primes. *)
Definition is_prime (n : Z) : bool :=
  (2 <=? n)
  && forallb (fun d => negb (n mod d =? 0) || (n <=? d))
             (map Z.of_nat (seq 2 (Z.to_nat (Z.sqrt n)))).

Definition primes_upto (n : nat) : list Z :=
  filter (fun p => is_prime p) (map Z.of_nat (seq 2 n)).

(** Integer cube root by bisection on the bits of the result. *)
Fixpoint icbrt_bits (i : nat) (n r : Z) : Z :=
  match i with
  | O => r
  | S i' =>
      let c := r + 2 ^ Z.of_nat i' in
      icbrt_bits i' n (if c * c * c <=? n then c else r)
  end.

Definition frac_cbrt32 (p : Z) : Z := icbrt_bits 40 (p * 2 ^ 96) 0 mod 2 ^ 32.
Definition frac_sqrt32 (p : Z) : Z := Z.sqrt (p * 2 ^ 64) mod 2 ^ 32.

Definition K256 : list Z :=
  Eval vm_compute in map frac_cbrt32 (primes_upto 310).

(** The eight working variables / chaining values. *)
Record regs : Type := Regs {
  ra : Z; rb : Z; rc : Z; rd : Z; re : Z; rf : Z; rg : Z; rh : Z
}.

Definition H0 : regs :=
  Eval vm_compute in
    match map frac_sqrt32 (primes_upto 18) with
    | [a; b; c; d; e; f; g; h] => Regs a b c d e f g h
    | _ => Regs 0 0 0 0 0 0 0 0
    end.

Definition round (s : regs) (k w : Z) : regs :=
  let t1 := add32 (add32 (add32 (add32 (rh s) (Sigma1 (re s)))
                                (Ch (re s) (rf s) (rg s))) k) w in
  let t2 := add32 (Sigma0 (ra s)) (Maj (ra s) (rb s) (rc s)) in
  Regs (add32 t1 t2) (ra s) (rb s) (rc s) (add32 (rd s) t1)
       (re s) (rf s) (rg s).

(** The 64 rounds.  [win] holds the sixteen schedule words W_t .. W_(t+15);
    each step consumes W_t and appends W_(t+16). *)
Fixpoint rounds (ks : list Z) (win : list Z) (s : regs) : regs :=
  match ks with
  | [] => s
  | k :: ks' =>
      let w := nth 0 win 0 in
      let w16 := add32 (add32 (add32 (sigma1 (nth 14 win 0)) (nth 9 win 0))
                              (sigma0 (nth 1 win 0))) w in
      rounds ks' (tl win ++ [w16]) (round s k w)
  end.

Definition compress (h : regs) (block : list Z) : regs :=
  let s := rounds K256 block h in
  Regs (add32 (ra h) (ra s)) (add32 (rb h) (rb s))
       (add32 (rc h) (rc s)) (add32 (rd h) (rd s))
       (add32 (re h) (re s)) (add32 (rf h) (rf s))
       (add32 (rg h) (rg s)) (add32 (rh h) (rh s)).

(** Big-endian grouping of bytes into 32-bit words. *)
Fixpoint words_of (bs : list Z) : list Z :=
  match bs with
  | b0 :: b1 :: b2 :: b3 :: r =>
      (((b0 * 256 + b1) * 256 + b2) * 256 + b3) :: words_of r
  | _ => []
  end.

Definition be32 (w : Z) : bytes :=
  [byte_of_Z (w / 16777216); byte_of_Z (w / 65536);
   byte_of_Z (w / 256); byte_of_Z w].

Definition be64 (n : Z) : list Z :=
  map (fun i => (n / 256 ^ i) mod 256) [7; 6; 5; 4; 3; 2; 1; 0].

(** Message padding: a 1 bit, zero bits up to 56 mod 64 bytes, and the
    message length in bits as a 64-bit big-endian integer. *)
Definition pad (msg : bytes) : list Z :=
  let n := Z.of_nat (length msg) in
  map byte_to_Z msg ++ [0x80]
    ++ repeat 0 (Z.to_nat ((55 - n) mod 64))
    ++ be64 ((8 * n) mod 2 ^ 64).

Fixpoint blocks (n : nat) (bs : list Z) (h : regs) : regs :=
  match n with
  | O => h
  | S n' => blocks n' (skipn 64 bs) (compress h (words_of (firstn 64 bs)))
  end.

Definition digest_of (h : regs) : bytes :=
  be32 (ra h) ++ be32 (rb h) ++ be32 (rc h) ++ be32 (rd h)
    ++ be32 (re h) ++ be32 (rf h) ++ be32 (rg h) ++ be32 (rh h).

Definition sha256 (msg : bytes) : bytes :=
  let p := pad msg in
  digest_of (blocks (length p / 64)%nat p H0).

End SHA256.

(* ===================================================================== *)
(** ** HMAC (RFC 2104), as computed by [hmac.new(key, msg, hashlib.sha256)] *)
(* ===================================================================== *)

Definition block_size : nat := 64.

Definition xor_byte (c : Z) (b : byte) : byte :=
  byte_of_Z (Z.lxor (byte_to_Z b) c).

(** Keys longer than the block size are hashed first; the key is then padded
    with zero bytes to the block size. *)
Definition hmac_key_block (key : bytes) : bytes :=
  let k := if (block_size <? length key)%nat then SHA256.sha256 key else key in
  k ++ repeat x00 (block_size - length k).

Definition hmac_sha256 (key msg : bytes) : bytes :=
  let kb := hmac_key_block key in
  SHA256.sha256 (map (xor_byte 0x5c) kb
                 ++ SHA256.sha256 (map (xor_byte 0x36) kb ++ msg)).

(** [HMAC.hexdigest()]: two lowercase hexadecimal digits per byte. *)
Definition hex_digit (d : Z) : N :=
  Z.to_N (if d <? 10 then 48 + d else 87 + d).

Definition hex_byte (b : byte) : pystr :=
  let z := byte_to_Z b in [hex_digit (z / 16); hex_digit (z mod 16)].

Definition hexdigest (bs : bytes) : pystr := flat_map hex_byte bs.

(** [hmac.compare_digest(a, b)] on two [str] arguments: both must be
    ASCII-only, otherwise [TypeError] is raised; the result is equality. *)
Definition compare_digest (a b : pystr) : result bool :=
  if is_ascii a && is_ascii b then Ok (bool_decide (a = b))
  else Raise TypeError.

(* ===================================================================== *)
(** ** [datetime]: construction, ISO 8601 text, subtraction *)
(* ===================================================================== *)

(** Character codes used by the textual formats. *)
Definition ch_plus : N := 43.
Definition ch_minus : N := 45.
Definition ch_dot : N := 46.
Definition ch_zero : N := 48.
Definition ch_colon : N := 58.
Definition ch_T : N := 84.
Definition ch_Z : N := 90.

(** A [datetime.datetime] value.  [tzinfo] is [None] for a naive value and
    [Some off] for an aware one, [off] being the UTC offset in microseconds
    (a [datetime.timezone] with that fixed offset; [timezone.utc] is
    [Some 0]). *)
Record datetime : Type := Datetime {
  year : Z; month : Z; day : Z;
  hour : Z; minute : Z; second : Z; microsecond : Z;
  tzinfo : option Z
}.

Definition is_leap (y : Z) : bool :=
  (y mod 4 =? 0) && (negb (y mod 100 =? 0) || (y mod 400 =? 0)).

Definition days_in_month (y m : Z) : Z :=
  if m =? 2 then (if is_leap y then 29 else 28)
  else if (m =? 4) || (m =? 6) || (m =? 9) || (m =? 11) then 30
  else 31.

Definition days_before_year (y : Z) : Z :=
  let p := y - 1 in p * 365 + p / 4 - p / 100 + p / 400.

Definition days_before_month (y m : Z) : Z :=
  nth (Z.to_nat m) [0; 0; 31; 59; 90; 120; 151; 181; 212; 243; 273; 304; 334] 0
  + (if (2 <? m) && is_leap y then 1 else 0).

Definition day_us : Z := 86400 * 1000000.

(** The range checks of the [datetime] and [timezone] constructors. *)
Definition valid_offset (off : Z) : bool := (- day_us <? off) && (off <? day_us).

Definition valid_datetime (d : datetime) : bool :=
  (1 <=? year d) && (year d <=? 9999)
  && (1 <=? month d) && (month d <=? 12)
  && (1 <=? day d) && (day d <=? days_in_month (year d) (month d))
  && (0 <=? hour d) && (hour d <=? 23)
  && (0 <=? minute d) && (minute d <=? 59)
  && (0 <=? second d) && (second d <=? 59)
  && (0 <=? microsecond d) && (microsecond d <=? 999999)
  && match tzinfo d with Some off => valid_offset off | None => true end.

Definition datetime_new (d : datetime) : result datetime :=
  if valid_datetime d then Ok d else Raise ValueError.

(** [datetime.toordinal()]: day number, 0001-01-01 being day 1. *)
Definition toordinal (d : datetime) : Z :=
  days_before_year (year d) + days_before_month (year d) (month d) + day d.

(** Microseconds elapsed on the value's own wall clock since the midnight
    that starts day number 0. *)
Definition wall_us (d : datetime) : Z :=
  (toordinal d * 86400 + hour d * 3600 + minute d * 60 + second d) * 1000000
  + microsecond d.

(** [a - b].  A [timedelta] is represented by its total number of
    microseconds.  Mixing naive and aware values raises [TypeError]. *)
Definition datetime_sub (a b : datetime) : result Z :=
  match tzinfo a, tzinfo b with
  | None, None => Ok (wall_us a - wall_us b)
  | Some oa, Some ob => Ok (wall_us a - wall_us b + ob - oa)
  | _, _ => Raise TypeError
  end.

(* --------------------------------------------------------------------- *)
(** *** Decimal fields *)
(* --------------------------------------------------------------------- *)

(** ["%0wd" % n] for [0 <= n < 10^w]: exactly [w] digits. *)
Fixpoint fmt_digits (w : nat) (n : Z) : pystr :=
  match w with
  | O => []
  | S w' =>
      Z.to_N (48 + (n / 10 ^ Z.of_nat w') mod 10)
        :: fmt_digits w' (n mod 10 ^ Z.of_nat w')
  end.

Definition is_digit (c : N) : bool := ((48 <=? c) && (c <=? 57))%N.

(** Read exactly [w] ASCII digits. *)
Fixpoint parse_digits_acc (w : nat) (acc : Z) (s : pystr) : option (Z * pystr) :=
  match w with
  | O => Some (acc, s)
  | S w' =>
      match s with
      | c :: s' =>
          if is_digit c
          then parse_digits_acc w' (acc * 10 + (Z.of_N c - 48)) s'
          else None
      | [] => None
      end
  end.

Definition parse_digits (w : nat) (s : pystr) : option (Z * pystr) :=
  parse_digits_acc w 0 s.

(* --------------------------------------------------------------------- *)
(** *** [datetime.isoformat()] *)
(* --------------------------------------------------------------------- *)

(** The UTC offset suffix: [+HH:MM], with [:SS] and [.ffffff] only when
    they are non-zero; empty for a naive value. *)
Definition format_offset (tz : option Z) : pystr :=
  match tz with
  | None => []
  | Some off =>
      let a := Z.abs off in
      let hh := a / 3600000000 in
      let mm := (a mod 3600000000) / 60000000 in
      let ss := (a mod 60000000) / 1000000 in
      let us := a mod 1000000 in
      [if off <? 0 then ch_minus else ch_plus]
        ++ fmt_digits 2 hh ++ [ch_colon] ++ fmt_digits 2 mm
        ++ (if (ss =? 0) && (us =? 0) then []
            else [ch_colon] ++ fmt_digits 2 ss
                 ++ (if us =? 0 then [] else [ch_dot] ++ fmt_digits 6 us))
  end.

(** [d.isoformat()] with the default separator ['T'] and
    [timespec='auto']: the fraction is printed only when non-zero. *)
Definition isoformat (d : datetime) : pystr :=
  fmt_digits 4 (year d) ++ [ch_minus] ++ fmt_digits 2 (month d)
    ++ [ch_minus] ++ fmt_digits 2 (day d) ++ [ch_T]
    ++ fmt_digits 2 (hour d) ++ [ch_colon] ++ fmt_digits 2 (minute d)
    ++ [ch_colon] ++ fmt_digits 2 (second d)
    ++ (if microsecond d =? 0 then []
        else [ch_dot] ++ fmt_digits 6 (microsecond d))
    ++ format_offset (tzinfo d).

(* --------------------------------------------------------------------- *)
(** *** [datetime.fromisoformat()] *)
(* --------------------------------------------------------------------- *)

(** The grammar documented for [fromisoformat] as the inverse of
    [isoformat]:
    [YYYY-MM-DD[*HH[:MM[:SS[.fff[fff]]]][+HH:MM[:SS[.ffffff]]]]],
    [*] being any single character.  (Later interpreter versions accept
    further ISO 8601 spellings; the results below that mention a parsed
    timestamp quantify over the parse result.) *)

Definition expect (c : N) (s : pystr) : option pystr :=
  match s with
  | c' :: s' => if (c' =? c)%N then Some s' else None
  | [] => None
  end.

Definition parse_isoformat_date (s : pystr) : option (Z * Z * Z * pystr) :=
  match parse_digits 4 s with
  | Some (y, r1) =>
      match expect ch_minus r1 with
      | Some r2 =>
          match parse_digits 2 r2 with
          | Some (m, r3) =>
              match expect ch_minus r3 with
              | Some r4 =>
                  match parse_digits 2 r4 with
                  | Some (d, r5) => Some (y, m, d, r5)
                  | None => None
                  end
              | None => None
              end
          | None => None
          end
      | None => None
      end
  | None => None
  end.

(** The optional fraction after the seconds: [.fff] or [.ffffff], up to the
    end of the string. *)
Definition parse_fraction (s : pystr) : option Z :=
  match s with
  | [] => Some 0
  | c :: r =>
      if (c =? ch_dot)%N then
        if (length r =? 3)%nat then
          match parse_digits 3 r with
          | Some (ms, _) => Some (ms * 1000)
          | None => None
          end
        else if (length r =? 6)%nat then
          match parse_digits 6 r with
          | Some (us, _) => Some us
          | None => None
          end
        else None
      else None
  end.

(** [HH[:MM[:SS[.fff[fff]]]]], the whole string. *)
Definition parse_hh_mm_ss_ff (s : pystr) : option (Z * Z * Z * Z) :=
  match parse_digits 2 s with
  | None => None
  | Some (hh, []) => Some (hh, 0, 0, 0)
  | Some (hh, c1 :: r1) =>
      if negb (c1 =? ch_colon)%N then None else
      match parse_digits 2 r1 with
      | None => None
      | Some (mm, []) => Some (hh, mm, 0, 0)
      | Some (mm, c2 :: r2) =>
          if negb (c2 =? ch_colon)%N then None else
          match parse_digits 2 r2 with
          | None => None
          | Some (ss, r3) =>
              match parse_fraction r3 with
              | Some us => Some (hh, mm, ss, us)
              | None => None
              end
          end
      end
  end.

(** Split at the first ['+'] or ['-']: the time text, and the sign with the
    offset text when there is one. *)
Fixpoint split_tz (s : pystr) : pystr * option (N * pystr) :=
  match s with
  | [] => ([], None)
  | c :: r =>
      if (c =? ch_plus)%N || (c =? ch_minus)%N then ([], Some (c, r))
      else let '(t, z) := split_tz r in (c :: t, z)
  end.

Definition parse_tz (sign : N) (s : pystr) : option Z :=
  if (length s =? 5)%nat || (length s =? 8)%nat || (length s =? 15)%nat then
    match parse_hh_mm_ss_ff s with
    | Some (hh, mm, ss, us) =>
        let off := ((hh * 3600 + mm * 60 + ss) * 1000000 + us) in
        Some (if (sign =? ch_minus)%N then - off else off)
    | None => None
    end
  else None.

Definition parse_isoformat_time (s : pystr)
  : option (Z * Z * Z * Z * option Z) :=
  let '(t, z) := split_tz s in
  match parse_hh_mm_ss_ff t with
  | None => None
  | Some (hh, mm, ss, us) =>
      match z with
      | None => Some (hh, mm, ss, us, None)
      | Some (sign, ztxt) =>
          match parse_tz sign ztxt with
          | Some off => Some (hh, mm, ss, us, Some off)
          | None => None
          end
      end
  end.

Definition fromisoformat (s : pystr) : result datetime :=
  match parse_isoformat_date s with
  | None => Raise ValueError
  | Some (y, m, d, []) => datetime_new (Datetime y m d 0 0 0 0 None)
  | Some (y, m, d, _ :: tstr) =>
      match parse_isoformat_time tstr with
      | None => Raise ValueError
      | Some (hh, mm, ss, us, tz) =>
          datetime_new (Datetime y m d hh mm ss us tz)
      end
  end.

(* --------------------------------------------------------------------- *)
(** *** [timedelta.total_seconds()]: a correctly rounded binary64 *)
(* --------------------------------------------------------------------- *)

(** A finite float is represented by the rational number it denotes. *)

(** [n / d] rounded to the nearest integer, ties to even ([0 <= n], [0 < d]). *)
Definition round_half_even (n d : Z) : Z :=
  let q := n / d in
  let r := n mod d in
  if 2 * r <? d then q
  else if d <? 2 * r then q + 1
  else if Z.even q then q else q + 1.

(** The fraction [n / d] multiplied by [2 ^ s], as a fraction. *)
Definition scale2 (n d s : Z) : Z * Z :=
  if 0 <=? s then (n * 2 ^ s, d) else (n, d * 2 ^ (- s)).

(** The exponent [e] with [2^e <= n/d < 2^(e+1)], for [0 < n], [0 < d]. *)
Definition floor_log2_ratio (n d : Z) : Z :=
  let e0 := Z.log2 n - Z.log2 d in
  let '(n', d') := scale2 n d (- e0) in
  if n' <? d' then e0 - 1 else e0.

(** The binary64 nearest to [n / d] ([0 < n], [0 < d], quotient in the
    normal range): a 53-bit significand at the exponent of the quotient. *)
Definition binary64_of_ratio (n d : Z) : Q :=
  let e := floor_log2_ratio n d in
  let '(n', d') := scale2 n d (52 - e) in
  let m := round_half_even n' d' in
  if 52 <=? e then inject_Z (m * 2 ^ (e - 52))
  else Qmake m (Z.to_pos (2 ^ (52 - e))).

(** Python's [a / b] on two [int]s with [0 < b]: the exact quotient,
    correctly rounded. *)
Definition int_truediv (a b : Z) : Q :=
  if a =? 0 then 0%Q
  else if a <? 0 then Qopp (binary64_of_ratio (- a) b)
  else binary64_of_ratio a b.

Definition total_seconds (td : Z) : Q := int_truediv td 1000000.

(* ===================================================================== *)
(** ** [uuid.uuid4()] *)
(* ===================================================================== *)

(** [rnd] is the 128-bit integer read from the 16 bytes of [os.urandom];
    the version and variant bits are forced, as [UUID(bytes=..., version=4)]
    does. *)
Definition uuid4_int (rnd : Z) : Z :=
  let i := rnd mod 2 ^ 128 in
  let i := Z.ldiff i (Z.shiftl 0xc000 48) in
  let i := Z.lor i (Z.shiftl 0x8000 48) in
  let i := Z.ldiff i (Z.shiftl 0xf000 64) in
  Z.lor i (Z.shiftl 4 76).

(** ['%032x' % i] for [0 <= i < 2^128]. *)
Fixpoint fmt_hex (w : nat) (i : Z) : pystr :=
  match w with
  | O => []
  | S w' => hex_digit ((i / 16 ^ Z.of_nat w') mod 16) :: fmt_hex w' i
  end.

(** [str(UUID)]: the 8-4-4-4-12 grouping of the 32 hexadecimal digits. *)
Definition uuid_str (i : Z) : pystr :=
  let h := fmt_hex 32 i in
  firstn 8 h ++ [ch_minus] ++ firstn 4 (skipn 8 h) ++ [ch_minus]
    ++ firstn 4 (skipn 12 h) ++ [ch_minus] ++ firstn 4 (skipn 16 h)
    ++ [ch_minus] ++ skipn 20 h.

Definition uuid4 (rnd : Z) : pystr := uuid_str (uuid4_int rnd).

(* ===================================================================== *)
(** ** [hmac_client/constants.py] *)
(* ===================================================================== *)

Definition HEADER_HMAC_HASH : pystr := py "X-HMAC-Hash".
Definition HEADER_HMAC_TIMESTAMP : pystr := py "X-HMAC-Timestamp".
Definition HEADER_HMAC_NONCE : pystr := py "X-HMAC-Nonce".

Definition DEFAULT_CONFIG : gmap string Z :=
  <["key_interval"%string := 300]>
    (<["max_input_size"%string := 33554432]>
       (<["timeout"%string := 30]> ∅)).

Definition MAX_INPUT_SIZE : Z := 32 * 1024 * 1024.
Definition DEFAULT_KEY_INTERVAL : Z := 5 * 60.

(* ===================================================================== *)
(** ** [hmac_client/client.py]: class [HMACClient] *)
(* ===================================================================== *)

(** The [requests.Session] held by the client; only its [timeout]
    attribute is set by this code. *)
Record Session : Type := { timeout : Z }.

Record HMACClient : Type := {
  base_url : pystr;
  secret_key : pystr;
  config : gmap string Z;
  session : option Session
}.

(** [d[k]] on a [dict]. *)
Definition getitem (d : gmap string Z) (k : string) : result Z :=
  match d !! k with
  | Some v => Ok v
  | None => Raise KeyError
  end.

Arguments getitem d k%_string.

Definition _validate_config (self : HMACClient) : result unit :=
  if bool_decide (secret_key self = []) then Raise ConfigurationError
  else
    do ki <- getitem (config self) "key_interval" ;
    if ki <=? 0 then Raise ConfigurationError
    else
      do mis <- getitem (config self) "max_input_size" ;
      if mis <=? 0 then Raise ConfigurationError
      else Ok tt.

(** [HMACClient(base_url, secret_key, **config)].  The keyword arguments
    are merged over [DEFAULT_CONFIG]; the caller's values win. *)
Definition __init__ (url key : pystr) (kwargs : gmap string Z)
  : result HMACClient :=
  let self :=
    {| base_url := rstrip_char 47 url;
       secret_key := key;
       config := kwargs ∪ DEFAULT_CONFIG;
       session := None |} in
  run _validate_config self ;
  do t <- getitem (config self) "timeout" ;
  Ok {| base_url := base_url self;
        secret_key := secret_key self;
        config := config self;
        session := Some {| timeout := t |} |}.

Definition _check_input_size (self : HMACClient) (data : bytes) : result unit :=
  do limit <- getitem (config self) "max_input_size" ;
  if limit <? Z.of_nat (length data) then Raise InputTooLargeError
  else Ok tt.

Definition sha256_sign (self : HMACClient) (data : bytes) : result pystr :=
  run _check_input_size self data ;
  do key <- encode_utf8 (secret_key self) ;
  Ok (hexdigest (hmac_sha256 key data)).

(** The handlers shared by both verification methods:
    [except InputTooLargeError: raise] and [except Exception: return False]. *)
Definition verify_handlers (body : result bool) : result bool :=
  match body with
  | Ok b => Ok b
  | Raise InputTooLargeError => Raise InputTooLargeError
  | Raise _ => Ok false
  end.

Definition sha256_verify_try (self : HMACClient) (data : bytes)
  (signature : pystr) : result bool :=
  run _check_input_size self data ;
  do expected_signature <- sha256_sign self data ;
  compare_digest expected_signature signature.

Definition sha256_verify (self : HMACClient) (data : bytes)
  (signature : pystr) : result bool :=
  verify_handlers (sha256_verify_try self data signature).

(** The f-string [f"{timestamp}:{nonce}:{data.decode('utf-8')}"]. *)
Definition build_message (timestamp nonce : pystr) (data : bytes)
  : result pystr :=
  do text <- decode_utf8 data ;
  Ok (timestamp ++ [ch_colon] ++ nonce ++ [ch_colon] ++ text).

(** [now] is the value of [datetime.datetime.now(datetime.timezone.utc)]
    and [rnd] the random bits drawn by [uuid.uuid4()]. *)
Definition sign256 (self : HMACClient) (now : datetime) (rnd : Z)
  (data : bytes) : result (pystr * pystr * pystr) :=
  run _check_input_size self data ;
  let timestamp := isoformat now in
  let nonce := uuid4 rnd in
  do message <- build_message timestamp nonce data ;
  do key <- encode_utf8 (secret_key self) ;
  do msg <- encode_utf8 message ;
  let hash_value := hexdigest (hmac_sha256 key msg) in
  Ok (hash_value, timestamp, nonce).

Definition _verify_timestamp_try (self : HMACClient) (now : datetime)
  (timestamp : pystr) : result bool :=
  do ts <- fromisoformat (replace_char ch_Z (py "+00:00") timestamp) ;
  do delta <- datetime_sub now ts ;
  let diff := Qabs (total_seconds delta) in
  do key_interval <- getitem (config self) "key_interval" ;
  Ok (Qle_bool diff (inject_Z key_interval)).

(** [except Exception: return False]. *)
Definition _verify_timestamp (self : HMACClient) (now : datetime)
  (timestamp : pystr) : bool :=
  match _verify_timestamp_try self now timestamp with
  | Ok b => b
  | Raise _ => false
  end.

Definition verify256_try (self : HMACClient) (now : datetime) (data : bytes)
  (hash_value timestamp nonce : pystr) : result bool :=
  run _check_input_size self data ;
  if negb (_verify_timestamp self now timestamp) then Ok false
  else
    do message <- build_message timestamp nonce data ;
    do key <- encode_utf8 (secret_key self) ;
    do msg <- encode_utf8 message ;
    let expected_hash := hexdigest (hmac_sha256 key msg) in
    compare_digest expected_hash hash_value.

Definition verify256 (self : HMACClient) (now : datetime) (data : bytes)
  (hash_value timestamp nonce : pystr) : result bool :=
  verify_handlers (verify256_try self now data hash_value timestamp nonce).

(** A reading of the UTC wall clock: a valid aware value with offset 0. *)
Definition utc_reading (now : datetime) : Prop :=
  valid_datetime now = true /\ tzinfo now = Some 0.

(* ===================================================================== *)
(** ** [json.dumps(obj, separators=(',', ':'))] *)
(* ===================================================================== *)

(** The Python objects that [json.dumps] is applied to here: [None],
    booleans, integers, strings, lists and dictionaries with string keys
    (in insertion order).  Floats are left out. *)
#[warnings="-register-all"]
Inductive json : Type :=
  | JNone
  | JBool (b : bool)
  | JInt (z : Z)
  | JStr (s : pystr)
  | JList (l : list json)
  | JDict (l : list (pystr * json)).

Fixpoint uint_str (d : Decimal.uint) : pystr :=
  match d with
  | Decimal.Nil => []
  | Decimal.D0 d => 48%N :: uint_str d
  | Decimal.D1 d => 49%N :: uint_str d
  | Decimal.D2 d => 50%N :: uint_str d
  | Decimal.D3 d => 51%N :: uint_str d
  | Decimal.D4 d => 52%N :: uint_str d
  | Decimal.D5 d => 53%N :: uint_str d
  | Decimal.D6 d => 54%N :: uint_str d
  | Decimal.D7 d => 55%N :: uint_str d
  | Decimal.D8 d => 56%N :: uint_str d
  | Decimal.D9 d => 57%N :: uint_str d
  end.

(** [str(z)] for an [int]. *)
Definition int_str (z : Z) : pystr :=
  match Z.to_int z with
  | Decimal.Pos d => uint_str d
  | Decimal.Neg d => ch_minus :: uint_str d
  end.

(** [str(b)] for a [bool]. *)
Definition bool_str (b : bool) : pystr := if b then py "True" else py "False".

(** The four-digit escape [\uXXXX]. *)
Definition u_escape (n : Z) : pystr := [92; 117]%N ++ fmt_hex 4 n.

(** One character of a JSON string with [ensure_ascii=True]: the two-letter
    escapes, [\uXXXX] for everything else outside [' '..'~'], and a
    surrogate pair above U+FFFF. *)
Definition json_escape_char (c : N) : pystr :=
  if (c =? 34)%N then [92; 34]%N
  else if (c =? 92)%N then [92; 92]%N
  else if (c =? 10)%N then [92; 110]%N
  else if (c =? 13)%N then [92; 114]%N
  else if (c =? 9)%N then [92; 116]%N
  else if (c =? 8)%N then [92; 98]%N
  else if (c =? 12)%N then [92; 102]%N
  else if ((32 <=? c) && (c <=? 126))%N then [c]
  else
    let n := Z.of_N c in
    if n <? 0x10000 then u_escape n
    else
      let v := n - 0x10000 in
      u_escape (Z.lor 0xd800 (Z.land (Z.shiftr v 10) 0x3ff))
        ++ u_escape (Z.lor 0xdc00 (Z.land v 0x3ff)).

Definition json_string (s : pystr) : pystr :=
  [34%N] ++ flat_map json_escape_char s ++ [34%N].

(** [sep.join(parts)] for the separator [","]. *)
Fixpoint join_comma (parts : list pystr) : pystr :=
  match parts with
  | [] => []
  | [p] => p
  | p :: rest => p ++ [44%N] ++ join_comma rest
  end.

Fixpoint dumps (j : json) : pystr :=
  match j with
  | JNone => py "null"
  | JBool true => py "true"
  | JBool false => py "false"
  | JInt z => int_str z
  | JStr s => json_string s
  | JList l => [91%N] ++ join_comma (map dumps l) ++ [93%N]
  | JDict l =>
      [123%N]
        ++ join_comma
             (map (fun kv => json_string (fst kv) ++ [ch_colon] ++ dumps (snd kv))
                  l)
        ++ [125%N]
  end.

(* ===================================================================== *)
(** ** [hmac_client/client.py]: request bodies and requests *)
(* ===================================================================== *)

(** The [data] argument of a request: [None], a [str], a [bytes], or an
    [int] or [bool] as examples of the other objects, which are sent as
    their [str()]. *)
Inductive raw_data : Type :=
  | DNone
  | DStr (s : pystr)
  | DBytes (b : bytes)
  | DInt (z : Z)
  | DBool (b : bool).

Definition is_not_None (j : json) : bool :=
  match j with JNone => false | _ => true end.

Definition _prepare_request_body (self : HMACClient) (json_data : json)
  (data : raw_data) : result bytes :=
  if is_not_None json_data then encode_utf8 (dumps json_data)
  else
    match data with
    | DNone => Ok []
    | DStr s => encode_utf8 s
    | DBytes b => Ok b
    | DInt z => encode_utf8 (int_str z)
    | DBool b => encode_utf8 (bool_str b)
    end.

(** [str.lstrip(chars)] for a one-character [chars]. *)
Fixpoint lstrip_char (ch : N) (s : pystr) : pystr :=
  match s with
  | c :: s' => if (c =? ch)%N then lstrip_char ch s' else s
  | [] => []
  end.

(** A header dictionary. *)
Abbreviation headers_dict := (gmap pystr pystr).

Section Requests.

(** What lies outside the client: [urllib.parse.urljoin] (which raises on
    some malformed URLs), the keyword
    arguments that are handed to the session untouched, the responses and
    the errors of the transport, and [Session.request] itself. *)
Variable urljoin : pystr -> pystr -> result pystr.
Variable Passthrough : Type.
Variable Response : Type.
Variable TransportError : Type.

(** The call [session.request(method, url, **kwargs)]. *)
Record Request : Type := {
  req_method : pystr;
  req_url : pystr;
  req_headers : headers_dict;
  req_data : option bytes;
  req_passthrough : Passthrough
}.

(** What [Session.request] does with a call: it returns a response, raises
    a [requests.RequestException], or raises something else. *)
Inductive outcome : Type :=
  | Responded (r : Response)
  | RequestException
  | OtherException (e : TransportError).

Variable request : Session -> Request -> outcome.

(** How a request method of the client ends. *)
Inductive request_result : Type :=
  | Returned (r : Response)
  | Raised (e : exn)
  | RaisedHTTPError
  | RaisedAttributeError
  | RaisedByTransport (e : TransportError).

(** [try: return session.request(...)] with its handler
    [except requests.RequestException: raise HTTPError(...)]. *)
Definition request_handlers (o : outcome) : request_result :=
  match o with
  | Responded r => Returned r
  | RequestException => RaisedHTTPError
  | OtherException e => RaisedByTransport e
  end.

(** [**kwargs] of [_make_request]: the [headers] dictionary of the caller
    when that keyword is given, and the other keyword arguments, which the
    client does not look at. *)
Record kwargs : Type := {
  kw_headers : option headers_dict;
  kw_passthrough : Passthrough
}.

(** The three HMAC headers of a signature triple. *)
Definition hmac_headers (hash_value timestamp nonce : pystr) : headers_dict :=
  <[HEADER_HMAC_HASH := hash_value]>
    (<[HEADER_HMAC_TIMESTAMP := timestamp]>
       (<[HEADER_HMAC_NONCE := nonce]> ∅)).

(** The headers of the request: the caller's dictionary (a new one when
    there is none) updated with the HMAC headers, then [Content-Type] set
    for a JSON body. *)
Definition request_headers (kw : kwargs) (json_data : json)
  (hash_value timestamp nonce : pystr) : headers_dict :=
  let headers := match kw_headers kw with Some h => h | None => ∅ end in
  let headers := hmac_headers hash_value timestamp nonce ∪ headers in
  if is_not_None json_data
  then <[py "Content-Type" := py "application/json"]> headers
  else headers.

(** [_make_request].  The second component is the caller's [headers]
    dictionary after the call: the dictionary is updated in place. *)
Definition _make_request (self : HMACClient) (now : datetime) (rnd : Z)
  (method path : pystr) (json_data : json) (data : raw_data) (kw : kwargs)
  : request_result * option headers_dict :=
  match urljoin (base_url self ++ [47%N]) (lstrip_char 47 path) with
  | Raise e => (Raised e, kw_headers kw)
  | Ok url =>
      match _prepare_request_body self json_data data with
      | Raise e => (Raised e, kw_headers kw)
      | Ok body =>
          match sign256 self now rnd body with
          | Raise e => (Raised e, kw_headers kw)
          | Ok (hash_value, timestamp, nonce) =>
              let headers :=
                request_headers kw json_data hash_value timestamp nonce in
              let caller := match kw_headers kw with
                            | Some _ => Some headers
                            | None => None
                            end in
              let req :=
                {| req_method := method;
                   req_url := url;
                   req_headers := headers;
                   req_data := match body with [] => None | _ => Some body end;
                   req_passthrough := kw_passthrough kw |} in
              match session self with
              | None => (RaisedAttributeError, caller)
              | Some s => (request_handlers (request s req), caller)
              end
          end
      end
  end.

(** [get(path, **kwargs)].  The keyword arguments go to [_make_request] as
    they are, so a [json_data] or [data] keyword becomes its parameter;
    [JNone] and [DNone] stand for a keyword that is not given. *)
Definition get (self : HMACClient) (now : datetime) (rnd : Z)
  (path : pystr) (json_data : json) (data : raw_data) (kw : kwargs)
  : request_result * option headers_dict :=
  _make_request self now rnd (py "GET") path json_data data kw.

Definition post (self : HMACClient) (now : datetime) (rnd : Z)
  (path : pystr) (json : json) (data : raw_data) (kw : kwargs)
  : request_result * option headers_dict :=
  _make_request self now rnd (py "POST") path json data kw.

Definition put (self : HMACClient) (now : datetime) (rnd : Z)
  (path : pystr) (json : json) (data : raw_data) (kw : kwargs)
  : request_result * option headers_dict :=
  _make_request self now rnd (py "PUT") path json data kw.

(** [delete(path, **kwargs)], with its keywords as for [get]. *)
Definition delete (self : HMACClient) (now : datetime) (rnd : Z)
  (path : pystr) (json_data : json) (data : raw_data) (kw : kwargs)
  : request_result * option headers_dict :=
  _make_request self now rnd (py "DELETE") path json_data data kw.

End Requests.

Arguments Build_Request {Passthrough}.
Arguments req_method {Passthrough}.
Arguments req_url {Passthrough}.
Arguments req_headers {Passthrough}.
Arguments req_data {Passthrough}.
Arguments req_passthrough {Passthrough}.
Arguments Build_kwargs {Passthrough}.
Arguments kw_headers {Passthrough}.
Arguments kw_passthrough {Passthrough}.
Arguments Responded {Response TransportError}.
Arguments RequestException {Response TransportError}.
Arguments OtherException {Response TransportError}.
Arguments Returned {Response TransportError}.
Arguments Raised {Response TransportError}.
Arguments RaisedHTTPError {Response TransportError}.
Arguments RaisedAttributeError {Response TransportError}.
Arguments RaisedByTransport {Response TransportError}.
Arguments request_handlers {Response TransportError}.
Arguments request_headers {Passthrough}.
Arguments _make_request urljoin {Passthrough Response TransportError}.
Arguments get urljoin {Passthrough Response TransportError}.
Arguments post urljoin {Passthrough Response TransportError}.
Arguments put urljoin {Passthrough Response TransportError}.
Arguments delete urljoin {Passthrough Response TransportError}.

(* ===================================================================== *)
(** ** Notions used in the statements *)
(* ===================================================================== *)

(** The bytes of an ASCII text. *)
Definition ascii_bytes (s : pystr) : bytes :=
  map (fun c => byte_of_Z (Z.of_N c)) s.

(** The byte string [timestamp ":" nonce ":" payload]. *)
Definition signed_bytes (timestamp nonce : pystr) (data : bytes) : bytes :=
  ascii_bytes timestamp ++ [":"%byte] ++ ascii_bytes nonce ++ [":"%byte]
    ++ data.

(** The comparison [abs(delta.total_seconds()) <= key_interval], for a
    [delta] of [td] microseconds. *)
Definition within_tolerance (td key_interval : Z) : bool :=
  Qle_bool (Qabs (total_seconds td)) (inject_Z key_interval).


(** The text parses, and the comparison of [_verify_timestamp] finds the
    difference to the clock reading larger than [key_interval]. *)
Definition timestamp_outside_window (self : HMACClient) (now : datetime)
  (ts : pystr) : Prop :=
  exists t delta ki,
    fromisoformat (replace_char ch_Z (py "+00:00") ts) = Ok t
    /\ datetime_sub now t = Ok delta
    /\ getitem (config self) "key_interval" = Ok ki
    /\ within_tolerance delta ki = false.

(** The characters [0-9a-f]. *)
Definition is_lower_hex (c : N) : bool :=
  ((48 <=? c) && (c <=? 57) || (97 <=? c) && (c <=? 102))%N.

(** The fraction printed by [isoformat]. *)
Definition iso_fraction (us : Z) : pystr :=
  if us =? 0 then [] else [ch_dot] ++ fmt_digits 6 us.

(** The time text printed by [isoformat], before the offset. *)
Definition iso_time (h mi s us : Z) : pystr :=
  fmt_digits 2 h ++ [ch_colon] ++ fmt_digits 2 mi ++ [ch_colon]
    ++ fmt_digits 2 s ++ iso_fraction us.

(** The two characters that can start a UTC offset. *)
Definition is_sign (c : N) : bool := (c =? ch_plus)%N || (c =? ch_minus)%N.


(** A code point that UTF-8 can encode: no surrogate, nothing above
    U+10FFFF. *)
Definition is_scalar (c : N) : bool :=
  (c <? 0x110000)%N && negb (is_surrogate c).

(** ASCII and different from ['Z']. *)
Definition plain_char (c : N) : Prop := (c < 128)%N /\ c <> ch_Z.

(* ===================================================================== *)
(** The call that reaches [Session.request] once a body is prepared and
    signed with the triple [(h, ts, n)]. *)
Definition signed_request {Passthrough : Type} (method url : pystr)
  (json_data : json) (kw : kwargs Passthrough) (body : bytes)
  (h ts n : pystr) : Request Passthrough :=
  {| req_method := method;
     req_url := url;
     req_headers := request_headers kw json_data h ts n;
     req_data := if bool_decide (body = []) then None else Some body;
     req_passthrough := kw_passthrough kw |}.

(** ** Concrete clients, instants and signatures *)
(* ===================================================================== *)

(** [HMACClient("http://localhost:8080/", "test-secret-key")]. *)
Definition demo_client : HMACClient :=
  {| base_url := py "http://localhost:8080";
     secret_key := py "test-secret-key";
     config := ∅ ∪ DEFAULT_CONFIG;
     session := Some {| timeout := 30 |} |}.

(** [HMACClient("http://localhost:8080", "k", max_input_size=4)]. *)
Definition tiny_kwargs : gmap string Z := <["max_input_size"%string := 4]> ∅.

Definition tiny_client : HMACClient :=
  {| base_url := py "http://localhost:8080";
     secret_key := py "k";
     config := tiny_kwargs ∪ DEFAULT_CONFIG;
     session := Some {| timeout := 30 |} |}.

(** A client whose key is a lone surrogate: [encode('utf-8')] raises inside
    the verification body. *)
Definition surrogate_client : HMACClient :=
  {| base_url := py "http://localhost:8080";
     secret_key := [0xD800%N];
     config := ∅ ∪ DEFAULT_CONFIG;
     session := Some {| timeout := 30 |} |}.

(** The keyword arguments [key_interval=600, max_input_size=1024]. *)
Definition custom_kwargs : gmap string Z :=
  <["key_interval"%string := 600]> (<["max_input_size"%string := 1024]> ∅).

(** Two different keys with the same key block: ["a"] and ["a\x00"]. *)
Definition client_a : HMACClient :=
  {| base_url := py "http://localhost:8080";
     secret_key := py "a";
     config := ∅ ∪ DEFAULT_CONFIG;
     session := Some {| timeout := 30 |} |}.

Definition client_a0 : HMACClient :=
  {| base_url := py "http://localhost:8080";
     secret_key := [97; 0]%N;
     config := ∅ ∪ DEFAULT_CONFIG;
     session := Some {| timeout := 30 |} |}.

(** A JSON object holding a non-ASCII string and a lone surrogate. *)
Definition json_sample : json :=
  JDict [(py "name", JStr [233%N]);
         (py "tags", JList [JStr [0xD800%N]; JInt 7])].

(** Two clock readings, 200 seconds apart. *)
Definition noon : datetime := Datetime 2024 5 17 12 0 0 0 (Some 0).

Definition a_little_later : datetime := Datetime 2024 5 17 12 3 20 0 (Some 0).

(** The signature made over the ["Z"] spelling, at the instant it names. *)
Definition sig_over_Z : pystr :=
  hexdigest (hmac_sha256 (b_lit "test-secret-key")
               (b_lit "2024-05-17T12:00:00Z:n:test data")).

(** The correct signature over a timestamp 400 seconds old. *)
Definition sig_over_stale : pystr :=
  hexdigest (hmac_sha256 (b_lit "test-secret-key")
               (b_lit "2024-05-17T11:53:20+00:00:n:test data")).

(** A stand-in for what lies outside the client: the path is appended to
    the base, and the transport answers with the body it was sent. *)
Definition join_paths (base path : pystr) : result pystr :=
  Ok (base ++ path).

Definition echo (s : Session) (req : Request unit)
  : outcome (option bytes) unit :=
  Responded (req_data req).

(** A transport that fails with a [RequestException]. *)
Definition unreachable (s : Session) (req : Request unit)
  : outcome (option bytes) unit :=
  RequestException.

(** No keyword argument, and a [headers] dictionary that holds a header of
    the caller and a value under the name of the hash header. *)
Definition no_kwargs : kwargs unit :=
  {| kw_headers := None; kw_passthrough := tt |}.

Definition caller_headers : headers_dict :=
  <[py "X-Trace" := py "1"]> (<[HEADER_HMAC_HASH := py "forged"]> ∅).

Definition headers_kwargs : kwargs unit :=
  {| kw_headers := Some caller_headers; kw_passthrough := tt |}.

(** The triple [sign256] returns for a body at [noon] with the draw 7. *)
Definition noon_hash (body : bytes) : pystr :=
  hexdigest (hmac_sha256 (b_lit "test-secret-key")
               (signed_bytes (isoformat noon) (uuid4 7) body)).

(* ===================================================================== *)
(** * Properties *)
(* ===================================================================== *)

(** Linear arithmetic with division and remainder by constants. *)
Ltac dlia := Z.div_mod_to_equations; lia.

(** ** Configuration *)

Lemma getitem_default_key_interval :
  getitem DEFAULT_CONFIG "key_interval" = Ok 300.
Proof. reflexivity. Qed.

Lemma getitem_default_max_input_size :
  getitem DEFAULT_CONFIG "max_input_size" = Ok 33554432.
Proof. reflexivity. Qed.

Lemma getitem_union_l (kw d : gmap string Z) (k : string) (v : Z) :
  kw !! k = Some v -> getitem (kw ∪ d) k = Ok v.
Proof.
  intros Hk. unfold getitem.
  by rewrite (lookup_union_Some_l kw d k v Hk).
Qed.

Lemma getitem_union_r (kw d : gmap string Z) (k : string) :
  kw !! k = None -> getitem (kw ∪ d) k = getitem d k.
Proof.
  intros Hk. unfold getitem. by rewrite (lookup_union_r kw d k Hk).
Qed.

(** What a successfully constructed client looks like. *)
Lemma init_inv (url key : pystr) (kw : gmap string Z) (self : HMACClient) :
  __init__ url key kw = Ok self ->
  base_url self = rstrip_char 47 url /\
  secret_key self = key /\ key <> [] /\
  config self = kw ∪ DEFAULT_CONFIG /\
  exists ki mis,
    getitem (config self) "key_interval" = Ok ki /\ 0 < ki /\
    getitem (config self) "max_input_size" = Ok mis /\ 0 < mis.
Proof.
  unfold __init__, _validate_config. cbn [secret_key config base_url].
  case_bool_decide as Hkey; [discriminate |].
  destruct (getitem (kw ∪ DEFAULT_CONFIG) "key_interval") as [ki | e] eqn:Hki;
    cbn [bind]; [| discriminate].
  destruct (ki <=? 0) eqn:Hkipos; [discriminate |].
  destruct (getitem (kw ∪ DEFAULT_CONFIG) "max_input_size") as [mis | e] eqn:Hmis;
    cbn [bind]; [| discriminate].
  destruct (mis <=? 0) eqn:Hmispos; [discriminate |].
  destruct (getitem (kw ∪ DEFAULT_CONFIG) "timeout") as [t | e];
    cbn [bind]; [| discriminate].
  intros [= <-]. cbn [secret_key config base_url].
  repeat split; try done.
  exists ki, mis. repeat split; try done; lia.
Qed.

(** ** The size guard *)

Lemma check_input_size_ok (self : HMACClient) (data : bytes) (mis : Z) :
  getitem (config self) "max_input_size" = Ok mis ->
  Z.of_nat (length data) <= mis ->
  _check_input_size self data = Ok tt.
Proof.
  intros Hm Hle. unfold _check_input_size. rewrite Hm. cbn [bind].
  destruct (mis <? Z.of_nat (length data)) eqn:E; [lia | done].
Qed.

Lemma check_input_size_too_large (self : HMACClient) (data : bytes) (mis : Z) :
  getitem (config self) "max_input_size" = Ok mis ->
  mis < Z.of_nat (length data) ->
  _check_input_size self data = Raise InputTooLargeError.
Proof.
  intros Hm Hlt. unfold _check_input_size. rewrite Hm. cbn [bind].
  destruct (mis <? Z.of_nat (length data)) eqn:E; [done | lia].
Qed.

Lemma check_input_size_raises (self : HMACClient) (data : bytes) (e : exn) :
  _check_input_size self data = Raise e ->
  e = KeyError \/
  (e = InputTooLargeError /\
   exists mis, getitem (config self) "max_input_size" = Ok mis
               /\ mis < Z.of_nat (length data)).
Proof.
  unfold _check_input_size.
  destruct (getitem (config self) "max_input_size") as [mis | e'] eqn:Hm;
    cbn [bind].
  - destruct (mis <? Z.of_nat (length data)) eqn:E; [| discriminate].
    intros [= <-]. right. split; [done |]. exists mis. split; [done | lia].
  - intros [= <-]. left. unfold getitem in Hm.
    destruct (config self !! _); congruence.
Qed.

(** The handlers never let anything but [InputTooLargeError] through. *)
Lemma verify_handlers_raise (body : result bool) (e : exn) :
  verify_handlers body = Raise e ->
  e = InputTooLargeError /\ body = Raise InputTooLargeError.
Proof. destruct body as [b | []]; cbn; intros [= <-]; done. Qed.

Lemma verify_handlers_swallow (body : result bool) (e : exn) :
  body = Raise e -> e <> InputTooLargeError -> verify_handlers body = Ok false.
Proof. intros -> He. destruct e; cbn; congruence. Qed.

Lemma verify_handlers_total (body : result bool) :
  (exists b, verify_handlers body = Ok b)
  \/ verify_handlers body = Raise InputTooLargeError.
Proof. destruct body as [b | []]; cbn; eauto. Qed.

Lemma getitem_merged (kw : gmap string Z) (k : string) (v : Z) :
  DEFAULT_CONFIG !! k = Some v ->
  getitem (kw ∪ DEFAULT_CONFIG) k
  = Ok (match kw !! k with Some u => u | None => v end).
Proof.
  intros Hd. destruct (kw !! k) as [u |] eqn:Hk.
  - by apply getitem_union_l.
  - rewrite getitem_union_r by done. unfold getitem. by rewrite Hd.
Qed.

(** ** Clients used as concrete instances *)

Lemma demo_client_init :
  __init__ (py "http://localhost:8080/") (py "test-secret-key") ∅
  = Ok demo_client.
Proof. reflexivity. Qed.

Lemma tiny_client_init :
  __init__ (py "http://localhost:8080") (py "k") tiny_kwargs = Ok tiny_client.
Proof. reflexivity. Qed.

(** ** The size limit on all four operations *)

Lemma sha256_sign_too_large (self : HMACClient) (data : bytes) :
  _check_input_size self data = Raise InputTooLargeError ->
  sha256_sign self data = Raise InputTooLargeError.
Proof. intros H. unfold sha256_sign. by rewrite H. Qed.

Lemma sha256_verify_too_large (self : HMACClient) (data : bytes) (sig : pystr) :
  _check_input_size self data = Raise InputTooLargeError ->
  sha256_verify self data sig = Raise InputTooLargeError.
Proof. intros H. unfold sha256_verify, sha256_verify_try. by rewrite H. Qed.

Lemma sign256_too_large (self : HMACClient) (now : datetime) (rnd : Z)
  (data : bytes) :
  _check_input_size self data = Raise InputTooLargeError ->
  sign256 self now rnd data = Raise InputTooLargeError.
Proof. intros H. unfold sign256. by rewrite H. Qed.

Lemma verify256_too_large (self : HMACClient) (now : datetime) (data : bytes)
  (h ts nonce : pystr) :
  _check_input_size self data = Raise InputTooLargeError ->
  verify256 self now data h ts nonce = Raise InputTooLargeError.
Proof. intros H. unfold verify256, verify256_try. by rewrite H. Qed.

(** Past the guard, nothing raises [InputTooLargeError]. *)
Lemma encode_utf8_raises (s : pystr) (e : exn) :
  encode_utf8 s = Raise e -> e = UnicodeEncodeError.
Proof. unfold encode_utf8. destruct (utf8_encode_opt s); congruence. Qed.

Lemma decode_utf8_raises (bs : bytes) (e : exn) :
  decode_utf8 bs = Raise e -> e = UnicodeDecodeError.
Proof. unfold decode_utf8. destruct (utf8_decode_opt bs); congruence. Qed.

Lemma build_message_raises (ts nonce : pystr) (data : bytes) (e : exn) :
  build_message ts nonce data = Raise e -> e = UnicodeDecodeError.
Proof.
  unfold build_message.
  destruct (decode_utf8 data) as [t | e'] eqn:Hd; cbn [bind]; [discriminate |].
  intros [= <-]. by apply decode_utf8_raises in Hd.
Qed.

Lemma compare_digest_raises (a b : pystr) (e : exn) :
  compare_digest a b = Raise e -> e = TypeError.
Proof. unfold compare_digest. destruct (_ && _); congruence. Qed.

Lemma sha256_sign_past_guard (self : HMACClient) (data : bytes) :
  _check_input_size self data = Ok tt ->
  sha256_sign self data <> Raise InputTooLargeError.
Proof.
  intros H. unfold sha256_sign. rewrite H. cbn [bind].
  destruct (encode_utf8 (secret_key self)) as [k | e] eqn:Hk; cbn [bind];
    [discriminate |].
  apply encode_utf8_raises in Hk. congruence.
Qed.

Lemma sha256_verify_try_past_guard (self : HMACClient) (data : bytes)
  (sig : pystr) :
  _check_input_size self data = Ok tt ->
  sha256_verify_try self data sig <> Raise InputTooLargeError.
Proof.
  intros H. unfold sha256_verify_try. rewrite H. cbn [bind].
  destruct (sha256_sign self data) as [x | e] eqn:Hs; cbn [bind].
  - intros Hc. apply compare_digest_raises in Hc. discriminate.
  - intros [= ->]. by apply (sha256_sign_past_guard self data H).
Qed.

Lemma sign256_past_guard (self : HMACClient) (now : datetime) (rnd : Z)
  (data : bytes) :
  _check_input_size self data = Ok tt ->
  sign256 self now rnd data <> Raise InputTooLargeError.
Proof.
  intros H. unfold sign256. rewrite H. cbn [bind].
  destruct (build_message _ _ data) as [m | e] eqn:Hm; cbn [bind].
  - destruct (encode_utf8 (secret_key self)) as [k | e] eqn:Hk; cbn [bind].
    + destruct (encode_utf8 m) as [mb | e] eqn:Hmb; cbn [bind];
        [discriminate |].
      apply encode_utf8_raises in Hmb. congruence.
    + apply encode_utf8_raises in Hk. congruence.
  - apply build_message_raises in Hm. congruence.
Qed.

Lemma verify256_try_past_guard (self : HMACClient) (now : datetime)
  (data : bytes) (h ts nonce : pystr) :
  _check_input_size self data = Ok tt ->
  verify256_try self now data h ts nonce <> Raise InputTooLargeError.
Proof.
  intros H. unfold verify256_try. rewrite H. cbn [bind].
  destruct (negb _); [discriminate |].
  destruct (build_message _ _ data) as [m | e] eqn:Hm; cbn [bind].
  - destruct (encode_utf8 (secret_key self)) as [k | e] eqn:Hk; cbn [bind].
    + destruct (encode_utf8 m) as [mb | e] eqn:Hmb; cbn [bind].
      * intros Hc. apply compare_digest_raises in Hc. discriminate.
      * apply encode_utf8_raises in Hmb. congruence.
    + apply encode_utf8_raises in Hk. congruence.
  - apply build_message_raises in Hm. congruence.
Qed.

Lemma verify_handlers_ok (body : result bool) :
  body <> Raise InputTooLargeError -> exists b, verify_handlers body = Ok b.
Proof. destruct body as [b | []]; cbn; eauto; congruence. Qed.

(** C3.  A payload of exactly [max_input_size] bytes passes the size guard,
    and none of the four operations stops on the size limit (the two
    verifications return a boolean); a payload of [max_input_size + 1] bytes
    makes each of [sha256_sign], [sha256_verify], [sign256] and [verify256]
    raise [InputTooLargeError]. *)
Theorem C3_size_guard_boundary
  (url key : pystr) (kw : gmap string Z) (self : HMACClient) (mis : Z)
  (now : datetime) (rnd : Z) (data data' : bytes) (sig h ts nonce : pystr) :
  __init__ url key kw = Ok self ->
  getitem (config self) "max_input_size" = Ok mis ->
  Z.of_nat (length data) = mis ->
  Z.of_nat (length data') = mis + 1 ->
  (_check_input_size self data = Ok tt
   /\ sha256_sign self data <> Raise InputTooLargeError
   /\ sign256 self now rnd data <> Raise InputTooLargeError
   /\ (exists b, sha256_verify self data sig = Ok b)
   /\ (exists b, verify256 self now data h ts nonce = Ok b))
  /\
  (sha256_sign self data' = Raise InputTooLargeError
   /\ sign256 self now rnd data' = Raise InputTooLargeError
   /\ sha256_verify self data' sig = Raise InputTooLargeError
   /\ verify256 self now data' h ts nonce = Raise InputTooLargeError).
Proof.
  intros _ Hm Hlen Hlen'.
  assert (Hok : _check_input_size self data = Ok tt)
    by (apply (check_input_size_ok self data mis Hm); lia).
  assert (Hbig : _check_input_size self data' = Raise InputTooLargeError)
    by (apply (check_input_size_too_large self data' mis Hm); lia).
  split.
  - split; [exact Hok |].
    split; [by apply sha256_sign_past_guard |].
    split; [by apply sign256_past_guard |].
    split; apply verify_handlers_ok.
    + by apply sha256_verify_try_past_guard.
    + by apply verify256_try_past_guard.
  - split; [by apply sha256_sign_too_large |].
    split; [by apply sign256_too_large |].
    split; [by apply sha256_verify_too_large | by apply verify256_too_large].
Qed.

Lemma C3_size_guard_boundary_witness :
  (_check_input_size tiny_client (b_lit "abcd") = Ok tt
   /\ sha256_sign tiny_client (b_lit "abcd") <> Raise InputTooLargeError
   /\ sign256 tiny_client noon 7 (b_lit "abcd") <> Raise InputTooLargeError
   /\ (exists b, sha256_verify tiny_client (b_lit "abcd") (py "00") = Ok b)
   /\ (exists b, verify256 tiny_client noon (b_lit "abcd") (py "00")
                   (py "2024-05-17T12:00:00+00:00") (py "n") = Ok b))
  /\
  (sha256_sign tiny_client (b_lit "abcde") = Raise InputTooLargeError
   /\ sign256 tiny_client noon 7 (b_lit "abcde") = Raise InputTooLargeError
   /\ sha256_verify tiny_client (b_lit "abcde") (py "00")
      = Raise InputTooLargeError
   /\ verify256 tiny_client noon (b_lit "abcde") (py "00")
        (py "2024-05-17T12:00:00+00:00") (py "n")
      = Raise InputTooLargeError).
Proof.
  apply (C3_size_guard_boundary (py "http://localhost:8080") (py "k")
           tiny_kwargs tiny_client 4).
  - exact tiny_client_init.
  - reflexivity.
  - reflexivity.
  - reflexivity.
Defined.

(** ** Exceptions escaping the two verifications *)

Lemma sha256_verify_raises_iff (self : HMACClient) (data : bytes) (sig : pystr) :
  sha256_verify self data sig = Raise InputTooLargeError
  <-> _check_input_size self data = Raise InputTooLargeError.
Proof.
  split; [| apply sha256_verify_too_large].
  intros H. apply verify_handlers_raise in H as [_ H].
  destruct (_check_input_size self data) as [[] | e] eqn:Hg.
  - by apply sha256_verify_try_past_guard in H.
  - unfold sha256_verify_try in H. rewrite Hg in H. cbn [bind] in H.
    congruence.
Qed.

Lemma verify256_raises_iff (self : HMACClient) (now : datetime) (data : bytes)
  (h ts nonce : pystr) :
  verify256 self now data h ts nonce = Raise InputTooLargeError
  <-> _check_input_size self data = Raise InputTooLargeError.
Proof.
  split; [| apply verify256_too_large].
  intros H. apply verify_handlers_raise in H as [_ H].
  destruct (_check_input_size self data) as [[] | e] eqn:Hg.
  - by apply verify256_try_past_guard in H.
  - unfold verify256_try in H. rewrite Hg in H. cbn [bind] in H.
    congruence.
Qed.

(** C4.  No exception other than [InputTooLargeError] leaves
    [sha256_verify] or [verify256]: whenever the guarded body raises any
    other exception [e] (a decoding, encoding, parsing, lookup or comparison
    error) the call returns [False]; and [InputTooLargeError] leaves them
    exactly when the size guard raised it. *)
Theorem C4_only_input_too_large_propagates
  (self : HMACClient) (now : datetime) (data : bytes)
  (sig h ts nonce : pystr) (e : exn) :
  e <> InputTooLargeError ->
  sha256_verify self data sig <> Raise e
  /\ verify256 self now data h ts nonce <> Raise e
  /\ (sha256_verify_try self data sig = Raise e ->
      sha256_verify self data sig = Ok false)
  /\ (verify256_try self now data h ts nonce = Raise e ->
      verify256 self now data h ts nonce = Ok false)
  /\ (sha256_verify self data sig = Raise InputTooLargeError
      <-> _check_input_size self data = Raise InputTooLargeError)
  /\ (verify256 self now data h ts nonce = Raise InputTooLargeError
      <-> _check_input_size self data = Raise InputTooLargeError).
Proof.
  intros He.
  split; [intros H; apply verify_handlers_raise in H as [-> _]; done |].
  split; [intros H; apply verify_handlers_raise in H as [-> _]; done |].
  split; [intros H; by apply (verify_handlers_swallow _ e) |].
  split; [intros H; by apply (verify_handlers_swallow _ e) |].
  split; [apply sha256_verify_raises_iff | apply verify256_raises_iff].
Qed.

Lemma surrogate_client_init :
  __init__ (py "http://localhost:8080") [0xD800%N] ∅ = Ok surrogate_client.
Proof. reflexivity. Qed.

Lemma C4_only_input_too_large_propagates_witness :
  sha256_verify_try surrogate_client (b_lit "x") (py "00")
    = Raise UnicodeEncodeError
  /\ sha256_verify surrogate_client (b_lit "x") (py "00") = Ok false
  /\ verify256_try demo_client noon [xff] (py "00")
       (py "2024-05-17T12:00:00Z") (py "n") = Raise UnicodeDecodeError
  /\ verify256 demo_client noon [xff] (py "00")
       (py "2024-05-17T12:00:00Z") (py "n") = Ok false.
Proof.
  assert (E1 : sha256_verify_try surrogate_client (b_lit "x") (py "00")
               = Raise UnicodeEncodeError) by reflexivity.
  assert (E2 : verify256_try demo_client noon [xff] (py "00")
                 (py "2024-05-17T12:00:00Z") (py "n")
               = Raise UnicodeDecodeError) by (vm_compute; reflexivity).
  destruct (C4_only_input_too_large_propagates surrogate_client noon
              (b_lit "x") (py "00") (py "00") (py "t") (py "n")
              UnicodeEncodeError) as (_ & _ & S1 & _); [discriminate |].
  destruct (C4_only_input_too_large_propagates demo_client noon
              [xff] (py "00") (py "00") (py "2024-05-17T12:00:00Z") (py "n")
              UnicodeDecodeError) as (_ & _ & _ & S2 & _); [discriminate |].
  split; [exact E1 |].
  split; [exact (S1 E1) |].
  split; [exact E2 | exact (S2 E2)].
Defined.

(** ** Construction *)

(** C8.  [key_interval] and [max_input_size] of the merged configuration
    are the caller's values where given and the defaults 300 and 33554432
    otherwise.  Construction raises [ConfigurationError] when the secret key
    is empty or one of the two is not positive; otherwise it returns a client
    holding exactly the merged configuration. *)
Theorem C8_construction_validates
  (url key : pystr) (kw : gmap string Z) (ki mis : Z) :
  ki = match kw !! "key_interval"%string with Some v => v | None => 300 end ->
  mis = match kw !! "max_input_size"%string with
        | Some v => v | None => 33554432 end ->
  getitem (kw ∪ DEFAULT_CONFIG) "key_interval" = Ok ki
  /\ getitem (kw ∪ DEFAULT_CONFIG) "max_input_size" = Ok mis
  /\ (key = [] \/ ki <= 0 \/ mis <= 0 ->
      __init__ url key kw = Raise ConfigurationError)
  /\ (key <> [] -> 0 < ki -> 0 < mis ->
      exists self,
        __init__ url key kw = Ok self
        /\ secret_key self = key
        /\ config self = kw ∪ DEFAULT_CONFIG
        /\ (forall k, config self !! k
                      = match kw !! k with
                        | Some v => Some v
                        | None => DEFAULT_CONFIG !! k
                        end)).
Proof.
  intros -> ->.
  assert (Hki := getitem_merged kw "key_interval" 300 eq_refl).
  assert (Hmis := getitem_merged kw "max_input_size" 33554432 eq_refl).
  assert (Hto := getitem_merged kw "timeout" 30 eq_refl).
  split; [exact Hki |]. split; [exact Hmis |].
  set (ki := match kw !! "key_interval"%string with
             | Some v => v | None => 300 end) in *.
  set (mis := match kw !! "max_input_size"%string with
              | Some v => v | None => 33554432 end) in *.
  split.
  - intros Hbad. unfold __init__, _validate_config.
    cbn [secret_key config base_url].
    case_bool_decide as Hkey; [reflexivity |].
    rewrite Hki. cbn [bind].
    destruct (ki <=? 0) eqn:E1; [reflexivity |].
    rewrite Hmis. cbn [bind].
    destruct (mis <=? 0) eqn:E2; [reflexivity |].
    destruct Hbad as [? | [? | ?]]; [done | lia | lia].
  - intros Hkey Hp1 Hp2. unfold __init__, _validate_config.
    cbn [secret_key config base_url].
    case_bool_decide as Hkey'; [done |].
    rewrite Hki. cbn [bind].
    destruct (ki <=? 0) eqn:E1; [lia |].
    rewrite Hmis. cbn [bind].
    destruct (mis <=? 0) eqn:E2; [lia |].
    rewrite Hto. cbn [bind].
    eexists. split; [reflexivity |]. cbn [secret_key config].
    split; [done |]. split; [done |].
    intros k. destruct (kw !! k) as [v |] eqn:Hk.
    + by apply lookup_union_Some_l.
    + by apply lookup_union_r.
Qed.

Lemma C8_construction_validates_witness :
  getitem (custom_kwargs ∪ DEFAULT_CONFIG) "key_interval" = Ok 600
  /\ getitem (custom_kwargs ∪ DEFAULT_CONFIG) "max_input_size" = Ok 1024
  /\ (py "secret" = [] \/ 600 <= 0 \/ 1024 <= 0 ->
      __init__ (py "http://example.com/") (py "secret") custom_kwargs
      = Raise ConfigurationError)
  /\ (py "secret" <> [] -> 0 < 600 -> 0 < 1024 ->
      exists self,
        __init__ (py "http://example.com/") (py "secret") custom_kwargs
        = Ok self
        /\ secret_key self = py "secret"
        /\ config self = custom_kwargs ∪ DEFAULT_CONFIG
        /\ (forall k, config self !! k
                      = match custom_kwargs !! k with
                        | Some v => Some v
                        | None => DEFAULT_CONFIG !! k
                        end)).
Proof.
  apply (C8_construction_validates (py "http://example.com/") (py "secret")
           custom_kwargs 600 1024); reflexivity.
Defined.

(** The three rejections of the constructor, and the defaults, on the
    calls of the test suite. *)
Example init_rejects_empty_key :
  __init__ (py "http://localhost:8080") [] ∅ = Raise ConfigurationError.
Proof. reflexivity. Qed.

Example init_rejects_zero_interval :
  __init__ (py "http://localhost:8080") (py "secret")
    (<["key_interval"%string := 0]> ∅) = Raise ConfigurationError.
Proof. reflexivity. Qed.

Example init_rejects_negative_size :
  __init__ (py "http://localhost:8080") (py "secret")
    (<["max_input_size"%string := -1]> ∅) = Raise ConfigurationError.
Proof. reflexivity. Qed.

Example init_defaults :
  getitem (config demo_client) "key_interval" = Ok 300
  /\ getitem (config demo_client) "max_input_size" = Ok 33554432
  /\ getitem (config demo_client) "timeout" = Ok 30.
Proof. repeat split. Qed.

(** ** Payloads that are not UTF-8 *)

(** C9.  For a payload within the size limit that is not valid UTF-8,
    [sign256] raises [UnicodeDecodeError] to its caller, while [verify256]
    returns [False], whatever the other arguments are. *)
Theorem C9_invalid_utf8_asymmetry
  (url key : pystr) (kw : gmap string Z) (self : HMACClient) (mis : Z)
  (now now' : datetime) (rnd : Z) (data : bytes) (h ts nonce : pystr) :
  __init__ url key kw = Ok self ->
  getitem (config self) "max_input_size" = Ok mis ->
  Z.of_nat (length data) <= mis ->
  utf8_decode_opt data = None ->
  sign256 self now rnd data = Raise UnicodeDecodeError
  /\ verify256 self now' data h ts nonce = Ok false.
Proof.
  intros _ Hm Hlen Hdec.
  assert (Hok := check_input_size_ok self data mis Hm Hlen).
  assert (Hbm : forall t n, build_message t n data = Raise UnicodeDecodeError).
  { intros t n. unfold build_message, decode_utf8. by rewrite Hdec. }
  split.
  - unfold sign256. rewrite Hok. cbn [bind]. by rewrite Hbm.
  - unfold verify256, verify256_try. rewrite Hok. cbn [bind].
    destruct (negb _); [reflexivity |]. by rewrite Hbm.
Qed.

Lemma C9_invalid_utf8_asymmetry_witness :
  sign256 demo_client noon 7 [xff; xfe] = Raise UnicodeDecodeError
  /\ verify256 demo_client noon [xff; xfe] (py "00")
       (py "2024-05-17T12:00:00+00:00") (py "n") = Ok false.
Proof.
  apply (C9_invalid_utf8_asymmetry (py "http://localhost:8080/")
           (py "test-secret-key") ∅ demo_client 33554432).
  - exact demo_client_init.
  - reflexivity.
  - cbn. lia.
  - reflexivity.
Defined.

(** ** Bytes, hexadecimal text and digests *)

Lemma byte_to_Z_range (b : byte) : 0 <= byte_to_Z b < 256.
Proof.
  unfold byte_to_Z. pose proof (Byte.to_N_bounded b). lia.
Qed.

Lemma byte_of_to_Z (b : byte) : byte_of_Z (byte_to_Z b) = b.
Proof.
  unfold byte_of_Z. pose proof (byte_to_Z_range b) as Hr.
  rewrite Z.mod_small by lia. unfold byte_to_Z.
  rewrite N2Z.id. by rewrite Byte.of_to_N.
Qed.

Lemma byte_to_Z_inj (a b : byte) : byte_to_Z a = byte_to_Z b -> a = b.
Proof.
  intros H. rewrite <- (byte_of_to_Z a), <- (byte_of_to_Z b). by rewrite H.
Qed.

Lemma hex_digit_inj (a b : Z) :
  0 <= a < 16 -> 0 <= b < 16 -> hex_digit a = hex_digit b -> a = b.
Proof.
  unfold hex_digit. intros Ha Hb H.
  destruct (a <? 10) eqn:Ea, (b <? 10) eqn:Eb; lia.
Qed.

Lemma hex_digit_lower (d : Z) :
  0 <= d < 16 ->
  let c := hex_digit d in
  ((48 <= c /\ c <= 57) \/ (97 <= c /\ c <= 102))%N.
Proof.
  unfold hex_digit. intros Hd. cbv zeta.
  destruct (d <? 10) eqn:E; lia.
Qed.

Lemma hex_digit_is_lower_hex (d : Z) :
  0 <= d < 16 -> is_lower_hex (hex_digit d) = true.
Proof.
  intros Hd. pose proof (hex_digit_lower d Hd) as H. cbv zeta in H.
  unfold is_lower_hex.
  destruct H as [[? ?] | [? ?]].
  - apply orb_true_iff. left. apply andb_true_iff. split; apply N.leb_le; lia.
  - apply orb_true_iff. right. apply andb_true_iff. split; apply N.leb_le; lia.
Qed.

Lemma is_lower_hex_ascii (c : N) : is_lower_hex c = true -> (c <? 128)%N = true.
Proof.
  unfold is_lower_hex. intros H. apply N.ltb_lt.
  apply orb_true_iff in H as [H | H]; apply andb_true_iff in H as [H1 H2];
    apply N.leb_le in H1, H2; lia.
Qed.

Lemma hex_byte_inj (a b : byte) : hex_byte a = hex_byte b -> a = b.
Proof.
  unfold hex_byte. intros [= H1 H2]. apply byte_to_Z_inj.
  pose proof (byte_to_Z_range a). pose proof (byte_to_Z_range b).
  apply hex_digit_inj in H1; [| dlia | dlia].
  apply hex_digit_inj in H2; [| dlia | dlia].
  dlia.
Qed.

Lemma hexdigest_inj (a b : bytes) : hexdigest a = hexdigest b -> a = b.
Proof.
  revert b. induction a as [| x a IH]; intros [| y b]; cbn; try done.
  intros [= H1 H2 H3]. f_equal.
  - apply hex_byte_inj. unfold hex_byte. by rewrite H1, H2.
  - by apply IH.
Qed.

Lemma hexdigest_length (bs : bytes) :
  length (hexdigest bs) = (2 * length bs)%nat.
Proof.
  unfold hexdigest. induction bs as [| b bs IH]; cbn [flat_map]; [done |].
  rewrite length_app, IH. cbn. lia.
Qed.

Lemma hexdigest_lower_hex (bs : bytes) :
  forallb is_lower_hex (hexdigest bs) = true.
Proof.
  induction bs as [| b bs IH]; cbn; [done |].
  pose proof (byte_to_Z_range b).
  rewrite !hex_digit_is_lower_hex by dlia. exact IH.
Qed.

Lemma hexdigest_is_ascii (bs : bytes) : is_ascii (hexdigest bs) = true.
Proof.
  pose proof (hexdigest_lower_hex bs) as H. unfold is_ascii.
  rewrite forallb_forall in *. intros c Hc.
  apply is_lower_hex_ascii. by apply H.
Qed.

Lemma sha256_length (msg : bytes) : length (SHA256.sha256 msg) = 32%nat.
Proof. reflexivity. Qed.

Lemma hmac_sha256_length (key msg : bytes) : length (hmac_sha256 key msg) = 32%nat.
Proof. apply sha256_length. Qed.

Lemma compare_digest_hexdigest (a b : bytes) :
  compare_digest (hexdigest a) (hexdigest b) = Ok (bool_decide (a = b)).
Proof.
  unfold compare_digest. rewrite !hexdigest_is_ascii. cbn [andb].
  f_equal. apply bool_decide_ext. split; [apply hexdigest_inj | by intros ->].
Qed.

(** ** Stateless signing *)

Lemma sha256_sign_ok (self : HMACClient) (data : bytes) (mis : Z) (kb : bytes) :
  getitem (config self) "max_input_size" = Ok mis ->
  Z.of_nat (length data) <= mis ->
  utf8_encode_opt (secret_key self) = Some kb ->
  sha256_sign self data = Ok (hexdigest (hmac_sha256 kb data)).
Proof.
  intros Hm Hlen Hk. unfold sha256_sign.
  rewrite (check_input_size_ok self data mis Hm Hlen). cbn [bind].
  unfold encode_utf8. by rewrite Hk.
Qed.

(** C7.  Within the size limit, [sha256_sign] returns the hexadecimal text
    of HMAC-SHA256 of the payload under the UTF-8 bytes of the key: 64
    characters, all in [0-9a-f]; it is a function of the client and the
    payload alone.  For the key ["test-secret-key"] and the payload
    [b"test data"] the value is the HMAC-SHA256 of those bytes. *)
Theorem C7_sha256_sign_is_hmac_hex
  (url key : pystr) (kw : gmap string Z) (self : HMACClient) (mis : Z)
  (kb data : bytes) :
  __init__ url key kw = Ok self ->
  getitem (config self) "max_input_size" = Ok mis ->
  Z.of_nat (length data) <= mis ->
  utf8_encode_opt key = Some kb ->
  exists sig,
    sha256_sign self data = Ok sig
    /\ sig = hexdigest (hmac_sha256 kb data)
    /\ length sig = 64%nat
    /\ forallb is_lower_hex sig = true
    /\ sha256_sign demo_client (b_lit "test data")
       = Ok (hexdigest (hmac_sha256 (b_lit "test-secret-key")
                                    (b_lit "test data")))
    /\ hexdigest (hmac_sha256 (b_lit "test-secret-key") (b_lit "test data"))
       = py "e01301d91b3425a4bdaed491b18bd8ec841364fdd41345200c6ea0de115bb72c".
Proof.
  intros Hinit Hm Hlen Hk.
  apply init_inv in Hinit as (_ & Hkey & _).
  exists (hexdigest (hmac_sha256 kb data)).
  split; [apply (sha256_sign_ok self data mis kb Hm Hlen); by rewrite Hkey |].
  split; [reflexivity |].
  split; [by rewrite hexdigest_length, hmac_sha256_length |].
  split; [apply hexdigest_lower_hex |].
  split; [| vm_compute; reflexivity].
  apply (sha256_sign_ok demo_client _ 33554432); [reflexivity | cbn; lia |].
  reflexivity.
Qed.

Lemma C7_sha256_sign_is_hmac_hex_witness :
  exists sig,
    sha256_sign demo_client (b_lit "test data") = Ok sig
    /\ sig = hexdigest (hmac_sha256 (b_lit "test-secret-key")
                                    (b_lit "test data"))
    /\ length sig = 64%nat
    /\ forallb is_lower_hex sig = true
    /\ sha256_sign demo_client (b_lit "test data")
       = Ok (hexdigest (hmac_sha256 (b_lit "test-secret-key")
                                    (b_lit "test data")))
    /\ hexdigest (hmac_sha256 (b_lit "test-secret-key") (b_lit "test data"))
       = py "e01301d91b3425a4bdaed491b18bd8ec841364fdd41345200c6ea0de115bb72c".
Proof.
  apply (C7_sha256_sign_is_hmac_hex (py "http://localhost:8080/")
           (py "test-secret-key") ∅ demo_client 33554432
           (b_lit "test-secret-key") (b_lit "test data")).
  - exact demo_client_init.
  - reflexivity.
  - cbn. lia.
  - reflexivity.
Defined.

(** Known answers of the hash itself (FIPS 180-4 examples). *)
Example sha256_empty :
  hexdigest (SHA256.sha256 [])
  = py "e3b0c44298fc1c149afbf4c8996fb92427ae41e4649b934ca495991b7852b855".
Proof. vm_compute. reflexivity. Qed.

Example sha256_abc :
  hexdigest (SHA256.sha256 (b_lit "abc"))
  = py "ba7816bf8f01cfea414140de5dae2223b00361a396177a9cb410ff61f20015ad".
Proof. vm_compute. reflexivity. Qed.

(** ** Stateless verification *)

Lemma sha256_verify_value (self : HMACClient) (data : bytes) (mis : Z)
  (kb other : bytes) :
  getitem (config self) "max_input_size" = Ok mis ->
  Z.of_nat (length data) <= mis ->
  utf8_encode_opt (secret_key self) = Some kb ->
  sha256_verify self data (hexdigest other)
  = Ok (bool_decide (hmac_sha256 kb data = other)).
Proof.
  intros Hm Hlen Hk. unfold sha256_verify, sha256_verify_try.
  rewrite (check_input_size_ok self data mis Hm Hlen). cbn [bind].
  rewrite (sha256_sign_ok self data mis kb Hm Hlen Hk). cbn [bind].
  by rewrite compare_digest_hexdigest.
Qed.

(** Keys with the same key block give the same HMAC. *)
Lemma hmac_sha256_key_block (k k' msg : bytes) :
  hmac_key_block k = hmac_key_block k' ->
  hmac_sha256 k msg = hmac_sha256 k' msg.
Proof. intros H. unfold hmac_sha256. by rewrite H. Qed.

(** C2 (as amended).  Within the size limit, the signature that
    [sha256_sign] produces under a key verifies under that key.  Under a
    second key it verifies exactly when the two keys give the same
    HMAC-SHA256 of the payload, which is the case whenever they have the
    same 64-byte key block (zero padded, or hashed first when longer than a
    block); otherwise [sha256_verify] returns [False]. *)
Theorem C2_sign_verify_keys
  (url key key' : pystr) (kw : gmap string Z) (self self' : HMACClient)
  (mis : Z) (kb kb' data : bytes) :
  __init__ url key kw = Ok self ->
  __init__ url key' kw = Ok self' ->
  getitem (config self) "max_input_size" = Ok mis ->
  Z.of_nat (length data) <= mis ->
  utf8_encode_opt key = Some kb ->
  utf8_encode_opt key' = Some kb' ->
  exists sig,
    sha256_sign self data = Ok sig
    /\ sha256_verify self data sig = Ok true
    /\ sha256_verify self' data sig
       = Ok (bool_decide (hmac_sha256 kb' data = hmac_sha256 kb data))
    /\ (hmac_key_block kb' = hmac_key_block kb ->
        sha256_verify self' data sig = Ok true)
    /\ (hmac_sha256 kb' data <> hmac_sha256 kb data ->
        sha256_verify self' data sig = Ok false).
Proof.
  intros Hi Hi' Hm Hlen Hk Hk'.
  apply init_inv in Hi as (_ & Hkey & _ & Hcfg & _).
  apply init_inv in Hi' as (_ & Hkey' & _ & Hcfg' & _).
  assert (Hm' : getitem (config self') "max_input_size" = Ok mis)
    by (rewrite Hcfg'; by rewrite <- Hcfg).
  rewrite <- Hkey in Hk. rewrite <- Hkey' in Hk'.
  assert (Hv := sha256_verify_value self' data mis kb' (hmac_sha256 kb data)
                  Hm' Hlen Hk').
  exists (hexdigest (hmac_sha256 kb data)).
  split; [by apply (sha256_sign_ok self data mis kb) |].
  split.
  { rewrite (sha256_verify_value self data mis kb _ Hm Hlen Hk).
    by rewrite bool_decide_eq_true_2. }
  split; [exact Hv |].
  split.
  - intros Hb. rewrite Hv. f_equal. apply bool_decide_eq_true_2.
    by apply hmac_sha256_key_block.
  - intros Hne. rewrite Hv. f_equal. by apply bool_decide_eq_false_2.
Qed.

Lemma C2_sign_verify_keys_witness :
  exists sig,
    sha256_sign client_a (b_lit "test data") = Ok sig
    /\ sha256_verify client_a (b_lit "test data") sig = Ok true
    /\ sha256_verify demo_client (b_lit "test data") sig
       = Ok (bool_decide (hmac_sha256 (b_lit "test-secret-key")
                                      (b_lit "test data")
                          = hmac_sha256 (b_lit "a") (b_lit "test data")))
    /\ (hmac_key_block (b_lit "test-secret-key") = hmac_key_block (b_lit "a") ->
        sha256_verify demo_client (b_lit "test data") sig = Ok true)
    /\ (hmac_sha256 (b_lit "test-secret-key") (b_lit "test data")
        <> hmac_sha256 (b_lit "a") (b_lit "test data") ->
        sha256_verify demo_client (b_lit "test data") sig = Ok false).
Proof.
  apply (C2_sign_verify_keys (py "http://localhost:8080/") (py "a")
           (py "test-secret-key") ∅ client_a demo_client 33554432
           (b_lit "a") (b_lit "test-secret-key") (b_lit "test data")).
  - reflexivity.
  - exact demo_client_init.
  - reflexivity.
  - cbn. lia.
  - reflexivity.
  - reflexivity.
Defined.

(** C2 as stated fails: the keys ["a"] and ["a\x00"] differ, yet the
    signature made under the first verifies under the second. *)
Lemma C2_different_key_accepted :
  secret_key client_a <> secret_key client_a0
  /\ __init__ (py "http://localhost:8080") (py "a") ∅ = Ok client_a
  /\ __init__ (py "http://localhost:8080") [97; 0]%N ∅ = Ok client_a0
  /\ exists sig,
       sha256_sign client_a (b_lit "test data") = Ok sig
       /\ sha256_verify client_a0 (b_lit "test data") sig = Ok true
       /\ sha256_verify client_a0 (b_lit "test data") sig <> Ok false.
Proof.
  split; [discriminate |].
  split; [reflexivity |].
  split; [reflexivity |].
  exists (hexdigest (hmac_sha256 (b_lit "a") (b_lit "test data"))).
  split; [reflexivity |].
  assert (E : sha256_verify client_a0 (b_lit "test data")
                (hexdigest (hmac_sha256 (b_lit "a") (b_lit "test data")))
              = Ok true) by (vm_compute; reflexivity).
  split; [exact E |]. rewrite E. discriminate.
Qed.

(** Under an unrelated key the same signature is rejected. *)
Example sha256_verify_other_key :
  sha256_verify demo_client (b_lit "test data")
    (hexdigest (hmac_sha256 (b_lit "a") (b_lit "test data"))) = Ok false.
Proof. vm_compute. reflexivity. Qed.

(** ** The rounded quotient of [total_seconds] *)

Lemma round_half_even_le (n d N : Z) :
  0 < d -> n <= N * d -> round_half_even n d <= N.
Proof.
  intros Hd Hn. unfold round_half_even.
  assert (Hq : n / d <= N) by (apply Z.div_le_upper_bound; lia).
  pose proof (Z.div_mod n d ltac:(lia)) as Hdm.
  pose proof (Z.mod_pos_bound n d Hd) as Hr.
  destruct (2 * (n mod d) <? d) eqn:E1; [exact Hq |].
  assert (n / d <> N) by (intros Heq; rewrite Heq in *; lia).
  destruct (d <? 2 * (n mod d)); [lia |].
  destruct (Z.even (n / d)); lia.
Qed.

Lemma round_half_even_ge (n d N : Z) :
  0 < d -> N * d <= n -> N <= round_half_even n d.
Proof.
  intros Hd Hn. unfold round_half_even.
  assert (Hq : N <= n / d) by (apply Z.div_le_lower_bound; lia).
  destruct (2 * (n mod d) <? d); [exact Hq |].
  destruct (d <? 2 * (n mod d)); [lia |].
  destruct (Z.even (n / d)); lia.
Qed.

(** More than half a unit above [N] rounds to at least [N + 1]. *)
Lemma round_half_even_above (n d N h : Z) :
  0 < d -> N * d + h <= n -> d < 2 * h -> N + 1 <= round_half_even n d.
Proof.
  intros Hd Hn Hh. unfold round_half_even.
  assert (Hq : N <= n / d) by (apply Z.div_le_lower_bound; lia).
  pose proof (Z.div_mod n d ltac:(lia)) as Hdm.
  pose proof (Z.mod_pos_bound n d Hd) as Hr.
  destruct (Z.eq_dec (n / d) N) as [Heq | Hne].
  - rewrite Heq in *.
    assert (h <= n mod d) by nia.
    destruct (2 * (n mod d) <? d) eqn:E1; [lia |].
    destruct (d <? 2 * (n mod d)) eqn:E2; lia.
  - destruct (2 * (n mod d) <? d); [lia |].
    destruct (d <? 2 * (n mod d)); [lia |].
    destruct (Z.even (n / d)); lia.
Qed.

Lemma floor_log2_ratio_lt (n d t : Z) :
  0 < n -> 0 < d -> 0 <= t -> n < 2 ^ t * d -> floor_log2_ratio n d < t.
Proof.
  intros Hn Hd Ht Hlt. unfold floor_log2_ratio.
  pose proof (Z.log2_spec n Hn) as [Hn1 Hn2].
  pose proof (Z.log2_spec d Hd) as [Hd1 Hd2].
  pose proof (Z.log2_nonneg n) as Hln. pose proof (Z.log2_nonneg d) as Hld.
  assert (He0 : Z.log2 n - Z.log2 d <= t).
  { assert (H : 2 ^ Z.log2 n < 2 ^ (t + Z.succ (Z.log2 d))).
    { rewrite Z.pow_add_r by lia.
      assert (0 < 2 ^ t) by (apply Z.pow_pos_nonneg; lia). nia. }
    assert (Z.log2 n < t + Z.succ (Z.log2 d))
      by (apply (Z.pow_lt_mono_r_iff 2); [lia | lia | exact H]).
    lia. }
  remember (Z.log2 n - Z.log2 d) as e0 eqn:Hdef. clear Hdef.
  destruct (Z.eq_dec e0 t) as [-> | Hne].
  - unfold scale2. destruct (0 <=? - t) eqn:E.
    + assert (Ht0 : t = 0) by lia. rewrite Ht0 in *.
      change (2 ^ (- 0)) with 1. change (2 ^ 0) with 1 in Hlt.
      destruct (n * 1 <? d) eqn:E2; lia.
    + rewrite Z.opp_involutive.
      destruct (n <? d * 2 ^ t) eqn:E2; lia.
  - destruct (scale2 n d (- e0)) as [n' d'].
    destruct (n' <? d'); lia.
Qed.

(** Below [2^53] the nearest binary64 is [m / 2^s] with [s >= 0]. *)
Lemma binary64_of_ratio_small (n d : Z) :
  0 < n -> 0 < d -> n < 2 ^ 53 * d ->
  let s := 52 - floor_log2_ratio n d in
  0 <= s /\
  (binary64_of_ratio n d
   == Qmake (round_half_even (n * 2 ^ s) d) (Z.to_pos (2 ^ s)))%Q.
Proof.
  intros Hn Hd Hlt.
  pose proof (floor_log2_ratio_lt n d 53 Hn Hd ltac:(lia) Hlt) as He.
  cbv zeta. split; [lia |].
  unfold binary64_of_ratio. unfold scale2 at 1.
  destruct (0 <=? 52 - floor_log2_ratio n d) eqn:E; [| lia].
  destruct (52 <=? floor_log2_ratio n d) eqn:E2; [| reflexivity].
  assert (Heq : floor_log2_ratio n d = 52) by lia.
  rewrite Heq. change (52 - 52) with 0. change (2 ^ 0) with 1.
  unfold Qeq, inject_Z. cbn. lia.
Qed.

Lemma pow2_pos (s : Z) : 0 <= s -> 0 < 2 ^ s.
Proof. intros. apply Z.pow_pos_nonneg; lia. Qed.

Lemma binary64_of_ratio_le (n d k : Z) :
  0 < n -> 0 < d -> n < 2 ^ 53 * d -> n <= k * d ->
  (binary64_of_ratio n d <= inject_Z k)%Q.
Proof.
  intros Hn Hd Hlt Hk.
  destruct (binary64_of_ratio_small n d Hn Hd Hlt) as [Hs ->].
  set (s := 52 - floor_log2_ratio n d) in *.
  pose proof (pow2_pos s Hs) as Hp.
  unfold Qle, inject_Z. cbn [Qnum Qden]. rewrite Z2Pos.id by exact Hp.
  assert (round_half_even (n * 2 ^ s) d <= k * 2 ^ s)
    by (apply round_half_even_le; nia).
  lia.
Qed.

Lemma binary64_of_ratio_ge (n d k : Z) :
  0 < n -> 0 < d -> n < 2 ^ 53 * d -> k * d <= n ->
  (inject_Z k <= binary64_of_ratio n d)%Q.
Proof.
  intros Hn Hd Hlt Hk.
  destruct (binary64_of_ratio_small n d Hn Hd Hlt) as [Hs ->].
  set (s := 52 - floor_log2_ratio n d) in *.
  pose proof (pow2_pos s Hs) as Hp.
  unfold Qle, inject_Z. cbn [Qnum Qden]. rewrite Z2Pos.id by exact Hp.
  assert (k * 2 ^ s <= round_half_even (n * 2 ^ s) d)
    by (apply round_half_even_ge; nia).
  lia.
Qed.

(** Below [2^34] seconds, one microsecond more than [k] seconds is still
    told apart from [k]. *)
Lemma binary64_of_ratio_gt (n k : Z) :
  0 <= k -> k * 1000000 < n -> n < 2 ^ 34 * 1000000 ->
  (inject_Z k < binary64_of_ratio n 1000000)%Q.
Proof.
  intros Hk Hn Hlt.
  assert (Hn0 : 0 < n) by lia.
  assert (Hlt53 : n < 2 ^ 53 * 1000000) by lia.
  destruct (binary64_of_ratio_small n 1000000 Hn0 ltac:(lia) Hlt53) as [_ ->].
  pose proof (floor_log2_ratio_lt n 1000000 34 Hn0 ltac:(lia) ltac:(lia) Hlt)
    as He.
  set (s := 52 - floor_log2_ratio n 1000000) in *.
  assert (Hs : 19 <= s) by lia.
  pose proof (pow2_pos s ltac:(lia)) as Hp.
  assert (Hp19 : 2 ^ 19 <= 2 ^ s) by (apply Z.pow_le_mono_r; lia).
  change (2 ^ 19) with 524288 in Hp19.
  unfold Qlt, inject_Z. cbn [Qnum Qden]. rewrite Z2Pos.id by exact Hp.
  assert (k * 2 ^ s + 1 <= round_half_even (n * 2 ^ s) 1000000)
    by (apply (round_half_even_above _ _ _ (2 ^ s)); nia).
  lia.
Qed.

Lemma round_half_even_nonneg (n d : Z) :
  0 <= n -> 0 < d -> 0 <= round_half_even n d.
Proof. intros. apply round_half_even_ge; lia. Qed.

Lemma binary64_of_ratio_nonneg (n d : Z) :
  0 < n -> 0 < d -> (0 <= binary64_of_ratio n d)%Q.
Proof.
  intros Hn Hd. unfold binary64_of_ratio.
  set (e := floor_log2_ratio n d).
  assert (Hm : 0 <= (let '(n', d') := scale2 n d (52 - e) in
                     round_half_even n' d')).
  { unfold scale2. destruct (0 <=? 52 - e) eqn:E.
    - apply round_half_even_nonneg; [| lia].
      pose proof (pow2_pos (52 - e) ltac:(lia)). nia.
    - apply round_half_even_nonneg; [lia |].
      pose proof (pow2_pos (- (52 - e)) ltac:(lia)). nia. }
  destruct (scale2 n d (52 - e)) as [n' d'].
  destruct (52 <=? e) eqn:E.
  - unfold Qle, inject_Z. cbn [Qnum Qden].
    pose proof (pow2_pos (e - 52) ltac:(lia)). nia.
  - unfold Qle. cbn [Qnum Qden]. lia.
Qed.

Lemma Qabs_total_seconds (td : Z) :
  (Qabs (total_seconds td) == total_seconds (Z.abs td))%Q.
Proof.
  unfold total_seconds, int_truediv.
  destruct (td =? 0) eqn:E0.
  - assert (td = 0) by lia. subst td. reflexivity.
  - destruct (td <? 0) eqn:E1.
    + assert (Hab : Z.abs td = - td) by lia. rewrite Hab.
      destruct (- td =? 0) eqn:E2; [lia |].
      destruct (- td <? 0) eqn:E3; [lia |].
      rewrite Qabs_opp. apply Qabs_pos.
      apply binary64_of_ratio_nonneg; lia.
    + assert (Hab : Z.abs td = td) by lia. rewrite Hab, E0, E1.
      apply Qabs_pos. apply binary64_of_ratio_nonneg; lia.
Qed.

Lemma within_tolerance_accept (td k : Z) :
  Z.abs td < 2 ^ 53 * 1000000 -> Z.abs td <= k * 1000000 ->
  within_tolerance td k = true.
Proof.
  intros Hb Hk. unfold within_tolerance. apply Qle_bool_iff.
  rewrite Qabs_total_seconds. unfold total_seconds, int_truediv.
  destruct (Z.abs td =? 0) eqn:E0.
  - unfold Qle, inject_Z. cbn. lia.
  - destruct (Z.abs td <? 0) eqn:E1; [lia |].
    apply binary64_of_ratio_le; lia.
Qed.

Lemma within_tolerance_reject (td k : Z) :
  0 <= k -> Z.abs td < 2 ^ 53 * 1000000 -> (k + 1) * 1000000 <= Z.abs td ->
  within_tolerance td k = false.
Proof.
  intros Hk0 Hb Hk. unfold within_tolerance.
  apply not_true_is_false. intros H. apply Qle_bool_iff in H.
  rewrite Qabs_total_seconds in H. unfold total_seconds, int_truediv in H.
  destruct (Z.abs td =? 0) eqn:E0; [lia |].
  destruct (Z.abs td <? 0) eqn:E1; [lia |].
  assert (Hge := binary64_of_ratio_ge (Z.abs td) 1000000 (k + 1)
                   ltac:(lia) ltac:(lia) Hb Hk).
  pose proof (Qle_trans _ _ _ Hge H) as Hc.
  unfold Qle, inject_Z in Hc. cbn in Hc. lia.
Qed.

(** For tolerances below [2^34] seconds the rounding is invisible: the
    comparison is the exact one on microseconds. *)
Lemma within_tolerance_exact (td k : Z) :
  0 <= k < 2 ^ 34 -> Z.abs td < 2 ^ 53 * 1000000 ->
  within_tolerance td k = (Z.abs td <=? k * 1000000).
Proof.
  intros Hk Hb. destruct (Z.abs td <=? k * 1000000) eqn:E.
  - apply within_tolerance_accept; lia.
  - destruct (Z_le_gt_dec ((k + 1) * 1000000) (Z.abs td)) as [Hfar | Hnear].
    + apply within_tolerance_reject; lia.
    + unfold within_tolerance.
      apply not_true_is_false. intros H. apply Qle_bool_iff in H.
      rewrite Qabs_total_seconds in H. unfold total_seconds, int_truediv in H.
      destruct (Z.abs td =? 0) eqn:E0; [lia |].
      destruct (Z.abs td <? 0) eqn:E1; [lia |].
      assert (Hgt := binary64_of_ratio_gt (Z.abs td) k
                       ltac:(lia) ltac:(lia) ltac:(lia)).
      exact (Qlt_not_le _ _ Hgt H).
Qed.

(** With a tolerance of [2^34] seconds the rounding shows: a difference
    one microsecond beyond the tolerance still compares as within it. *)
Example within_tolerance_rounding :
  within_tolerance (2 ^ 34 * 1000000 + 1) (2 ^ 34) = true.
Proof. vm_compute. reflexivity. Qed.

(** ** The timestamp check *)







(** ** Range of valid [datetime] values *)

Lemma days_in_month_le (y m : Z) : 28 <= days_in_month y m <= 31.
Proof.
  unfold days_in_month.
  destruct (m =? 2); [destruct (is_leap y); lia |].
  destruct (_ || _); lia.
Qed.

Lemma days_before_month_range (y m : Z) :
  1 <= m <= 12 -> 0 <= days_before_month y m <= 335.
Proof.
  intros Hm. unfold days_before_month.
  assert (Hc : m = 1 \/ m = 2 \/ m = 3 \/ m = 4 \/ m = 5 \/ m = 6 \/ m = 7
               \/ m = 8 \/ m = 9 \/ m = 10 \/ m = 11 \/ m = 12) by lia.
  destruct (is_leap y);
    destruct Hc as [-> | [-> | [-> | [-> | [-> | [-> | [-> | [-> | [-> | [-> |
                   [-> | ->]]]]]]]]]]];
    vm_compute; split; discriminate.
Qed.

Lemma days_before_year_range (y : Z) :
  1 <= y <= 9999 -> 0 <= days_before_year y <= 3651695.
Proof. intros Hy. unfold days_before_year. cbv zeta. dlia. Qed.

(** The fields of a valid value, as arithmetic facts. *)
Lemma valid_datetime_fields (d : datetime) :
  valid_datetime d = true ->
  1 <= year d <= 9999 /\ 1 <= month d <= 12
  /\ 1 <= day d <= days_in_month (year d) (month d)
  /\ 0 <= hour d <= 23 /\ 0 <= minute d <= 59 /\ 0 <= second d <= 59
  /\ 0 <= microsecond d <= 999999
  /\ match tzinfo d with
     | Some off => - day_us < off < day_us
     | None => True
     end.
Proof.
  unfold valid_datetime. intros H.
  repeat (apply andb_true_iff in H as [H ?]).
  repeat split; try lia.
  destruct (tzinfo d) as [off |]; [| done].
  unfold valid_offset in *.
  match goal with Hv : _ && _ = true |- _ =>
    apply andb_true_iff in Hv as [? ?] end.
  lia.
Qed.

Lemma wall_us_range (d : datetime) :
  valid_datetime d = true -> 0 <= wall_us d < 3652062 * day_us.
Proof.
  intros H. apply valid_datetime_fields in H
    as (Hy & Hm & Hd & Hh & Hmi & Hs & Hus & _).
  pose proof (days_in_month_le (year d) (month d)).
  pose proof (days_before_month_range (year d) (month d) Hm).
  pose proof (days_before_year_range (year d) Hy).
  unfold wall_us, toordinal, day_us. lia.
Qed.

Lemma fromisoformat_valid (s : pystr) (t : datetime) :
  fromisoformat s = Ok t -> valid_datetime t = true.
Proof.
  unfold fromisoformat, datetime_new.
  destruct (parse_isoformat_date s) as [[[[y m] d] [| c r]] |];
    [| | discriminate].
  - destruct (valid_datetime _) eqn:E; [| discriminate]. by intros [= <-].
  - destruct (parse_isoformat_time r) as [[[[[hh mm] ss] us] tz] |];
      [| discriminate].
    destruct (valid_datetime _) eqn:E; [| discriminate]. by intros [= <-].
Qed.

(** A difference of two valid values is far below [2^53] seconds. *)
Lemma datetime_sub_range (a b : datetime) (delta : Z) :
  valid_datetime a = true -> valid_datetime b = true ->
  datetime_sub a b = Ok delta ->
  Z.abs delta < 2 ^ 53 * 1000000.
Proof.
  intros Ha Hb. pose proof (wall_us_range a Ha). pose proof (wall_us_range b Hb).
  apply valid_datetime_fields in Ha as (_ & _ & _ & _ & _ & _ & _ & Hoa).
  apply valid_datetime_fields in Hb as (_ & _ & _ & _ & _ & _ & _ & Hob).
  unfold datetime_sub.
  change (2 ^ 53) with 9007199254740992. unfold day_us in *.
  destruct (tzinfo a) as [oa |], (tzinfo b) as [ob |];
    try discriminate; intros [= <-]; lia.
Qed.

(** ** The tolerance comparison inside [_verify_timestamp] *)


(** [_verify_timestamp] once the text has been parsed and subtracted. *)
Lemma verify_timestamp_parsed (self : HMACClient) (now t : datetime)
  (ts : pystr) (delta ki : Z) :
  fromisoformat (replace_char ch_Z (py "+00:00") ts) = Ok t ->
  datetime_sub now t = Ok delta ->
  getitem (config self) "key_interval" = Ok ki ->
  _verify_timestamp self now ts = within_tolerance delta ki.
Proof.
  intros Hp Hs Hk. unfold _verify_timestamp, _verify_timestamp_try.
  rewrite Hp. cbn [bind]. rewrite Hs. cbn [bind]. rewrite Hk. reflexivity.
Qed.


Lemma verify_timestamp_naive (self : HMACClient) (now t : datetime)
  (ts : pystr) (e : exn) :
  fromisoformat (replace_char ch_Z (py "+00:00") ts) = Ok t ->
  datetime_sub now t = Raise e ->
  _verify_timestamp self now ts = false.
Proof.
  intros Hp Hs. unfold _verify_timestamp, _verify_timestamp_try.
  rewrite Hp. cbn [bind]. by rewrite Hs.
Qed.



(** ** Timestamps that fail the check *)

(** For tolerances below [2^34] seconds, being outside the window is the
    exact statement on microseconds. *)
Lemma timestamp_outside_window_exact (self : HMACClient) (now t : datetime)
  (ts : pystr) (delta ki : Z) :
  valid_datetime now = true ->
  fromisoformat (replace_char ch_Z (py "+00:00") ts) = Ok t ->
  datetime_sub now t = Ok delta ->
  getitem (config self) "key_interval" = Ok ki ->
  0 <= ki < 2 ^ 34 ->
  (timestamp_outside_window self now ts <-> ki * 1000000 < Z.abs delta).
Proof.
  intros Hnow Hp Hs Hk Hki.
  pose proof (datetime_sub_range now t delta Hnow (fromisoformat_valid _ _ Hp) Hs)
    as Hb.
  pose proof (within_tolerance_exact delta ki Hki Hb) as Hex.
  split.
  - intros (t' & d' & k' & Hp' & Hs' & Hk' & Hw).
    assert (t' = t) by congruence. subst t'.
    assert (d' = delta) by congruence. subst d'.
    assert (k' = ki) by congruence. subst k'.
    rewrite Hex in Hw. lia.
  - intros Hlt. exists t, delta, ki. repeat split; try done.
    rewrite Hex. lia.
Qed.



(** With the fresh timestamp the same call succeeds, so the rejection above
    is due to the timestamp alone. *)
Example verify256_fresh_accepts :
  verify256 demo_client (Datetime 2024 5 17 11 53 20 0 (Some 0))
    (b_lit "test data") sig_over_stale (py "2024-05-17T11:53:20+00:00")
    (py "n") = Ok true.
Proof. vm_compute. reflexivity. Qed.

(** ** Decimal fields: printing and reading back *)

Lemma pow10_pos (w : nat) : 0 < 10 ^ Z.of_nat w.
Proof. apply Z.pow_pos_nonneg; lia. Qed.

Lemma pow10_succ (w : nat) : 10 ^ Z.of_nat (S w) = 10 * 10 ^ Z.of_nat w.
Proof. rewrite Nat2Z.inj_succ, Z.pow_succ_r by lia. reflexivity. Qed.

Lemma length_fmt_digits (w : nat) (n : Z) : length (fmt_digits w n) = w.
Proof.
  revert n. induction w as [| w IH]; intros n; cbn [fmt_digits length];
    [done | by rewrite IH].
Qed.

Lemma digit_char (v : Z) :
  0 <= v <= 9 ->
  is_digit (Z.to_N (48 + v)) = true /\ Z.of_N (Z.to_N (48 + v)) - 48 = v.
Proof.
  intros Hv. split; [| lia].
  unfold is_digit. apply andb_true_iff. split; apply N.leb_le; lia.
Qed.

Lemma fmt_digits_all_digits (w : nat) (n : Z) :
  Forall (fun c => is_digit c = true) (fmt_digits w n).
Proof.
  revert n. induction w as [| w IH]; intros n; cbn [fmt_digits];
    constructor; [| apply IH].
  apply digit_char. pose proof (Z.mod_pos_bound (n / 10 ^ Z.of_nat w) 10).
  lia.
Qed.

Lemma parse_digits_acc_fmt (w : nat) (n acc : Z) (rest : pystr) :
  0 <= n < 10 ^ Z.of_nat w ->
  parse_digits_acc w acc (fmt_digits w n ++ rest)
  = Some (acc * 10 ^ Z.of_nat w + n, rest).
Proof.
  revert n acc. induction w as [| w IH]; intros n acc Hn.
  - cbn. change (10 ^ 0) with 1 in Hn. do 2 f_equal. lia.
  - cbn [fmt_digits parse_digits_acc app].
    pose proof (pow10_pos w) as Hp. rewrite pow10_succ in Hn.
    set (P := 10 ^ Z.of_nat w) in *.
    assert (Hq : 0 <= n / P <= 9).
    { split; [apply Z.div_pos; lia |].
      assert (n / P < 10) by (apply Z.div_lt_upper_bound; lia). lia. }
    rewrite (Z.mod_small (n / P) 10) by lia.
    destruct (digit_char (n / P) Hq) as [-> ->].
    rewrite IH by (apply Z.mod_pos_bound; lia).
    rewrite pow10_succ. fold P. do 2 f_equal.
    pose proof (Z.div_mod n P ltac:(lia)). lia.
Qed.

Lemma parse_digits_fmt (w : nat) (n : Z) (rest : pystr) :
  0 <= n < 10 ^ Z.of_nat w ->
  parse_digits w (fmt_digits w n ++ rest) = Some (n, rest).
Proof.
  intros Hn. unfold parse_digits. rewrite parse_digits_acc_fmt by exact Hn.
  do 2 f_equal.
Qed.

(** ** [fromisoformat] reads back what [isoformat] prints *)

Lemma format_offset_utc : format_offset (Some 0) = py "+00:00".
Proof. reflexivity. Qed.

Lemma parse_isoformat_date_fmt (y m d : Z) (rest : pystr) :
  0 <= y < 10000 -> 0 <= m < 100 -> 0 <= d < 100 ->
  parse_isoformat_date
    (fmt_digits 4 y ++ [ch_minus] ++ fmt_digits 2 m ++ [ch_minus]
       ++ fmt_digits 2 d ++ rest)
  = Some (y, m, d, rest).
Proof.
  intros Hy Hm Hd. unfold parse_isoformat_date.
  rewrite parse_digits_fmt by (cbn; lia). cbn [app expect].
  rewrite N.eqb_refl.
  rewrite parse_digits_fmt by (cbn; lia). cbn [app expect].
  rewrite N.eqb_refl.
  by rewrite parse_digits_fmt by (cbn; lia).
Qed.

Lemma parse_fraction_iso (us : Z) :
  0 <= us <= 999999 -> parse_fraction (iso_fraction us) = Some us.
Proof.
  intros Hus. unfold iso_fraction.
  destruct (us =? 0) eqn:E; [cbn; f_equal; lia |].
  cbn [app parse_fraction]. rewrite N.eqb_refl, length_fmt_digits.
  cbn [Nat.eqb].
  rewrite <- (app_nil_r (fmt_digits 6 us)).
  by rewrite parse_digits_fmt by (cbn; lia).
Qed.

Lemma parse_hh_mm_ss_ff_iso (h mi s us : Z) :
  0 <= h < 100 -> 0 <= mi < 100 -> 0 <= s < 100 -> 0 <= us <= 999999 ->
  parse_hh_mm_ss_ff (iso_time h mi s us) = Some (h, mi, s, us).
Proof.
  intros Hh Hmi Hs Hus. unfold parse_hh_mm_ss_ff, iso_time.
  rewrite parse_digits_fmt by (cbn; lia). cbn [app].
  rewrite N.eqb_refl. cbn [negb].
  rewrite parse_digits_fmt by (cbn; lia). cbn [app].
  rewrite N.eqb_refl. cbn [negb].
  rewrite parse_digits_fmt by (cbn; lia).
  by rewrite parse_fraction_iso.
Qed.

Lemma digit_not_sign (c : N) : is_digit c = true -> is_sign c = false.
Proof.
  unfold is_digit, is_sign, ch_plus, ch_minus. intros H.
  apply andb_true_iff in H as [H1 H2]. apply N.leb_le in H1, H2.
  apply orb_false_iff. split; apply N.eqb_neq; lia.
Qed.

Lemma fmt_digits_no_sign (w : nat) (n : Z) :
  Forall (fun c => is_sign c = false) (fmt_digits w n).
Proof.
  eapply Forall_impl; [apply fmt_digits_all_digits |].
  intros c. apply digit_not_sign.
Qed.

Lemma iso_time_no_sign (h mi s us : Z) :
  Forall (fun c => is_sign c = false) (iso_time h mi s us).
Proof.
  unfold iso_time, iso_fraction.
  repeat (apply Forall_app; split); try apply fmt_digits_no_sign;
    try (by repeat constructor).
  destruct (us =? 0); [constructor |].
  apply Forall_app. split; [by repeat constructor | apply fmt_digits_no_sign].
Qed.

Lemma split_tz_sign (t : pystr) (c : N) (z : pystr) :
  Forall (fun c => is_sign c = false) t -> is_sign c = true ->
  split_tz (t ++ c :: z) = (t, Some (c, z)).
Proof.
  intros Ht Hc. induction Ht as [| x t Hx Ht IH]; cbn [app split_tz].
  - unfold is_sign in Hc. by rewrite Hc.
  - unfold is_sign in Hx. rewrite Hx. by rewrite IH.
Qed.

Lemma parse_isoformat_time_iso (h mi s us : Z) :
  0 <= h < 100 -> 0 <= mi < 100 -> 0 <= s < 100 -> 0 <= us <= 999999 ->
  parse_isoformat_time (iso_time h mi s us ++ py "+00:00")
  = Some (h, mi, s, us, Some 0).
Proof.
  intros Hh Hmi Hs Hus. unfold parse_isoformat_time.
  change (py "+00:00") with (ch_plus :: py "00:00").
  rewrite (split_tz_sign _ ch_plus) by (apply iso_time_no_sign || reflexivity).
  by rewrite parse_hh_mm_ss_ff_iso.
Qed.

Lemma isoformat_utc (d : datetime) :
  tzinfo d = Some 0 ->
  isoformat d
  = fmt_digits 4 (year d) ++ [ch_minus] ++ fmt_digits 2 (month d)
      ++ [ch_minus] ++ fmt_digits 2 (day d)
      ++ ch_T :: (iso_time (hour d) (minute d) (second d) (microsecond d)
                  ++ py "+00:00").
Proof.
  intros Htz. unfold isoformat, iso_time, iso_fraction.
  rewrite Htz, format_offset_utc.
  cbn [app]. by rewrite <- !app_assoc.
Qed.

Lemma fromisoformat_isoformat (now : datetime) :
  utc_reading now -> fromisoformat (isoformat now) = Ok now.
Proof.
  intros [Hv Htz]. rewrite (isoformat_utc now Htz).
  pose proof (valid_datetime_fields now Hv)
    as (Hy & Hm & Hd & Hh & Hmi & Hs & Hus & _).
  pose proof (days_in_month_le (year now) (month now)).
  unfold fromisoformat.
  rewrite parse_isoformat_date_fmt by lia.
  rewrite parse_isoformat_time_iso by lia.
  unfold datetime_new.
  destruct now as [y m d h mi s us tz]. cbn in Htz. subst tz.
  cbn [year month day hour minute second microsecond].
  by rewrite Hv.
Qed.

(** ** UTF-8: decoding then encoding gives the bytes back *)

Lemma utf8_encode_char_1 (z : Z) :
  0 <= z < 0x80 -> utf8_encode_char (Z.to_N z) = Some [byte_of_Z z].
Proof.
  intros Hz. unfold utf8_encode_char. rewrite Z2N.id by lia.
  destruct (z <? 0x80) eqn:E; [reflexivity | lia].
Qed.

Lemma utf8_encode_char_2 (z0 z1 : Z) :
  0xC2 <= z0 <= 0xDF -> 0x80 <= z1 <= 0xBF ->
  utf8_encode_char (Z.to_N ((z0 - 192) * 64 + (z1 - 128)))
  = Some [byte_of_Z z0; byte_of_Z z1].
Proof.
  intros H0 H1. unfold utf8_encode_char, cont_byte.
  rewrite Z2N.id by lia. set (cp := (z0 - 192) * 64 + (z1 - 128)).
  destruct (cp <? 0x80) eqn:E1; [lia |].
  destruct (cp <? 0x800) eqn:E2; [| lia].
  do 2 f_equal; [| f_equal]; f_equal; subst cp; dlia.
Qed.

Lemma utf8_encode_char_3 (z0 z1 z2 : Z) :
  0xE0 <= z0 <= 0xEF ->
  (if z0 =? 0xE0 then 0xA0 else 0x80) <= z1 ->
  z1 <= (if z0 =? 0xED then 0x9F else 0xBF) ->
  0x80 <= z2 <= 0xBF ->
  utf8_encode_char (Z.to_N ((z0 - 224) * 4096 + (z1 - 128) * 64 + (z2 - 128)))
  = Some [byte_of_Z z0; byte_of_Z z1; byte_of_Z z2].
Proof.
  intros H0 Hlo Hhi H2. unfold utf8_encode_char, cont_byte.
  rewrite Z2N.id by (destruct (z0 =? 0xE0); lia).
  set (cp := (z0 - 224) * 4096 + (z1 - 128) * 64 + (z2 - 128)).
  assert (Hcp : 0x800 <= cp < 0x10000
                /\ (cp < 0xD800 \/ 0xDFFF < cp)
                /\ cp / 4096 = z0 - 224
                /\ (cp / 64) mod 64 = z1 - 128
                /\ cp mod 64 = z2 - 128).
  { subst cp. destruct (z0 =? 0xE0) eqn:Ea, (z0 =? 0xED) eqn:Eb;
      repeat split; dlia. }
  destruct Hcp as (Hr & Hs & Q0 & Q1 & Q2).
  destruct (cp <? 0x80) eqn:E1; [lia |].
  destruct (cp <? 0x800) eqn:E2; [lia |].
  destruct (cp <? 0x10000) eqn:E3; [| lia].
  assert (Hsur : is_surrogate (Z.to_N cp) = false).
  { unfold is_surrogate. apply andb_false_iff.
    destruct Hs; [left | right]; apply N.leb_gt; lia. }
  rewrite Hsur, Q0, Q1, Q2.
  do 2 f_equal; [| f_equal; [| f_equal]]; f_equal; lia.
Qed.

Lemma utf8_encode_char_4 (z0 z1 z2 z3 : Z) :
  0xF0 <= z0 <= 0xF4 ->
  (if z0 =? 0xF0 then 0x90 else 0x80) <= z1 ->
  z1 <= (if z0 =? 0xF4 then 0x8F else 0xBF) ->
  0x80 <= z2 <= 0xBF -> 0x80 <= z3 <= 0xBF ->
  utf8_encode_char
    (Z.to_N ((z0 - 240) * 262144 + (z1 - 128) * 4096 + (z2 - 128) * 64
             + (z3 - 128)))
  = Some [byte_of_Z z0; byte_of_Z z1; byte_of_Z z2; byte_of_Z z3].
Proof.
  intros H0 Hlo Hhi H2 H3. unfold utf8_encode_char, cont_byte.
  rewrite Z2N.id by (destruct (z0 =? 0xF0); lia).
  set (cp := (z0 - 240) * 262144 + (z1 - 128) * 4096 + (z2 - 128) * 64
             + (z3 - 128)).
  assert (Hcp : 0x10000 <= cp < 0x110000
                /\ cp / 262144 = z0 - 240
                /\ (cp / 4096) mod 64 = z1 - 128
                /\ (cp / 64) mod 64 = z2 - 128
                /\ cp mod 64 = z3 - 128).
  { subst cp. destruct (z0 =? 0xF0) eqn:Ea, (z0 =? 0xF4) eqn:Eb;
      repeat split; dlia. }
  destruct Hcp as (Hr & Q0 & Q1 & Q2 & Q3).
  destruct (cp <? 0x80) eqn:E1; [lia |].
  destruct (cp <? 0x800) eqn:E2; [lia |].
  destruct (cp <? 0x10000) eqn:E3; [lia |].
  destruct (cp <? 0x110000) eqn:E4; [| lia].
  rewrite Q0, Q1, Q2, Q3.
  do 2 f_equal; [| f_equal; [| f_equal; [| f_equal]]]; f_equal; lia.
Qed.

Lemma is_cont_range (z : Z) : is_cont z = true -> 0x80 <= z <= 0xBF.
Proof.
  unfold is_cont. intros H. apply andb_true_iff in H as [? ?]. lia.
Qed.

Lemma utf8_decode_encode_len (n : nat) (bs : bytes) (s : pystr) :
  (length bs <= n)%nat ->
  utf8_decode_opt bs = Some s -> utf8_encode_opt s = Some bs.
Proof.
  revert bs s. induction n as [| n IH]; intros bs s Hlen Hdec.
  { destruct bs; [| cbn in Hlen; lia]. cbn in Hdec. by inversion Hdec. }
  destruct bs as [| b0 r0]; [cbn in Hdec; by inversion Hdec |].
  cbn [utf8_decode_opt] in Hdec. cbn [length] in Hlen.
  pose proof (byte_to_Z_range b0) as R0.
  destruct (byte_to_Z b0 <? 0x80) eqn:E0.
  { destruct (utf8_decode_opt r0) as [t |] eqn:Hr; [| discriminate].
    cbn in Hdec. inversion Hdec; subst s. cbn [utf8_encode_opt].
    rewrite utf8_encode_char_1 by lia. rewrite byte_of_to_Z.
    by rewrite (IH r0 t ltac:(lia) Hr). }
  destruct r0 as [| b1 r1]; [discriminate |]. cbn [length] in Hlen.
  destruct ((0xC2 <=? byte_to_Z b0) && (byte_to_Z b0 <=? 0xDF)) eqn:E1.
  { apply andb_true_iff in E1 as [? ?].
    destruct (is_cont (byte_to_Z b1)) eqn:C1; [| discriminate].
    apply is_cont_range in C1.
    destruct (utf8_decode_opt r1) as [t |] eqn:Hr; [| discriminate].
    cbn in Hdec. inversion Hdec; subst s. cbn [utf8_encode_opt].
    rewrite utf8_encode_char_2 by lia. rewrite !byte_of_to_Z.
    by rewrite (IH r1 t ltac:(lia) Hr). }
  destruct r1 as [| b2 r2]; [discriminate |]. cbn [length] in Hlen.
  destruct ((0xE0 <=? byte_to_Z b0) && (byte_to_Z b0 <=? 0xEF)) eqn:E2.
  { apply andb_true_iff in E2 as [? ?].
    destruct (_ && _ && is_cont (byte_to_Z b2)) eqn:C; [| discriminate].
    apply andb_true_iff in C as [C C2]. apply andb_true_iff in C as [Clo Chi].
    apply is_cont_range in C2. apply Z.leb_le in Clo, Chi.
    destruct (utf8_decode_opt r2) as [t |] eqn:Hr; [| discriminate].
    cbn in Hdec. inversion Hdec; subst s. cbn [utf8_encode_opt].
    rewrite utf8_encode_char_3 by (try exact Clo; try exact Chi; lia).
    rewrite !byte_of_to_Z.
    by rewrite (IH r2 t ltac:(lia) Hr). }
  destruct r2 as [| b3 r3]; [discriminate |]. cbn [length] in Hlen.
  destruct ((0xF0 <=? byte_to_Z b0) && (byte_to_Z b0 <=? 0xF4)) eqn:E3;
    [| discriminate].
  apply andb_true_iff in E3 as [? ?].
  destruct (_ && _ && is_cont (byte_to_Z b2) && is_cont (byte_to_Z b3)) eqn:C;
    [| discriminate].
  apply andb_true_iff in C as [C C3]. apply andb_true_iff in C as [C C2].
  apply andb_true_iff in C as [Clo Chi].
  apply is_cont_range in C2, C3. apply Z.leb_le in Clo, Chi.
  destruct (utf8_decode_opt r3) as [t |] eqn:Hr; [| discriminate].
  cbn in Hdec. inversion Hdec; subst s. cbn [utf8_encode_opt].
  rewrite utf8_encode_char_4 by (try exact Clo; try exact Chi; lia).
  rewrite !byte_of_to_Z.
  by rewrite (IH r3 t ltac:(lia) Hr).
Qed.

Lemma utf8_decode_encode (bs : bytes) (s : pystr) :
  utf8_decode_opt bs = Some s -> utf8_encode_opt s = Some bs.
Proof. apply (utf8_decode_encode_len (length bs)). lia. Qed.

Lemma utf8_encode_opt_app (a b : pystr) (x y : bytes) :
  utf8_encode_opt a = Some x -> utf8_encode_opt b = Some y ->
  utf8_encode_opt (a ++ b) = Some (x ++ y).
Proof.
  revert x. induction a as [| c a IH]; intros x Ha Hb.
  - cbn in Ha. inversion Ha. exact Hb.
  - cbn [app utf8_encode_opt] in *.
    destruct (utf8_encode_char c) as [cb |]; [| discriminate].
    destruct (utf8_encode_opt a) as [ab |]; [| discriminate].
    inversion Ha; subst x. rewrite (IH ab eq_refl Hb).
    by rewrite app_assoc.
Qed.

Lemma utf8_encode_ascii (s : pystr) :
  is_ascii s = true ->
  utf8_encode_opt s = Some (map (fun c => byte_of_Z (Z.of_N c)) s).
Proof.
  unfold is_ascii. induction s as [| c s IH]; cbn [forallb]; [done |].
  intros H. apply andb_true_iff in H as [Hc Hs]. apply N.ltb_lt in Hc.
  cbn [utf8_encode_opt map]. rewrite (IH Hs).
  unfold utf8_encode_char.
  destruct (Z.of_N c <? 0x80) eqn:E; [reflexivity | lia].
Qed.

(** ** The texts produced by [sign256] are plain ASCII *)

Lemma digit_plain (c : N) : is_digit c = true -> plain_char c.
Proof.
  unfold is_digit, plain_char, ch_Z. intros H.
  apply andb_true_iff in H as [H1 H2]. apply N.leb_le in H1, H2. lia.
Qed.

Lemma fmt_digits_plain (w : nat) (n : Z) : Forall plain_char (fmt_digits w n).
Proof.
  eapply Forall_impl; [apply fmt_digits_all_digits |].
  intros c. apply digit_plain.
Qed.

Lemma plain_literal (c : N) :
  ((c <? 128) && negb (c =? ch_Z))%N = true -> plain_char c.
Proof.
  intros H. apply andb_true_iff in H as [H1 H2]. apply N.ltb_lt in H1.
  apply negb_true_iff, N.eqb_neq in H2. by split.
Qed.

Lemma isoformat_plain (now : datetime) :
  tzinfo now = Some 0 -> Forall plain_char (isoformat now).
Proof.
  intros Htz. rewrite (isoformat_utc now Htz). unfold iso_time, iso_fraction.
  assert (Hlit : forall c, ((c <? 128) && negb (c =? ch_Z))%N = true ->
                           Forall plain_char [c])
    by (intros c Hc; constructor; [by apply plain_literal | constructor]).
  repeat (apply Forall_app; split); try apply fmt_digits_plain;
    try (apply Hlit; reflexivity).
  constructor; [by apply plain_literal |].
  repeat (apply Forall_app; split); try apply fmt_digits_plain;
    try (apply Hlit; reflexivity).
  - destruct (microsecond now =? 0); [constructor |].
    apply Forall_app; split; [by apply Hlit | apply fmt_digits_plain].
  - repeat (constructor; [by apply plain_literal |]). constructor.
Qed.

Lemma plain_is_ascii (s : pystr) : Forall plain_char s -> is_ascii s = true.
Proof.
  unfold is_ascii. induction 1 as [| c s [Hc _] _ IH]; cbn [forallb]; [done |].
  apply andb_true_iff. split; [by apply N.ltb_lt | exact IH].
Qed.

Lemma replace_char_plain (new s : pystr) :
  Forall plain_char s -> replace_char ch_Z new s = s.
Proof.
  induction 1 as [| c s [_ Hc] _ IH]; cbn [replace_char]; [done |].
  apply N.eqb_neq in Hc. rewrite Hc, IH. reflexivity.
Qed.

Lemma fmt_hex_lower (w : nat) (i : Z) :
  Forall (fun c => is_lower_hex c = true) (fmt_hex w i).
Proof.
  induction w as [| w IH]; cbn [fmt_hex]; constructor; [| exact IH].
  apply hex_digit_is_lower_hex. apply Z.mod_pos_bound. lia.
Qed.

Lemma uuid4_is_ascii (rnd : Z) : is_ascii (uuid4 rnd) = true.
Proof.
  unfold is_ascii, uuid4, uuid_str.
  set (h := fmt_hex 32 (uuid4_int rnd)).
  assert (Hh : Forall (fun c => (c <? 128)%N = true) h).
  { eapply Forall_impl; [apply fmt_hex_lower |].
    intros c. apply is_lower_hex_ascii. }
  apply forallb_forall. apply List.Forall_forall.
  repeat (apply Forall_app; split);
    try (by repeat constructor);
    repeat (first [apply Forall_take | apply Forall_drop]); exact Hh.
Qed.

(** ** Signing then verifying in the stateful mode *)

(** The bytes that [sign256] and [verify256] authenticate. *)
Lemma message_encodable (ts nonce text : pystr) (data : bytes) :
  is_ascii ts = true -> is_ascii nonce = true ->
  utf8_decode_opt data = Some text ->
  exists msg,
    encode_utf8 (ts ++ [ch_colon] ++ nonce ++ [ch_colon] ++ text) = Ok msg.
Proof.
  intros Hts Hn Hd. unfold encode_utf8.
  pose proof (utf8_encode_ascii ts Hts) as E1.
  pose proof (utf8_encode_ascii nonce Hn) as E2.
  pose proof (utf8_decode_encode data text Hd) as E3.
  assert (Ec : utf8_encode_opt [ch_colon] = Some [byte_of_Z 58])
    by reflexivity.
  rewrite (utf8_encode_opt_app _ _ _ _ E1
             (utf8_encode_opt_app _ _ _ _ Ec
                (utf8_encode_opt_app _ _ _ _ E2
                   (utf8_encode_opt_app _ _ _ _ Ec E3)))).
  eauto.
Qed.

Lemma verify_timestamp_fresh (self : HMACClient) (now now' : datetime)
  (ki : Z) :
  getitem (config self) "key_interval" = Ok ki ->
  utc_reading now -> utc_reading now' ->
  Z.abs (wall_us now' - wall_us now) <= ki * 1000000 ->
  _verify_timestamp self now' (isoformat now) = true.
Proof.
  intros Hki Hnow Hnow' Hd.
  assert (Hp : fromisoformat (replace_char ch_Z (py "+00:00") (isoformat now))
               = Ok now).
  { rewrite replace_char_plain by (apply isoformat_plain, Hnow).
    by apply fromisoformat_isoformat. }
  assert (Hs : datetime_sub now' now = Ok (wall_us now' - wall_us now)).
  { unfold datetime_sub. destruct Hnow as [_ ->], Hnow' as [_ ->].
    f_equal. lia. }
  rewrite (verify_timestamp_parsed self now' now _ _ ki Hp Hs Hki).
  apply within_tolerance_accept; [| exact Hd].
  apply (datetime_sub_range now' now); [apply Hnow' | apply Hnow | exact Hs].
Qed.

(** C1.  For a payload within the size limit that decodes as UTF-8 and a
    key that encodes as UTF-8, [sign256] returns a triple
    [(hash, timestamp, nonce)], and [verify256] of the same payload with
    that triple returns [True] when the verifier's clock shows the signing
    instant, and more generally any instant at most [key_interval] seconds
    away from it. *)
Theorem C1_sign256_then_verify256
  (url key : pystr) (kw : gmap string Z) (self : HMACClient) (ki mis : Z)
  (kb : bytes) (now : datetime) (rnd : Z) (data : bytes) (text : pystr) :
  __init__ url key kw = Ok self ->
  getitem (config self) "key_interval" = Ok ki ->
  getitem (config self) "max_input_size" = Ok mis ->
  utf8_encode_opt key = Some kb ->
  utc_reading now ->
  Z.of_nat (length data) <= mis ->
  utf8_decode_opt data = Some text ->
  exists hash_value timestamp nonce,
    sign256 self now rnd data = Ok (hash_value, timestamp, nonce)
    /\ verify256 self now data hash_value timestamp nonce = Ok true
    /\ forall now',
         utc_reading now' ->
         Z.abs (wall_us now' - wall_us now) <= ki * 1000000 ->
         verify256 self now' data hash_value timestamp nonce = Ok true.
Proof.
  intros Hinit Hki Hm Hk Hnow Hlen Hdec.
  apply init_inv in Hinit as (_ & Hkey & _ & _ & ki0 & mis0 & Hki0 & Hpos & _).
  assert (ki0 = ki) by congruence. subst ki0.
  rewrite <- Hkey in Hk.
  pose proof (check_input_size_ok self data mis Hm Hlen) as Hg.
  pose proof (plain_is_ascii _ (isoformat_plain now (proj2 Hnow))) as Hts.
  pose proof (uuid4_is_ascii rnd) as Hn.
  destruct (message_encodable (isoformat now) (uuid4 rnd) text data
              Hts Hn Hdec) as [msg Hmsg].
  assert (Hbm : build_message (isoformat now) (uuid4 rnd) data
                = Ok (isoformat now ++ [ch_colon] ++ uuid4 rnd
                        ++ [ch_colon] ++ text)).
  { unfold build_message, decode_utf8. by rewrite Hdec. }
  assert (Hkb : encode_utf8 (secret_key self) = Ok kb)
    by (unfold encode_utf8; by rewrite Hk).
  exists (hexdigest (hmac_sha256 kb msg)), (isoformat now), (uuid4 rnd).
  assert (Hv : forall now',
             utc_reading now' ->
             Z.abs (wall_us now' - wall_us now) <= ki * 1000000 ->
             verify256 self now' data (hexdigest (hmac_sha256 kb msg))
               (isoformat now) (uuid4 rnd) = Ok true).
  { intros now' Hnow' Hd. unfold verify256, verify256_try.
    rewrite Hg. cbn [bind].
    rewrite (verify_timestamp_fresh self now now' ki Hki Hnow Hnow' Hd).
    cbn [negb]. rewrite Hbm. cbn [bind]. rewrite Hkb. cbn [bind].
    rewrite Hmsg. cbn [bind]. rewrite compare_digest_hexdigest.
    cbn [verify_handlers]. by rewrite bool_decide_eq_true_2. }
  split; [| split; [| exact Hv]].
  - unfold sign256. rewrite Hg. cbn [bind]. rewrite Hbm. cbn [bind].
    rewrite Hkb. cbn [bind]. by rewrite Hmsg.
  - apply Hv; [exact Hnow |]. rewrite Z.sub_diag. cbn. lia.
Qed.

Lemma C1_sign256_then_verify256_witness :
  exists hash_value timestamp nonce,
    sign256 demo_client noon 7 (b_lit "test data")
    = Ok (hash_value, timestamp, nonce)
    /\ verify256 demo_client noon (b_lit "test data")
         hash_value timestamp nonce = Ok true
    /\ verify256 demo_client a_little_later (b_lit "test data")
         hash_value timestamp nonce = Ok true.
Proof.
  destruct (C1_sign256_then_verify256 (py "http://localhost:8080/")
              (py "test-secret-key") ∅ demo_client 300 33554432
              (b_lit "test-secret-key") noon 7 (b_lit "test data")
              (py "test data"))
    as (h & t & n & Hs & Hv & Hlater).
  - exact demo_client_init.
  - reflexivity.
  - reflexivity.
  - reflexivity.
  - split; reflexivity.
  - cbn. lia.
  - reflexivity.
  - exists h, t, n. split; [exact Hs |]. split; [exact Hv |].
    apply Hlater; [split; reflexivity |]. vm_compute. discriminate.
Defined.

(** The call of the witness, evaluated. *)
Example sign256_test_data :
  sign256 demo_client noon 7 (b_lit "test data")
  = Ok (hexdigest
          (hmac_sha256 (b_lit "test-secret-key")
             (b_lit "2024-05-17T12:00:00+00:00:00000000-0000-4000-8000-000000000007:test data")),
        py "2024-05-17T12:00:00+00:00",
        py "00000000-0000-4000-8000-000000000007").
Proof. vm_compute. reflexivity. Qed.

(** * Further properties of signing and verification *)

(** ** Exact acceptance conditions *)

Lemma verify_handlers_compare_digest (a b : pystr) :
  is_ascii a = true ->
  verify_handlers (compare_digest a b) = Ok (bool_decide (b = a)).
Proof.
  intros Ha. unfold compare_digest. rewrite Ha. cbn [andb].
  destruct (is_ascii b) eqn:Hb; cbn [verify_handlers].
  - f_equal. apply bool_decide_ext. split; congruence.
  - f_equal. symmetry. apply bool_decide_eq_false_2. intros ->. congruence.
Qed.

(** X1.  Within the size limit, [sha256_verify] accepts a signature string
    exactly when it is, character for character, the lowercase hexadecimal
    HMAC-SHA256 of the payload; any other string (upper-case digits, a
    different length, non-ASCII characters) gives [False], never an
    exception. *)
Theorem sha256_verify_exact
  (url key : pystr) (kw : gmap string Z) (self : HMACClient) (mis : Z)
  (kb data : bytes) (signature : pystr) :
  __init__ url key kw = Ok self ->
  getitem (config self) "max_input_size" = Ok mis ->
  Z.of_nat (length data) <= mis ->
  utf8_encode_opt key = Some kb ->
  sha256_verify self data signature
  = Ok (bool_decide (signature = hexdigest (hmac_sha256 kb data))).
Proof.
  intros Hinit Hm Hlen Hk.
  apply init_inv in Hinit as (_ & Hkey & _). rewrite <- Hkey in Hk.
  unfold sha256_verify, sha256_verify_try.
  rewrite (check_input_size_ok self data mis Hm Hlen). cbn [bind].
  rewrite (sha256_sign_ok self data mis kb Hm Hlen Hk). cbn [bind].
  apply verify_handlers_compare_digest, hexdigest_is_ascii.
Qed.

Lemma sha256_verify_exact_witness :
  sha256_verify demo_client (b_lit "test data")
    (py "E01301D91B3425A4BDAED491B18BD8EC841364FDD41345200C6EA0DE115BB72C")
  = Ok (bool_decide
          (py "E01301D91B3425A4BDAED491B18BD8EC841364FDD41345200C6EA0DE115BB72C"
           = hexdigest (hmac_sha256 (b_lit "test-secret-key")
                          (b_lit "test data")))).
Proof.
  apply (sha256_verify_exact (py "http://localhost:8080/")
           (py "test-secret-key") ∅ demo_client 33554432).
  - exact demo_client_init.
  - reflexivity.
  - cbn. lia.
  - reflexivity.
Defined.

(** The upper-case spelling of the right signature is rejected. *)
Example sha256_verify_upper_case :
  sha256_verify demo_client (b_lit "test data")
    (py "E01301D91B3425A4BDAED491B18BD8EC841364FDD41345200C6EA0DE115BB72C")
  = Ok false.
Proof. vm_compute. reflexivity. Qed.

(** ** The bytes that are signed *)

(** The bytes of an ASCII text. *)
Lemma ascii_bytes_encode (s : pystr) :
  is_ascii s = true -> utf8_encode_opt s = Some (ascii_bytes s).
Proof. apply utf8_encode_ascii. Qed.

Lemma message_bytes (ts nonce text : pystr) (data : bytes) :
  is_ascii ts = true -> is_ascii nonce = true ->
  utf8_decode_opt data = Some text ->
  encode_utf8 (ts ++ [ch_colon] ++ nonce ++ [ch_colon] ++ text)
  = Ok (signed_bytes ts nonce data).
Proof.
  intros Hts Hn Hd. unfold encode_utf8, signed_bytes.
  pose proof (ascii_bytes_encode ts Hts) as E1.
  pose proof (ascii_bytes_encode nonce Hn) as E2.
  pose proof (utf8_decode_encode data text Hd) as E3.
  assert (Ec : utf8_encode_opt [ch_colon] = Some [":"%byte]) by reflexivity.
  by rewrite (utf8_encode_opt_app _ _ _ _ E1
                (utf8_encode_opt_app _ _ _ _ Ec
                   (utf8_encode_opt_app _ _ _ _ E2
                      (utf8_encode_opt_app _ _ _ _ Ec E3)))).
Qed.

(** X2.  [sign256] returns the ISO text of the clock reading, the UUID text
    of the random draw, and the hexadecimal HMAC-SHA256 of the byte string
    [timestamp ":" nonce ":" payload], in which the payload bytes appear
    unchanged. *)
Theorem sign256_signed_bytes
  (url key : pystr) (kw : gmap string Z) (self : HMACClient) (mis : Z)
  (kb : bytes) (now : datetime) (rnd : Z) (data : bytes) (text : pystr) :
  __init__ url key kw = Ok self ->
  getitem (config self) "max_input_size" = Ok mis ->
  utf8_encode_opt key = Some kb ->
  tzinfo now = Some 0 ->
  Z.of_nat (length data) <= mis ->
  utf8_decode_opt data = Some text ->
  sign256 self now rnd data
  = Ok (hexdigest
          (hmac_sha256 kb (signed_bytes (isoformat now) (uuid4 rnd) data)),
        isoformat now, uuid4 rnd).
Proof.
  intros Hinit Hm Hk Htz Hlen Hdec.
  apply init_inv in Hinit as (_ & Hkey & _). rewrite <- Hkey in Hk.
  unfold sign256.
  rewrite (check_input_size_ok self data mis Hm Hlen). cbn [bind].
  unfold build_message, decode_utf8. rewrite Hdec. cbn [bind].
  unfold encode_utf8 at 1. rewrite Hk. cbn [bind].
  rewrite (message_bytes _ _ text data
             (plain_is_ascii _ (isoformat_plain now Htz))
             (uuid4_is_ascii rnd) Hdec).
  reflexivity.
Qed.

Lemma sign256_signed_bytes_witness :
  sign256 demo_client noon 7 (b_lit "test data")
  = Ok (hexdigest
          (hmac_sha256 (b_lit "test-secret-key")
             (signed_bytes (isoformat noon) (uuid4 7) (b_lit "test data"))),
        isoformat noon, uuid4 7).
Proof.
  apply (sign256_signed_bytes (py "http://localhost:8080/")
           (py "test-secret-key") ∅ demo_client 33554432
           (b_lit "test-secret-key") noon 7 (b_lit "test data")
           (py "test data")).
  - exact demo_client_init.
  - reflexivity.
  - reflexivity.
  - reflexivity.
  - cbn. lia.
  - reflexivity.
Defined.

(** X3.  Within the size limit, [verify256] returns [True] exactly when the
    timestamp passes [_verify_timestamp], the payload decodes as UTF-8, the
    message [timestamp ":" nonce ":" payload] encodes as UTF-8, and the given
    hash is, character for character, the hexadecimal HMAC-SHA256 of those
    bytes; in every other case it returns [False]. *)
Theorem verify256_exact
  (url key : pystr) (kw : gmap string Z) (self : HMACClient) (mis : Z)
  (kb : bytes) (now : datetime) (data : bytes) (h ts nonce : pystr) :
  __init__ url key kw = Ok self ->
  getitem (config self) "max_input_size" = Ok mis ->
  utf8_encode_opt key = Some kb ->
  Z.of_nat (length data) <= mis ->
  exists b,
    verify256 self now data h ts nonce = Ok b
    /\ (b = true <->
        _verify_timestamp self now ts = true
        /\ exists text msg,
             utf8_decode_opt data = Some text
             /\ utf8_encode_opt (ts ++ [ch_colon] ++ nonce ++ [ch_colon] ++ text)
                = Some msg
             /\ h = hexdigest (hmac_sha256 kb msg)).
Proof.
  intros Hinit Hm Hk Hlen.
  apply init_inv in Hinit as (_ & Hkey & _). rewrite <- Hkey in Hk.
  unfold verify256, verify256_try.
  rewrite (check_input_size_ok self data mis Hm Hlen). cbn [bind].
  destruct (_verify_timestamp self now ts) eqn:Hts; cbn [negb].
  2: { exists false. split; [reflexivity |].
       split; [discriminate | intros [? _]; discriminate]. }
  unfold build_message, decode_utf8.
  destruct (utf8_decode_opt data) as [text |] eqn:Hdec; cbn [bind].
  2: { exists false. split; [reflexivity |].
       split; [discriminate | intros (_ & t & m & ? & _); discriminate]. }
  unfold encode_utf8 at 1. rewrite Hk. cbn [bind]. unfold encode_utf8.
  destruct (utf8_encode_opt (ts ++ [ch_colon] ++ nonce ++ [ch_colon] ++ text))
    as [msg |] eqn:Hmsg; cbn [bind].
  2: { exists false. split; [reflexivity |].
       split; [discriminate |].
       intros (_ & t & m & Ht & Hm' & _).
       assert (t = text) by congruence. subst t. congruence. }
  rewrite (verify_handlers_compare_digest _ h (hexdigest_is_ascii _)).
  eexists. split; [reflexivity |].
  rewrite bool_decide_eq_true. split.
  - intros ->. split; [reflexivity |]. by exists text, msg.
  - intros (_ & t & m & Ht & Hm' & ->).
    assert (t = text) by congruence. subst t.
    assert (m = msg) by congruence. by subst m.
Qed.

Lemma verify256_exact_witness :
  exists b,
    verify256 demo_client noon (b_lit "test data") sig_over_Z
      (py "2024-05-17T12:00:00Z") (py "n") = Ok b
    /\ (b = true <->
        _verify_timestamp demo_client noon (py "2024-05-17T12:00:00Z") = true
        /\ exists text msg,
             utf8_decode_opt (b_lit "test data") = Some text
             /\ utf8_encode_opt (py "2024-05-17T12:00:00Z" ++ [ch_colon]
                                   ++ py "n" ++ [ch_colon] ++ text)
                = Some msg
             /\ sig_over_Z = hexdigest (hmac_sha256 (b_lit "test-secret-key")
                                          msg)).
Proof.
  apply (verify256_exact (py "http://localhost:8080/")
           (py "test-secret-key") ∅ demo_client 33554432
           (b_lit "test-secret-key")).
  - exact demo_client_init.
  - reflexivity.
  - reflexivity.
  - cbn. lia.
Defined.

(** ** More on the timestamp check *)













(** ** The size limit in general *)

(** X7.  Every payload longer than [max_input_size] makes each of the four
    operations raise [InputTooLargeError], whatever the other arguments
    are (a payload that is not UTF-8, a malformed timestamp, a wrong
    signature); every payload within the limit passes the guard. *)
Theorem size_guard_first
  (url key : pystr) (kw : gmap string Z) (self : HMACClient) (mis : Z)
  (now : datetime) (rnd : Z) (data : bytes) (sig h ts nonce : pystr) :
  __init__ url key kw = Ok self ->
  getitem (config self) "max_input_size" = Ok mis ->
  (mis < Z.of_nat (length data) ->
   sha256_sign self data = Raise InputTooLargeError
   /\ sha256_verify self data sig = Raise InputTooLargeError
   /\ sign256 self now rnd data = Raise InputTooLargeError
   /\ verify256 self now data h ts nonce = Raise InputTooLargeError)
  /\ (Z.of_nat (length data) <= mis ->
      _check_input_size self data = Ok tt
      /\ sha256_sign self data <> Raise InputTooLargeError
      /\ sha256_verify self data sig <> Raise InputTooLargeError
      /\ sign256 self now rnd data <> Raise InputTooLargeError
      /\ verify256 self now data h ts nonce <> Raise InputTooLargeError).
Proof.
  intros _ Hm. split.
  - intros Hbig.
    pose proof (check_input_size_too_large self data mis Hm Hbig) as Hg.
    split; [by apply sha256_sign_too_large |].
    split; [by apply sha256_verify_too_large |].
    split; [by apply sign256_too_large | by apply verify256_too_large].
  - intros Hok.
    pose proof (check_input_size_ok self data mis Hm Hok) as Hg.
    split; [exact Hg |].
    split; [by apply sha256_sign_past_guard |].
    split.
    { rewrite sha256_verify_raises_iff. by rewrite Hg. }
    split; [by apply sign256_past_guard |].
    rewrite verify256_raises_iff. by rewrite Hg.
Qed.

Lemma size_guard_first_witness :
  sha256_sign tiny_client [xff; xfe; xfd; xfc; xfb; xfa]
  = Raise InputTooLargeError
  /\ sha256_verify tiny_client [xff; xfe; xfd; xfc; xfb; xfa] (py "zz")
     = Raise InputTooLargeError
  /\ sign256 tiny_client noon 7 [xff; xfe; xfd; xfc; xfb; xfa]
     = Raise InputTooLargeError
  /\ verify256 tiny_client noon [xff; xfe; xfd; xfc; xfb; xfa] (py "zz")
       (py "not-a-date") (py "n")
     = Raise InputTooLargeError.
Proof.
  apply (size_guard_first (py "http://localhost:8080") (py "k")
           tiny_kwargs tiny_client 4).
  - exact tiny_client_init.
  - reflexivity.
  - cbn. lia.
Defined.

(** ** Keys *)

Lemma utf8_encode_opt_nonempty (key : pystr) :
  utf8_encode_opt key = None -> key <> [].
Proof. by intros H ->. Qed.

(** X8.  The constructor does not check that the secret key can be encoded:
    a key holding a lone surrogate is accepted (with a valid configuration),
    and the resulting client can neither sign nor verify: [sha256_sign] and
    [sign256] raise [UnicodeEncodeError], and both verifications return
    [False] for every signature. *)
Theorem unencodable_key_client
  (url key : pystr) (kw : gmap string Z) (ki mis : Z)
  (now : datetime) (rnd : Z) (data : bytes) (text sig h ts nonce : pystr) :
  utf8_encode_opt key = None ->
  getitem (kw ∪ DEFAULT_CONFIG) "key_interval" = Ok ki -> 0 < ki ->
  getitem (kw ∪ DEFAULT_CONFIG) "max_input_size" = Ok mis -> 0 < mis ->
  Z.of_nat (length data) <= mis ->
  utf8_decode_opt data = Some text ->
  exists self,
    __init__ url key kw = Ok self
    /\ sha256_sign self data = Raise UnicodeEncodeError
    /\ sign256 self now rnd data = Raise UnicodeEncodeError
    /\ sha256_verify self data sig = Ok false
    /\ verify256 self now data h ts nonce = Ok false.
Proof.
  intros Hkey Hki Hkipos Hmis Hmispos Hlen Hdec.
  assert (Hto := getitem_merged kw "timeout" 30 eq_refl).
  assert (Hinit : exists self, __init__ url key kw = Ok self).
  { unfold __init__, _validate_config. cbn [secret_key config base_url].
    case_bool_decide as Hk; [by apply utf8_encode_opt_nonempty in Hkey |].
    rewrite Hki. cbn [bind]. destruct (ki <=? 0) eqn:E1; [lia |].
    rewrite Hmis. cbn [bind]. destruct (mis <=? 0) eqn:E2; [lia |].
    rewrite Hto. cbn [bind]. eauto. }
  destruct Hinit as [self Hinit]. exists self. split; [exact Hinit |].
  apply init_inv in Hinit as (_ & Hsk & _ & Hcfg & _).
  assert (Hm : getitem (config self) "max_input_size" = Ok mis)
    by (by rewrite Hcfg).
  pose proof (check_input_size_ok self data mis Hm Hlen) as Hg.
  assert (Hk : encode_utf8 (secret_key self) = Raise UnicodeEncodeError)
    by (unfold encode_utf8; by rewrite Hsk, Hkey).
  assert (Hs : sha256_sign self data = Raise UnicodeEncodeError)
    by (unfold sha256_sign; by rewrite Hg, Hk).
  split; [exact Hs |].
  split.
  { unfold sign256, build_message, decode_utf8.
    rewrite Hg, Hdec. cbn [bind]. by rewrite Hk. }
  split.
  { unfold sha256_verify, sha256_verify_try. by rewrite Hg, Hs. }
  unfold verify256, verify256_try, build_message, decode_utf8.
  rewrite Hg, Hdec. cbn [bind].
  destruct (negb _); [reflexivity |]. by rewrite Hk.
Qed.

Lemma unencodable_key_client_witness :
  exists self,
    __init__ (py "http://localhost:8080") [0xD800%N] ∅ = Ok self
    /\ sha256_sign self (b_lit "test data") = Raise UnicodeEncodeError
    /\ sign256 self noon 7 (b_lit "test data") = Raise UnicodeEncodeError
    /\ sha256_verify self (b_lit "test data") (py "00") = Ok false
    /\ verify256 self noon (b_lit "test data") (py "00")
         (py "2024-05-17T12:00:00Z") (py "n") = Ok false.
Proof.
  apply (unencodable_key_client (py "http://localhost:8080") [0xD800%N] ∅
           300 33554432 noon 7 (b_lit "test data") (py "test data")).
  - reflexivity.
  - reflexivity.
  - lia.
  - reflexivity.
  - lia.
  - cbn. lia.
  - reflexivity.
Defined.

(** A key shorter than a block and the same key followed by a zero byte
    have the same key block. *)
Lemma hmac_key_block_zero (kb : bytes) :
  (length kb < block_size)%nat ->
  hmac_key_block (kb ++ [x00]) = hmac_key_block kb.
Proof.
  unfold hmac_key_block, block_size. intros Hlen.
  rewrite length_app. cbn [length].
  destruct (64 <? length kb + 1)%nat eqn:E1;
    [apply Nat.ltb_lt in E1; lia |].
  destruct (64 <? length kb)%nat eqn:E2; [apply Nat.ltb_lt in E2; lia |].
  rewrite length_app. cbn [length]. rewrite <- app_assoc. f_equal.
  replace (64 - length kb)%nat with (S (64 - (length kb + 1))) by lia.
  reflexivity.
Qed.

(** X9.  Appending a NUL character to a key whose UTF-8 encoding is shorter
    than 64 bytes does not change any signature: the two clients sign every
    payload identically in both modes, so each accepts what the other
    signed. *)
Theorem nul_padded_key_same_signatures
  (url key : pystr) (kw : gmap string Z) (self self0 : HMACClient)
  (kb : bytes) (now : datetime) (rnd : Z) (data : bytes) :
  __init__ url key kw = Ok self ->
  __init__ url (key ++ [0%N]) kw = Ok self0 ->
  utf8_encode_opt key = Some kb ->
  (length kb < 64)%nat ->
  sha256_sign self0 data = sha256_sign self data
  /\ sign256 self0 now rnd data = sign256 self now rnd data.
Proof.
  intros Hi Hi0 Hk Hlen.
  apply init_inv in Hi as (_ & Hkey & _ & Hcfg & _).
  apply init_inv in Hi0 as (_ & Hkey0 & _ & Hcfg0 & _).
  assert (Hg : forall d, _check_input_size self0 d = _check_input_size self d)
    by (intros d; unfold _check_input_size; by rewrite Hcfg, Hcfg0).
  assert (Hk0 : utf8_encode_opt (key ++ [0%N]) = Some (kb ++ [x00]))
    by (by apply utf8_encode_opt_app).
  assert (He : encode_utf8 (secret_key self) = Ok kb)
    by (unfold encode_utf8; by rewrite Hkey, Hk).
  assert (He0 : encode_utf8 (secret_key self0) = Ok (kb ++ [x00]))
    by (unfold encode_utf8; by rewrite Hkey0, Hk0).
  assert (Hmac : forall m, hmac_sha256 (kb ++ [x00]) m = hmac_sha256 kb m)
    by (intros m; apply hmac_sha256_key_block; by apply hmac_key_block_zero).
  split.
  - unfold sha256_sign. rewrite Hg, He, He0.
    destruct (_check_input_size self data); cbn [bind]; [| reflexivity].
    by rewrite Hmac.
  - unfold sign256. rewrite Hg, He, He0.
    destruct (_check_input_size self data); cbn [bind]; [| reflexivity].
    destruct (build_message _ _ data) as [m |]; cbn [bind]; [| reflexivity].
    destruct (encode_utf8 m); cbn [bind]; [| reflexivity].
    by rewrite Hmac.
Qed.

Lemma nul_padded_key_same_signatures_witness :
  sha256_sign client_a0 (b_lit "test data")
  = sha256_sign client_a (b_lit "test data")
  /\ sign256 client_a0 noon 7 (b_lit "test data")
     = sign256 client_a noon 7 (b_lit "test data").
Proof.
  apply (nul_padded_key_same_signatures (py "http://localhost:8080") (py "a")
           ∅ client_a client_a0 (b_lit "a")).
  - reflexivity.
  - reflexivity.
  - reflexivity.
  - cbn. lia.
Defined.

(** ** The stored base URL *)

Lemma rstrip_char_spec (ch : N) (s : pystr) :
  exists n, s = rstrip_char ch s ++ repeat ch n
            /\ last (rstrip_char ch s) <> Some ch.
Proof.
  induction s as [| c s (n & Hs & Hl)]; [by exists 0%nat |].
  cbn [rstrip_char]. destruct (rstrip_char ch s) as [| x r] eqn:Hr.
  - destruct (c =? ch)%N eqn:E.
    + apply N.eqb_eq in E. subst c. exists (S n). split; [| done].
      cbn. f_equal. exact Hs.
    + apply N.eqb_neq in E. exists n. split; [cbn; f_equal; exact Hs |].
      cbn. congruence.
  - exists n. split.
    + change (c :: s = c :: ((x :: r) ++ repeat ch n)). by rewrite <- Hs.
    + rewrite last_cons. destruct (last (x :: r)) eqn:E; [exact Hl |].
      apply last_None in E. discriminate.
Qed.

(** X10.  The base URL stored by the constructor is the given URL with all
    its trailing slashes removed, and nothing else changed: it does not end
    in ['/'], and the given URL is it followed by slashes only. *)
Theorem init_base_url_stripped
  (url key : pystr) (kw : gmap string Z) (self : HMACClient) :
  __init__ url key kw = Ok self ->
  last (base_url self) <> Some 47%N
  /\ exists n, url = base_url self ++ repeat 47%N n.
Proof.
  intros Hinit. apply init_inv in Hinit as (-> & _).
  destruct (rstrip_char_spec 47 url) as (n & Hs & Hl).
  split; [exact Hl | by exists n].
Qed.

Lemma init_base_url_stripped_witness :
  last (base_url demo_client) <> Some 47%N
  /\ exists n, py "http://localhost:8080/"
               = base_url demo_client ++ repeat 47%N n.
Proof.
  apply (init_base_url_stripped (py "http://localhost:8080/")
           (py "test-secret-key") ∅ demo_client).
  exact demo_client_init.
Defined.

(** ** The shape of what [sign256] returns *)

Lemma nibble_bits (x sh v : Z) :
  0 <= sh -> 0 <= v < 16 ->
  (forall n, 0 <= n < 4 -> Z.testbit x (n + sh) = Z.testbit v n) ->
  (x / 2 ^ sh) mod 16 = v.
Proof.
  intros Hsh Hv Hbits.
  rewrite <- Z.shiftr_div_pow2 by lia.
  change 16 with (2 ^ 4). rewrite <- Z.land_ones by lia.
  apply Z.bits_inj'. intros n Hn.
  rewrite Z.land_spec, Z.shiftr_spec by lia.
  destruct (Z_lt_ge_dec n 4) as [Hlt | Hge].
  - rewrite Z.ones_spec_low by lia. rewrite andb_true_r. apply Hbits. lia.
  - rewrite Z.ones_spec_high by lia. rewrite andb_false_r. symmetry.
    destruct (Z.eq_dec v 0) as [-> | Hv0]; [apply Z.bits_0 |].
    apply Z.bits_above_log2; [lia |].
    assert (Z.log2 v < 4) by (apply Z.log2_lt_pow2; lia). lia.
Qed.

Lemma four_cases (n : Z) : 0 <= n < 4 -> n = 0 \/ n = 1 \/ n = 2 \/ n = 3.
Proof. lia. Qed.

(** The version digit of the UUID is 4. *)
Lemma uuid4_int_version (rnd : Z) : (uuid4_int rnd / 2 ^ 76) mod 16 = 4.
Proof.
  apply nibble_bits; [lia | lia |]. intros n Hn. unfold uuid4_int.
  rewrite Z.lor_spec, Z.ldiff_spec.
  destruct (four_cases n Hn) as [-> | [-> | [-> | ->]]]; cbn [Z.add];
    match goal with
    | |- context [Z.testbit (Z.shiftl 61440 64) ?k] =>
        change (Z.testbit (Z.shiftl 61440 64) k) with true
    end;
    rewrite andb_false_r; reflexivity.
Qed.

(** The variant digit of the UUID is one of 8, 9, a, b. *)
Lemma uuid4_int_variant (rnd : Z) : 8 <= (uuid4_int rnd / 2 ^ 60) mod 16 <= 11.
Proof.
  set (x := uuid4_int rnd).
  assert (H3 : Z.testbit x 63 = true).
  { unfold x, uuid4_int. rewrite Z.lor_spec, Z.ldiff_spec, Z.lor_spec.
    change (Z.testbit (Z.shiftl 32768 48) 63) with true.
    change (Z.testbit (Z.shiftl 61440 64) 63) with false.
    change (Z.testbit (Z.shiftl 4 76) 63) with false.
    by rewrite orb_true_r. }
  assert (H2 : Z.testbit x 62 = false).
  { unfold x, uuid4_int.
    rewrite Z.lor_spec, Z.ldiff_spec, Z.lor_spec, Z.ldiff_spec.
    change (Z.testbit (Z.shiftl 49152 48) 62) with true.
    change (Z.testbit (Z.shiftl 32768 48) 62) with false.
    change (Z.testbit (Z.shiftl 4 76) 62) with false.
    by rewrite andb_false_r. }
  set (v := 8 + Z.b2z (Z.testbit x 61) * 2 + Z.b2z (Z.testbit x 60)).
  assert (Hv : 8 <= v <= 11)
    by (unfold v; destruct (Z.testbit x 61), (Z.testbit x 60); cbn; lia).
  assert (E : (x / 2 ^ 60) mod 16 = v).
  { apply nibble_bits; [lia | lia |]. intros n Hn.
    destruct (four_cases n Hn) as [-> | [-> | [-> | ->]]];
      [change (0 + 60) with 60 | change (1 + 60) with 61
      | change (2 + 60) with 62 | change (3 + 60) with 63];
      unfold v; rewrite ?H3, ?H2;
      destruct (Z.testbit x 61), (Z.testbit x 60); reflexivity. }
  by rewrite E.
Qed.

Lemma length_fmt_hex (w : nat) (i : Z) : length (fmt_hex w i) = w.
Proof. induction w as [| w IH]; cbn [fmt_hex length]; [done | by rewrite IH]. Qed.

(** X11.  Whenever [sign256] returns, the hash is 64 characters of
    [0-9a-f], the timestamp is the ISO text of the clock reading, and the
    nonce has the shape of a version 4 UUID: 36 characters, hyphens at
    positions 8, 13, 18 and 23, the digit [4] at position 14, one of
    [8 9 a b] at position 19, and nothing but [0-9a-f] and hyphens. *)
Theorem sign256_result_shape
  (self : HMACClient) (now : datetime) (rnd : Z) (data : bytes)
  (hash_value timestamp nonce : pystr) :
  sign256 self now rnd data = Ok (hash_value, timestamp, nonce) ->
  length hash_value = 64%nat
  /\ forallb is_lower_hex hash_value = true
  /\ timestamp = isoformat now
  /\ length nonce = 36%nat
  /\ nth 8 nonce 0%N = ch_minus /\ nth 13 nonce 0%N = ch_minus
  /\ nth 18 nonce 0%N = ch_minus /\ nth 23 nonce 0%N = ch_minus
  /\ nth 14 nonce 0%N = 52%N
  /\ In (nth 19 nonce 0%N) [56; 57; 97; 98]%N
  /\ Forall (fun c => is_lower_hex c = true \/ c = ch_minus) nonce.
Proof.
  unfold sign256. intros H.
  destruct (_check_input_size self data); cbn [bind] in H; [| discriminate].
  destruct (build_message _ _ data) as [m |]; cbn [bind] in H;
    [| discriminate].
  destruct (encode_utf8 (secret_key self)) as [k |]; cbn [bind] in H;
    [| discriminate].
  destruct (encode_utf8 m) as [mb |]; cbn [bind] in H; [| discriminate].
  assert (E : (hexdigest (hmac_sha256 k mb), isoformat now, uuid4 rnd)
               = (hash_value, timestamp, nonce)) by congruence.
  apply pair_equal_spec in E as [E E3]. apply pair_equal_spec in E as [E1 E2].
  subst hash_value timestamp nonce. clear H.
  split; [by rewrite hexdigest_length, hmac_sha256_length |].
  split; [apply hexdigest_lower_hex |].
  split; [reflexivity |].
  pose proof (uuid4_int_version rnd) as Hver.
  pose proof (uuid4_int_variant rnd) as Hvar.
  unfold uuid4, uuid_str. set (i := uuid4_int rnd) in *.
  assert (Hhex : Forall (fun c => is_lower_hex c = true \/ c = ch_minus)
                   (fmt_hex 32 i))
    by (eapply Forall_impl; [apply fmt_hex_lower | by left]).
  split.
  { rewrite !length_app, !length_take, !length_drop, !length_fmt_hex.
    reflexivity. }
  clearbody i. cbn [fmt_hex firstn skipn app nth Z.of_nat Pos.of_succ_nat
                     Pos.succ] in *.
  change (16 ^ Z.of_nat 19) with (2 ^ 76) in *.
  change (16 ^ Z.of_nat 15) with (2 ^ 60) in *.
  rewrite Hver in Hhex |- *.
  repeat (split; [reflexivity |]).
  split.
  - unfold hex_digit.
    destruct (Z.eq_dec ((i / 2 ^ 60) mod 16) 8) as [-> | ?]; [cbn; tauto |].
    destruct (Z.eq_dec ((i / 2 ^ 60) mod 16) 9) as [-> | ?]; [cbn; tauto |].
    destruct (Z.eq_dec ((i / 2 ^ 60) mod 16) 10) as [-> | ?]; [cbn; tauto |].
    destruct (Z.eq_dec ((i / 2 ^ 60) mod 16) 11) as [-> | ?]; [cbn; tauto |].
    lia.
  - repeat match goal with
           | H : Forall _ (_ :: _) |- _ => inversion H; subst; clear H
           end.
    repeat (constructor; [first [assumption | by right] |]). constructor.
Qed.

Lemma sign256_result_shape_witness :
  length (hexdigest
            (hmac_sha256 (b_lit "test-secret-key")
               (signed_bytes (isoformat noon) (uuid4 7) (b_lit "test data"))))
  = 64%nat
  /\ length (uuid4 7) = 36%nat
  /\ nth 14 (uuid4 7) 0%N = 52%N.
Proof.
  destruct (sign256_result_shape demo_client noon 7 (b_lit "test data")
              (hexdigest
                 (hmac_sha256 (b_lit "test-secret-key")
                    (signed_bytes (isoformat noon) (uuid4 7)
                       (b_lit "test data"))))
              (isoformat noon) (uuid4 7))
    as (H1 & _ & _ & H4 & _ & _ & _ & _ & H9 & _).
  - vm_compute. reflexivity.
  - split; [exact H1 |]. split; [exact H4 | exact H9].
Defined.

(** * Request bodies and requests *)

(** ** [json.dumps] produces ASCII *)











(** ** UTF-8: encoding then decoding gives the text back *)

Lemma byte_to_of_Z (z : Z) : 0 <= z < 256 -> byte_to_Z (byte_of_Z z) = z.
Proof.
  intros Hz. unfold byte_to_Z, byte_of_Z. rewrite Z.mod_small by lia.
  destruct (Byte.of_N (Z.to_N z)) as [b |] eqn:E.
  - apply Byte.to_of_N in E. rewrite E. lia.
  - apply Byte.of_N_None_iff in E. lia.
Qed.

Lemma utf8_decode_1 (z0 : Z) (r : bytes) :
  0 <= z0 < 0x80 ->
  utf8_decode_opt (byte_of_Z z0 :: r)
  = option_map (cons (Z.to_N z0)) (utf8_decode_opt r).
Proof.
  intros H0. cbn [utf8_decode_opt]. rewrite byte_to_of_Z by lia.
  destruct (z0 <? 0x80) eqn:E; [reflexivity | lia].
Qed.

Lemma utf8_decode_2 (z0 z1 : Z) (r : bytes) :
  0xC2 <= z0 <= 0xDF -> 0x80 <= z1 <= 0xBF ->
  utf8_decode_opt (byte_of_Z z0 :: byte_of_Z z1 :: r)
  = option_map (cons (Z.to_N ((z0 - 192) * 64 + (z1 - 128))))
               (utf8_decode_opt r).
Proof.
  intros H0 H1. cbn [utf8_decode_opt]. rewrite !byte_to_of_Z by lia.
  destruct (z0 <? 0x80) eqn:E0; [lia |].
  replace ((0xC2 <=? z0) && (z0 <=? 0xDF)) with true
    by (symmetry; apply andb_true_iff; lia).
  unfold is_cont.
  replace ((0x80 <=? z1) && (z1 <=? 0xBF)) with true
    by (symmetry; apply andb_true_iff; lia).
  reflexivity.
Qed.

Lemma utf8_decode_3 (z0 z1 z2 : Z) (r : bytes) :
  0xE0 <= z0 <= 0xEF ->
  (if z0 =? 0xE0 then 0xA0 else 0x80) <= z1 ->
  z1 <= (if z0 =? 0xED then 0x9F else 0xBF) ->
  0x80 <= z2 <= 0xBF ->
  utf8_decode_opt (byte_of_Z z0 :: byte_of_Z z1 :: byte_of_Z z2 :: r)
  = option_map
      (cons (Z.to_N ((z0 - 224) * 4096 + (z1 - 128) * 64 + (z2 - 128))))
      (utf8_decode_opt r).
Proof.
  intros H0 Hlo Hhi H2.
  assert (H1 : 0x80 <= z1 <= 0xBF)
    by (destruct (z0 =? 0xE0), (z0 =? 0xED); lia).
  cbn [utf8_decode_opt]. rewrite !byte_to_of_Z by lia.
  destruct (z0 <? 0x80) eqn:E0; [lia |].
  replace ((0xC2 <=? z0) && (z0 <=? 0xDF)) with false
    by (symmetry; apply andb_false_iff; lia).
  replace ((0xE0 <=? z0) && (z0 <=? 0xEF)) with true
    by (symmetry; apply andb_true_iff; lia).
  unfold is_cont.
  replace (((if z0 =? 0xE0 then 0xA0 else 0x80) <=? z1)
           && (z1 <=? (if z0 =? 0xED then 0x9F else 0xBF))
           && ((0x80 <=? z2) && (z2 <=? 0xBF))) with true
    by (symmetry; rewrite !andb_true_iff; lia).
  reflexivity.
Qed.

Lemma utf8_decode_4 (z0 z1 z2 z3 : Z) (r : bytes) :
  0xF0 <= z0 <= 0xF4 ->
  (if z0 =? 0xF0 then 0x90 else 0x80) <= z1 ->
  z1 <= (if z0 =? 0xF4 then 0x8F else 0xBF) ->
  0x80 <= z2 <= 0xBF -> 0x80 <= z3 <= 0xBF ->
  utf8_decode_opt
    (byte_of_Z z0 :: byte_of_Z z1 :: byte_of_Z z2 :: byte_of_Z z3 :: r)
  = option_map
      (cons (Z.to_N ((z0 - 240) * 262144 + (z1 - 128) * 4096
                     + (z2 - 128) * 64 + (z3 - 128))))
      (utf8_decode_opt r).
Proof.
  intros H0 Hlo Hhi H2 H3.
  assert (H1 : 0x80 <= z1 <= 0xBF)
    by (destruct (z0 =? 0xF0), (z0 =? 0xF4); lia).
  cbn [utf8_decode_opt]. rewrite !byte_to_of_Z by lia.
  destruct (z0 <? 0x80) eqn:E0; [lia |].
  replace ((0xC2 <=? z0) && (z0 <=? 0xDF)) with false
    by (symmetry; apply andb_false_iff; lia).
  replace ((0xE0 <=? z0) && (z0 <=? 0xEF)) with false
    by (symmetry; apply andb_false_iff; lia).
  replace ((0xF0 <=? z0) && (z0 <=? 0xF4)) with true
    by (symmetry; apply andb_true_iff; lia).
  unfold is_cont.
  replace (((if z0 =? 0xF0 then 0x90 else 0x80) <=? z1)
           && (z1 <=? (if z0 =? 0xF4 then 0x8F else 0xBF))
           && ((0x80 <=? z2) && (z2 <=? 0xBF))
           && ((0x80 <=? z3) && (z3 <=? 0xBF))) with true
    by (symmetry; rewrite !andb_true_iff; lia).
  reflexivity.
Qed.

Lemma is_surrogate_false (c : N) :
  is_surrogate c = false -> (Z.of_N c < 0xD800 \/ 0xDFFF < Z.of_N c).
Proof.
  unfold is_surrogate. intros H. apply andb_false_iff in H as [H | H];
    apply N.leb_gt in H; lia.
Qed.

Lemma utf8_decode_encoded_char (c : N) (cb rest : bytes) :
  utf8_encode_char c = Some cb ->
  utf8_decode_opt (cb ++ rest) = option_map (cons c) (utf8_decode_opt rest).
Proof.
  unfold utf8_encode_char, cont_byte. set (z := Z.of_N c).
  assert (Hc : Z.to_N z = c) by (unfold z; apply N2Z.id).
  assert (Hz : 0 <= z) by (unfold z; lia).
  destruct (z <? 0x80) eqn:E1.
  { intros [= <-]. cbn [app]. rewrite utf8_decode_1 by lia. by rewrite Hc. }
  destruct (z <? 0x800) eqn:E2.
  { intros [= <-]. cbn [app]. rewrite utf8_decode_2 by dlia.
    replace ((192 + z / 64 - 192) * 64 + (128 + z mod 64 - 128)) with z
      by dlia.
    by rewrite Hc. }
  destruct (z <? 0x10000) eqn:E3.
  { destruct (is_surrogate c) eqn:Es; [discriminate |].
    apply is_surrogate_false in Es. fold z in Es.
    intros [= <-]. cbn [app].
    rewrite utf8_decode_3;
      [| dlia
       | destruct (224 + z / 4096 =? 0xE0) eqn:Ea; dlia
       | destruct (224 + z / 4096 =? 0xED) eqn:Eb; dlia
       | dlia].
    replace ((224 + z / 4096 - 224) * 4096
             + (128 + (z / 64) mod 64 - 128) * 64
             + (128 + z mod 64 - 128)) with z by dlia.
    by rewrite Hc. }
  destruct (z <? 0x110000) eqn:E4; [| discriminate].
  intros [= <-]. cbn [app].
  rewrite utf8_decode_4;
    [| dlia
     | destruct (240 + z / 262144 =? 0xF0) eqn:Ea; dlia
     | destruct (240 + z / 262144 =? 0xF4) eqn:Eb; dlia
     | dlia | dlia].
  replace ((240 + z / 262144 - 240) * 262144
           + (128 + (z / 4096) mod 64 - 128) * 4096
           + (128 + (z / 64) mod 64 - 128) * 64
           + (128 + z mod 64 - 128)) with z by dlia.
  by rewrite Hc.
Qed.

Lemma utf8_encode_decode (s : pystr) (bs : bytes) :
  utf8_encode_opt s = Some bs -> utf8_decode_opt bs = Some s.
Proof.
  revert bs. induction s as [| c s IH]; intros bs; cbn [utf8_encode_opt].
  - by intros [= <-].
  - destruct (utf8_encode_char c) as [cb |] eqn:Ec; [| discriminate].
    destruct (utf8_encode_opt s) as [rest |]; [| discriminate].
    intros [= <-]. rewrite (utf8_decode_encoded_char c cb rest Ec).
    by rewrite (IH rest eq_refl).
Qed.

(** A text can be encoded exactly when it holds no surrogate and nothing
    above U+10FFFF. *)
Lemma utf8_encode_char_scalar (c : N) :
  is_scalar c = true <-> exists cb, utf8_encode_char c = Some cb.
Proof.
  unfold is_scalar, utf8_encode_char.
  destruct (Z.of_N c <? 0x80) eqn:E1.
  { split; [eauto | intros _].
    apply andb_true_iff. split; [apply N.ltb_lt; lia |].
    apply negb_true_iff. unfold is_surrogate. apply andb_false_iff.
    left. apply N.leb_gt. lia. }
  destruct (Z.of_N c <? 0x800) eqn:E2.
  { split; [eauto | intros _].
    apply andb_true_iff. split; [apply N.ltb_lt; lia |].
    apply negb_true_iff. unfold is_surrogate. apply andb_false_iff.
    left. apply N.leb_gt. lia. }
  destruct (Z.of_N c <? 0x10000) eqn:E3.
  { destruct (is_surrogate c) eqn:Es.
    - rewrite andb_false_r. split; [discriminate | intros [? ?]; discriminate].
    - split; [eauto | intros _]. rewrite andb_true_r. apply N.ltb_lt. lia. }
  destruct (Z.of_N c <? 0x110000) eqn:E4.
  { split; [eauto | intros _].
    apply andb_true_iff. split; [apply N.ltb_lt; lia |].
    apply negb_true_iff. unfold is_surrogate. apply andb_false_iff.
    right. apply N.leb_gt. lia. }
  split; [| intros [? ?]; discriminate].
  intros H. apply andb_true_iff in H as [H _]. apply N.ltb_lt in H. lia.
Qed.

Lemma utf8_encode_opt_scalar (s : pystr) :
  forallb is_scalar s = true <-> exists bs, utf8_encode_opt s = Some bs.
Proof.
  induction s as [| c s IH]; cbn [forallb utf8_encode_opt].
  - split; eauto.
  - rewrite andb_true_iff, IH, utf8_encode_char_scalar. split.
    + intros [[cb ->] [bs ->]]. eauto.
    + destruct (utf8_encode_char c) as [cb |]; [| intros [? ?]; discriminate].
      destruct (utf8_encode_opt s) as [bs |]; [| intros [? ?]; discriminate].
      eauto.
Qed.

(** ** [_prepare_request_body] *)







(** X13.  With no JSON object and a [str] as [data], the body is the UTF-8
    encoding of the string, from which the string is recovered by decoding,
    when the string holds no lone surrogate; a string with a lone surrogate
    makes [_prepare_request_body] raise [UnicodeEncodeError]. *)
Theorem prepare_request_body_str (self : HMACClient) (s : pystr) :
  (forallb is_scalar s = true ->
   exists body,
     _prepare_request_body self JNone (DStr s) = Ok body
     /\ utf8_decode_opt body = Some s)
  /\ (forallb is_scalar s = false ->
      _prepare_request_body self JNone (DStr s) = Raise UnicodeEncodeError).
Proof.
  unfold _prepare_request_body, encode_utf8. cbn [is_not_None]. split.
  - intros Hs. apply utf8_encode_opt_scalar in Hs as [bs Hbs].
    exists bs. rewrite Hbs. split; [reflexivity |].
    by apply utf8_encode_decode.
  - intros Hs. destruct (utf8_encode_opt s) as [bs |] eqn:E; [| reflexivity].
    assert (forallb is_scalar s = true)
      by (apply utf8_encode_opt_scalar; eauto).
    congruence.
Qed.

Lemma prepare_request_body_str_witness :
  (exists body,
     _prepare_request_body demo_client JNone (DStr [233; 8364]%N) = Ok body
     /\ utf8_decode_opt body = Some [233; 8364]%N)
  /\ _prepare_request_body demo_client JNone (DStr [97; 0xDC00]%N)
     = Raise UnicodeEncodeError.
Proof.
  split.
  - apply (prepare_request_body_str demo_client [233; 8364]%N). reflexivity.
  - apply (prepare_request_body_str demo_client [97; 0xDC00]%N). reflexivity.
Defined.

(** ** [_make_request] and the request methods *)

Lemma header_names_distinct :
  HEADER_HMAC_HASH <> HEADER_HMAC_TIMESTAMP
  /\ HEADER_HMAC_HASH <> HEADER_HMAC_NONCE
  /\ HEADER_HMAC_TIMESTAMP <> HEADER_HMAC_NONCE
  /\ py "Content-Type" <> HEADER_HMAC_HASH
  /\ py "Content-Type" <> HEADER_HMAC_TIMESTAMP
  /\ py "Content-Type" <> HEADER_HMAC_NONCE.
Proof. repeat split; discriminate. Qed.

Lemma hmac_headers_lookup (h ts n : pystr) :
  hmac_headers h ts n !! HEADER_HMAC_HASH = Some h
  /\ hmac_headers h ts n !! HEADER_HMAC_TIMESTAMP = Some ts
  /\ hmac_headers h ts n !! HEADER_HMAC_NONCE = Some n.
Proof.
  destruct header_names_distinct as (H1 & H2 & H3 & _).
  unfold hmac_headers. split; [apply lookup_insert_eq |]. split.
  - rewrite lookup_insert_ne by done. apply lookup_insert_eq.
  - rewrite lookup_insert_ne by done. rewrite lookup_insert_ne by done.
    apply lookup_insert_eq.
Qed.

Lemma hmac_headers_lookup_other (h ts n k : pystr) :
  k <> HEADER_HMAC_HASH -> k <> HEADER_HMAC_TIMESTAMP ->
  k <> HEADER_HMAC_NONCE ->
  hmac_headers h ts n !! k = None.
Proof.
  intros H1 H2 H3. unfold hmac_headers.
  rewrite !lookup_insert_ne by done. apply lookup_empty.
Qed.

Lemma lstrip_char_repeat (ch : N) (n : nat) (s : pystr) :
  lstrip_char ch (repeat ch n ++ s) = lstrip_char ch s.
Proof.
  induction n as [| n IH]; cbn [repeat app lstrip_char]; [done |].
  by rewrite N.eqb_refl.
Qed.

(** Signing then verifying, for the request methods. *)
Lemma sign256_verify256_fresh
  (url key : pystr) (kw : gmap string Z) (self : HMACClient) (ki mis : Z)
  (kb : bytes) (now : datetime) (rnd : Z) (data : bytes) (text : pystr) :
  __init__ url key kw = Ok self ->
  getitem (config self) "key_interval" = Ok ki ->
  getitem (config self) "max_input_size" = Ok mis ->
  utf8_encode_opt key = Some kb ->
  utc_reading now ->
  Z.of_nat (length data) <= mis ->
  utf8_decode_opt data = Some text ->
  exists h ts n,
    sign256 self now rnd data = Ok (h, ts, n)
    /\ forall now',
         utc_reading now' ->
         Z.abs (wall_us now' - wall_us now) <= ki * 1000000 ->
         verify256 self now' data h ts n = Ok true.
Proof.
  intros Hinit Hki Hm Hk Hnow Hlen Hdec.
  apply init_inv in Hinit as (_ & Hkey & _). rewrite <- Hkey in Hk.
  pose proof (check_input_size_ok self data mis Hm Hlen) as Hg.
  pose proof (plain_is_ascii _ (isoformat_plain now (proj2 Hnow))) as Hts.
  pose proof (uuid4_is_ascii rnd) as Hn.
  pose proof (message_bytes _ _ text data Hts Hn Hdec) as Hmsg.
  assert (Hbm : build_message (isoformat now) (uuid4 rnd) data
                = Ok (isoformat now ++ [ch_colon] ++ uuid4 rnd
                        ++ [ch_colon] ++ text)).
  { unfold build_message, decode_utf8. by rewrite Hdec. }
  assert (Hkb : encode_utf8 (secret_key self) = Ok kb)
    by (unfold encode_utf8; by rewrite Hk).
  eexists _, _, _. split.
  { unfold sign256. rewrite Hg. cbn [bind]. rewrite Hbm. cbn [bind].
    rewrite Hkb. cbn [bind]. rewrite Hmsg. cbn [bind]. reflexivity. }
  intros now' Hnow' Hd. unfold verify256, verify256_try.
  rewrite Hg. cbn [bind].
  rewrite (verify_timestamp_fresh self now now' ki Hki Hnow Hnow' Hd).
  cbn [negb]. rewrite Hbm. cbn [bind]. rewrite Hkb. cbn [bind].
  rewrite Hmsg. cbn [bind]. rewrite compare_digest_hexdigest.
  cbn [verify_handlers]. by rewrite bool_decide_eq_true_2.
Qed.

Section RequestProperties.

Variable urljoin : pystr -> pystr -> result pystr.
Variables Passthrough Response TransportError : Type.
Variable request : Session -> Request Passthrough
                   -> outcome Response TransportError.

(** The headers of a signed request. *)
Lemma request_headers_spec (kw : kwargs Passthrough) (j : json)
  (h ts n : pystr) :
  let hs := request_headers kw j h ts n in
  let caller := match kw_headers kw with Some c => c | None => ∅ end in
  hs !! HEADER_HMAC_HASH = Some h
  /\ hs !! HEADER_HMAC_TIMESTAMP = Some ts
  /\ hs !! HEADER_HMAC_NONCE = Some n
  /\ hs !! py "Content-Type"
     = (if is_not_None j then Some (py "application/json")
        else caller !! py "Content-Type")
  /\ forall k,
       k <> HEADER_HMAC_HASH -> k <> HEADER_HMAC_TIMESTAMP ->
       k <> HEADER_HMAC_NONCE -> k <> py "Content-Type" ->
       hs !! k = caller !! k.
Proof.
  cbv zeta. unfold request_headers.
  set (caller := match kw_headers kw with Some c => c | None => ∅ end).
  destruct (hmac_headers_lookup h ts n) as (L1 & L2 & L3).
  destruct header_names_distinct as (_ & _ & _ & C1 & C2 & C3).
  assert (U : forall k v, hmac_headers h ts n !! k = Some v ->
                          (hmac_headers h ts n ∪ caller) !! k = Some v)
    by (intros k v; apply lookup_union_Some_l).
  assert (V : forall k, k <> HEADER_HMAC_HASH -> k <> HEADER_HMAC_TIMESTAMP ->
                        k <> HEADER_HMAC_NONCE ->
                        (hmac_headers h ts n ∪ caller) !! k = caller !! k).
  { intros k K1 K2 K3. apply lookup_union_r.
    by apply hmac_headers_lookup_other. }
  destruct (is_not_None j).
  - rewrite !lookup_insert_ne by done. rewrite lookup_insert_eq.
    split; [by apply U |]. split; [by apply U |]. split; [by apply U |].
    split; [reflexivity |].
    intros k K1 K2 K3 K4. rewrite lookup_insert_ne by done. by apply V.
  - split; [by apply U |]. split; [by apply U |]. split; [by apply U |].
    split; [apply V; by apply not_eq_sym |].
    intros k K1 K2 K3 _. by apply V.
Qed.

Lemma make_request_signed (self : HMACClient) (s : Session) (now : datetime)
  (rnd : Z) (method path url : pystr) (json_data : json) (data : raw_data)
  (kw : kwargs Passthrough) (body : bytes) (h ts n : pystr) :
  session self = Some s ->
  urljoin (base_url self ++ [47%N]) (lstrip_char 47 path) = Ok url ->
  _prepare_request_body self json_data data = Ok body ->
  sign256 self now rnd body = Ok (h, ts, n) ->
  _make_request urljoin request self now rnd method path json_data data kw
  = (request_handlers
       (request s (signed_request method url json_data kw body h ts n)),
     match kw_headers kw with
     | Some _ => Some (request_headers kw json_data h ts n)
     | None => None
     end).
Proof.
  intros Hs Hu Hb Hsig. unfold _make_request, signed_request.
  rewrite Hu, Hb, Hsig, Hs. by destruct body.
Qed.

Lemma init_session (url key : pystr) (kws : gmap string Z)
  (self : HMACClient) :
  __init__ url key kws = Ok self -> exists s, session self = Some s.
Proof.
  unfold __init__. intros Hinit.
  destruct (_validate_config _); cbn [bind] in Hinit; [| discriminate].
  destruct (getitem _ "timeout"); cbn [bind] in Hinit; [| discriminate].
  injection Hinit as <-. cbn [session]. eauto.
Qed.

(** X14.  When the URL can be joined and the body prepared and signed,
    [_make_request] hands the transport one request: the method as given,
    the URL joined from the base URL with a slash and the path without its
    leading slashes, the body
    as [data] unless it is empty, and headers in which the three HMAC
    headers are the triple of [sign256] for that body (replacing any values
    the caller gave under those names), [Content-Type] is
    [application/json] for a JSON body and the caller's otherwise, and every
    other header of the caller is kept.  The result is the response, or
    [HTTPError] when the transport raised a [RequestException]. *)
Theorem make_request_sends_signed
  (self : HMACClient) (s : Session) (now : datetime) (rnd : Z)
  (method path url : pystr) (json_data : json) (data : raw_data)
  (kw : kwargs Passthrough) (body : bytes) (h ts n : pystr) :
  session self = Some s ->
  urljoin (base_url self ++ [47%N]) (lstrip_char 47 path) = Ok url ->
  _prepare_request_body self json_data data = Ok body ->
  sign256 self now rnd body = Ok (h, ts, n) ->
  exists req,
    fst (_make_request urljoin request self now rnd method path json_data
           data kw)
    = request_handlers (request s req)
    /\ req_method req = method
    /\ req_url req = url
    /\ req_data req = (if bool_decide (body = []) then None else Some body)
    /\ req_passthrough req = kw_passthrough kw
    /\ req_headers req !! HEADER_HMAC_HASH = Some h
    /\ req_headers req !! HEADER_HMAC_TIMESTAMP = Some ts
    /\ req_headers req !! HEADER_HMAC_NONCE = Some n
    /\ req_headers req !! py "Content-Type"
       = (if is_not_None json_data then Some (py "application/json")
          else match kw_headers kw with
               | Some c => c !! py "Content-Type"
               | None => None
               end)
    /\ forall k c,
         kw_headers kw = Some c ->
         k <> HEADER_HMAC_HASH -> k <> HEADER_HMAC_TIMESTAMP ->
         k <> HEADER_HMAC_NONCE -> k <> py "Content-Type" ->
         req_headers req !! k = c !! k.
Proof.
  intros Hs Hu Hb Hsig.
  exists (signed_request method url json_data kw body h ts n).
  rewrite (make_request_signed self s now rnd method path url json_data data
             kw body h ts n Hs Hu Hb Hsig).
  cbn [fst signed_request req_method req_url req_data req_passthrough
       req_headers].
  destruct (request_headers_spec kw json_data h ts n)
    as (L1 & L2 & L3 & L4 & L5).
  split; [reflexivity |]. split; [reflexivity |]. split; [reflexivity |].
  split; [reflexivity |]. split; [reflexivity |].
  split; [exact L1 |]. split; [exact L2 |]. split; [exact L3 |].
  split.
  - rewrite L4. destruct (is_not_None json_data); [reflexivity |].
    destruct (kw_headers kw); [reflexivity | apply lookup_empty].
  - intros k c Hc K1 K2 K3 K4. rewrite (L5 k K1 K2 K3 K4). by rewrite Hc.
Qed.

(** X15.  What [_make_request] puts in the HMAC headers verifies: for a
    client whose key encodes as UTF-8 and a body within the size limit that
    is valid UTF-8, the transport receives a request whose three HMAC
    headers are accepted by [verify256] for that body, at the signing
    instant and at any instant within [key_interval] seconds of it. *)
Theorem make_request_verifies
  (url key : pystr) (kws : gmap string Z) (self : HMACClient) (ki mis : Z)
  (kb : bytes) (now : datetime) (rnd : Z) (method path joined : pystr)
  (json_data : json) (data : raw_data) (kw : kwargs Passthrough)
  (body : bytes) (text : pystr) :
  __init__ url key kws = Ok self ->
  urljoin (base_url self ++ [47%N]) (lstrip_char 47 path) = Ok joined ->
  getitem (config self) "key_interval" = Ok ki ->
  getitem (config self) "max_input_size" = Ok mis ->
  utf8_encode_opt key = Some kb ->
  utc_reading now ->
  _prepare_request_body self json_data data = Ok body ->
  Z.of_nat (length body) <= mis ->
  utf8_decode_opt body = Some text ->
  exists s req h ts n,
    session self = Some s
    /\ fst (_make_request urljoin request self now rnd method path json_data
              data kw)
       = request_handlers (request s req)
    /\ req_data req = (if bool_decide (body = []) then None else Some body)
    /\ req_headers req !! HEADER_HMAC_HASH = Some h
    /\ req_headers req !! HEADER_HMAC_TIMESTAMP = Some ts
    /\ req_headers req !! HEADER_HMAC_NONCE = Some n
    /\ forall now',
         utc_reading now' ->
         Z.abs (wall_us now' - wall_us now) <= ki * 1000000 ->
         verify256 self now' body h ts n = Ok true.
Proof.
  intros Hinit Hu Hki Hmis Hk Hnow Hb Hlen Hdec.
  destruct (sign256_verify256_fresh url key kws self ki mis kb now rnd
              body text Hinit Hki Hmis Hk Hnow Hlen Hdec)
    as (h & ts & n & Hsig & Hv).
  destruct (init_session url key kws self Hinit) as [s Hs].
  exists s, (signed_request method joined json_data kw body h ts n),
    h, ts, n.
  rewrite (make_request_signed self s now rnd method path joined json_data
             data kw body h ts n Hs Hu Hb Hsig).
  cbn [fst signed_request req_data req_headers].
  destruct (request_headers_spec kw json_data h ts n) as (L1 & L2 & L3 & _).
  split; [exact Hs |]. split; [reflexivity |]. split; [reflexivity |].
  split; [exact L1 |]. split; [exact L2 |]. split; [exact L3 | exact Hv].
Qed.

(** X16.  When the URL cannot be joined, or the body cannot be prepared
    or signed (an unencodable string, a body over the size limit, a body
    that is not UTF-8), [_make_request] raises that exception whatever the
    transport would do, and leaves the caller's headers dictionary as it
    was. *)
Theorem make_request_raises_before_sending
  (request' : Session -> Request Passthrough
              -> outcome Response TransportError)
  (self : HMACClient) (now : datetime) (rnd : Z) (method path : pystr)
  (json_data : json) (data : raw_data) (kw : kwargs Passthrough) (e : exn) :
  (urljoin (base_url self ++ [47%N]) (lstrip_char 47 path) = Raise e
   \/ exists url,
        urljoin (base_url self ++ [47%N]) (lstrip_char 47 path) = Ok url
        /\ (_prepare_request_body self json_data data = Raise e
            \/ exists body,
                 _prepare_request_body self json_data data = Ok body
                 /\ sign256 self now rnd body = Raise e)) ->
  _make_request urljoin request self now rnd method path json_data data kw
  = (Raised e, kw_headers kw)
  /\ _make_request urljoin request' self now rnd method path json_data data kw
     = (Raised e, kw_headers kw).
Proof.
  intros [Hu | (url & Hu & [Hb | (body & Hb & Hsig)])];
    unfold _make_request; rewrite Hu; [done | |]; rewrite Hb; [done |].
  by rewrite Hsig.
Qed.

(** X17.  The path may start with any number of slashes: they are removed
    before the URL is joined, so they do not change the request. *)
Theorem make_request_leading_slashes
  (self : HMACClient) (now : datetime) (rnd : Z) (method path : pystr)
  (json_data : json) (data : raw_data) (kw : kwargs Passthrough) (k : nat) :
  _make_request urljoin request self now rnd method (repeat 47%N k ++ path)
    json_data data kw
  = _make_request urljoin request self now rnd method path json_data data kw.
Proof. unfold _make_request. by rewrite lstrip_char_repeat. Qed.

(** X18.  [get] and [delete] called without a [json_data] or [data]
    keyword sign the empty body and send no [data]: when signing succeeds
    the request carries the method name, no body, and as HMAC headers the
    triple of [sign256] for the empty byte string. *)
Theorem get_delete_sign_empty_body
  (self : HMACClient) (s : Session) (now : datetime) (rnd : Z)
  (path url : pystr) (kw : kwargs Passthrough) (h ts n : pystr) :
  session self = Some s ->
  urljoin (base_url self ++ [47%N]) (lstrip_char 47 path) = Ok url ->
  sign256 self now rnd [] = Ok (h, ts, n) ->
  exists rg rd,
    fst (get urljoin request self now rnd path JNone DNone kw)
    = request_handlers (request s rg)
    /\ fst (delete urljoin request self now rnd path JNone DNone kw)
       = request_handlers (request s rd)
    /\ req_method rg = py "GET" /\ req_method rd = py "DELETE"
    /\ req_data rg = None /\ req_data rd = None
    /\ req_headers rg = req_headers rd
    /\ req_headers rg !! HEADER_HMAC_HASH = Some h
    /\ req_headers rg !! HEADER_HMAC_TIMESTAMP = Some ts
    /\ req_headers rg !! HEADER_HMAC_NONCE = Some n.
Proof.
  intros Hs Hu Hsig.
  exists (signed_request (py "GET") url JNone kw [] h ts n),
    (signed_request (py "DELETE") url JNone kw [] h ts n).
  unfold get, delete.
  rewrite !(make_request_signed self s now rnd _ path url JNone DNone kw
              [] h ts n Hs Hu eq_refl Hsig).
  cbn [fst signed_request req_method req_data req_headers].
  destruct (request_headers_spec kw JNone h ts n) as (L1 & L2 & L3 & _).
  split; [reflexivity |]. split; [reflexivity |]. split; [reflexivity |].
  split; [reflexivity |]. split; [reflexivity |]. split; [reflexivity |].
  split; [reflexivity |].
  split; [exact L1 |]. split; [exact L2 | exact L3].
Qed.

(** X19.  The caller's headers dictionary is updated in place.  After a
    signed JSON [post] given a dictionary, that dictionary holds
    [Content-Type: application/json]; a later [get] given the same
    dictionary then sends that header, although it sends no body, together
    with the HMAC headers of its own signature. *)
Theorem headers_dictionary_reused
  (self : HMACClient) (s : Session) (now now2 : datetime) (rnd rnd2 : Z)
  (path path2 url url2 : pystr) (json_data : json) (data : raw_data)
  (h0 : headers_dict) (p p2 : Passthrough) (body : bytes)
  (h ts n h' ts' n' : pystr) :
  session self = Some s ->
  urljoin (base_url self ++ [47%N]) (lstrip_char 47 path) = Ok url ->
  urljoin (base_url self ++ [47%N]) (lstrip_char 47 path2) = Ok url2 ->
  json_data <> JNone ->
  _prepare_request_body self json_data data = Ok body ->
  sign256 self now rnd body = Ok (h, ts, n) ->
  sign256 self now2 rnd2 [] = Ok (h', ts', n') ->
  exists h1 rg,
    snd (post urljoin request self now rnd path json_data data
           {| kw_headers := Some h0; kw_passthrough := p |})
    = Some h1
    /\ h1 !! py "Content-Type" = Some (py "application/json")
    /\ fst (get urljoin request self now2 rnd2 path2 JNone DNone
              {| kw_headers := Some h1; kw_passthrough := p2 |})
       = request_handlers (request s rg)
    /\ req_data rg = None
    /\ req_headers rg !! py "Content-Type" = Some (py "application/json")
    /\ req_headers rg !! HEADER_HMAC_HASH = Some h'
    /\ req_headers rg !! HEADER_HMAC_TIMESTAMP = Some ts'
    /\ req_headers rg !! HEADER_HMAC_NONCE = Some n'.
Proof.
  intros Hs Hu Hu2 Hj Hb Hsig Hsig2.
  set (kw1 := {| kw_headers := Some h0; kw_passthrough := p |}).
  set (h1 := request_headers kw1 json_data h ts n).
  set (kw2 := {| kw_headers := Some h1; kw_passthrough := p2 |}).
  exists h1, (signed_request (py "GET") url2 JNone kw2 [] h' ts' n').
  unfold post, get.
  rewrite (make_request_signed self s now rnd _ path url json_data data kw1
             body h ts n Hs Hu Hb Hsig).
  rewrite (make_request_signed self s now2 rnd2 _ path2 url2 JNone DNone kw2
             [] h' ts' n' Hs Hu2 eq_refl Hsig2).
  cbn [fst snd kw1 kw_headers signed_request req_data req_headers].
  destruct (request_headers_spec kw1 json_data h ts n) as (_ & _ & _ & L4 & _).
  destruct (request_headers_spec kw2 JNone h' ts' n')
    as (M1 & M2 & M3 & M4 & _).
  assert (Hct : h1 !! py "Content-Type" = Some (py "application/json")).
  { unfold h1. rewrite L4. by destruct json_data. }
  split; [reflexivity |]. split; [exact Hct |]. split; [reflexivity |].
  split; [reflexivity |].
  split; [rewrite M4; cbn [is_not_None kw2 kw_headers]; exact Hct |].
  split; [exact M1 |]. split; [exact M2 | exact M3].
Qed.

End RequestProperties.

(** A JSON [post] with the caller's dictionary: the forged hash header is
    replaced and the caller's own header is kept. *)
Lemma make_request_sends_signed_witness :
  exists req,
    fst (_make_request join_paths echo demo_client noon 7 (py "POST")
           (py "/api/items") json_sample DNone headers_kwargs)
    = request_handlers (echo {| timeout := 30 |} req)
    /\ req_url req = py "http://localhost:8080/api/items"
    /\ req_data req = Some (ascii_bytes (dumps json_sample))
    /\ req_headers req !! HEADER_HMAC_HASH
       = Some (noon_hash (ascii_bytes (dumps json_sample)))
    /\ req_headers req !! py "Content-Type" = Some (py "application/json")
    /\ req_headers req !! py "X-Trace" = Some (py "1").
Proof.
  destruct (make_request_sends_signed join_paths unit (option bytes) unit
              echo demo_client {| timeout := 30 |} noon 7 (py "POST")
              (py "/api/items") (py "http://localhost:8080/api/items")
              json_sample DNone headers_kwargs
              (ascii_bytes (dumps json_sample))
              (noon_hash (ascii_bytes (dumps json_sample)))
              (isoformat noon) (uuid4 7))
    as (req & R1 & _ & R3 & R4 & _ & R6 & _ & _ & R9 & R10).
  - reflexivity.
  - reflexivity.
  - reflexivity.
  - vm_compute. reflexivity.
  - exists req. split; [exact R1 |]. split; [exact R3 |].
    split; [exact R4 |]. split; [exact R6 |]. split; [exact R9 |].
    rewrite (R10 (py "X-Trace") caller_headers); [reflexivity | reflexivity
      | discriminate | discriminate | discriminate | discriminate].
Defined.

Lemma make_request_verifies_witness :
  exists s req h ts n,
    session demo_client = Some s
    /\ fst (_make_request join_paths echo demo_client noon 7 (py "PUT")
              (py "items/1") JNone (DStr (py "test data")) no_kwargs)
       = request_handlers (echo s req)
    /\ req_data req = Some (b_lit "test data")
    /\ req_headers req !! HEADER_HMAC_HASH = Some h
    /\ req_headers req !! HEADER_HMAC_TIMESTAMP = Some ts
    /\ req_headers req !! HEADER_HMAC_NONCE = Some n
    /\ verify256 demo_client a_little_later (b_lit "test data") h ts n
       = Ok true.
Proof.
  destruct (make_request_verifies join_paths unit (option bytes) unit echo
              (py "http://localhost:8080/") (py "test-secret-key") ∅
              demo_client 300 33554432 (b_lit "test-secret-key") noon 7
              (py "PUT") (py "items/1") (py "http://localhost:8080/items/1")
              JNone (DStr (py "test data"))
              no_kwargs (b_lit "test data") (py "test data"))
    as (s & req & h & ts & n & R1 & R2 & R3 & R4 & R5 & R6 & R7).
  - exact demo_client_init.
  - reflexivity.
  - reflexivity.
  - reflexivity.
  - reflexivity.
  - split; reflexivity.
  - reflexivity.
  - cbn. lia.
  - reflexivity.
  - exists s, req, h, ts, n. split; [exact R1 |]. split; [exact R2 |].
    split; [exact R3 |]. split; [exact R4 |]. split; [exact R5 |].
    split; [exact R6 |]. apply R7; [split; reflexivity |].
    vm_compute. discriminate.
Defined.

(** A body that is not UTF-8 and a body over the size limit. *)
Lemma make_request_raises_before_sending_witness :
  (_make_request join_paths echo demo_client noon 7 (py "POST") (py "/api")
     JNone (DBytes [xff]) headers_kwargs
   = (Raised UnicodeDecodeError, Some caller_headers)
   /\ _make_request join_paths unreachable demo_client noon 7 (py "POST")
        (py "/api") JNone (DBytes [xff]) headers_kwargs
      = (Raised UnicodeDecodeError, Some caller_headers))
  /\ (_make_request join_paths echo tiny_client noon 7 (py "POST") (py "/api")
        JNone (DStr (py "12345")) no_kwargs
      = (Raised InputTooLargeError, None)
      /\ _make_request join_paths unreachable tiny_client noon 7 (py "POST")
           (py "/api") JNone (DStr (py "12345")) no_kwargs
         = (Raised InputTooLargeError, None)).
Proof.
  split.
  - apply (make_request_raises_before_sending join_paths unit (option bytes)
             unit echo unreachable demo_client noon 7 (py "POST") (py "/api")
             JNone (DBytes [xff]) headers_kwargs UnicodeDecodeError).
    right. exists (py "http://localhost:8080/api"). split; [reflexivity |].
    right. exists [xff]. split; reflexivity.
  - apply (make_request_raises_before_sending join_paths unit (option bytes)
             unit echo unreachable tiny_client noon 7 (py "POST") (py "/api")
             JNone (DStr (py "12345")) no_kwargs InputTooLargeError).
    right. exists (py "http://localhost:8080/api"). split; [reflexivity |].
    right. exists (b_lit "12345"). split; reflexivity.
Defined.

Lemma get_delete_sign_empty_body_witness :
  exists rg rd,
    fst (get join_paths echo demo_client noon 7 (py "/api/items") JNone DNone
           no_kwargs)
    = request_handlers (echo {| timeout := 30 |} rg)
    /\ fst (delete join_paths echo demo_client noon 7 (py "/api/items") JNone
              DNone no_kwargs)
       = request_handlers (echo {| timeout := 30 |} rd)
    /\ req_data rg = None /\ req_data rd = None
    /\ req_headers rg !! HEADER_HMAC_HASH = Some (noon_hash []).
Proof.
  destruct (get_delete_sign_empty_body join_paths unit (option bytes) unit
              echo demo_client {| timeout := 30 |} noon 7 (py "/api/items")
              (py "http://localhost:8080/api/items")
              no_kwargs (noon_hash []) (isoformat noon) (uuid4 7))
    as (rg & rd & R1 & R2 & _ & _ & R5 & R6 & _ & R8 & _).
  - reflexivity.
  - reflexivity.
  - vm_compute. reflexivity.
  - exists rg, rd. split; [exact R1 |]. split; [exact R2 |].
    split; [exact R5 |]. split; [exact R6 | exact R8].
Defined.

Lemma headers_dictionary_reused_witness :
  exists h1 rg,
    snd (post join_paths echo demo_client noon 7 (py "/api/items")
           json_sample DNone
           {| kw_headers := Some caller_headers; kw_passthrough := tt |})
    = Some h1
    /\ h1 !! py "Content-Type" = Some (py "application/json")
    /\ fst (get join_paths echo demo_client a_little_later 8
              (py "/api/items") JNone DNone
              {| kw_headers := Some h1; kw_passthrough := tt |})
       = request_handlers (echo {| timeout := 30 |} rg)
    /\ req_data rg = None
    /\ req_headers rg !! py "Content-Type" = Some (py "application/json").
Proof.
  destruct (headers_dictionary_reused join_paths unit (option bytes) unit
              echo demo_client {| timeout := 30 |} noon a_little_later 7 8
              (py "/api/items") (py "/api/items")
              (py "http://localhost:8080/api/items")
              (py "http://localhost:8080/api/items") json_sample DNone
              caller_headers tt tt (ascii_bytes (dumps json_sample))
              (noon_hash (ascii_bytes (dumps json_sample)))
              (isoformat noon) (uuid4 7)
              (hexdigest
                 (hmac_sha256 (b_lit "test-secret-key")
                    (signed_bytes (isoformat a_little_later) (uuid4 8) [])))
              (isoformat a_little_later) (uuid4 8))
    as (h1 & rg & R1 & R2 & R3 & R4 & R5 & _).
  - reflexivity.
  - reflexivity.
  - reflexivity.
  - discriminate.
  - reflexivity.
  - vm_compute. reflexivity.
  - vm_compute. reflexivity.
  - exists h1, rg. split; [exact R1 |]. split; [exact R2 |].
    split; [exact R3 |]. split; [exact R4 | exact R5].
Defined.

(** ** What verification never accepts *)

Lemma verify_handlers_true (body : result bool) :
  verify_handlers body = Ok true -> body = Ok true.
Proof. destruct body as [b | []]; cbn [verify_handlers]; congruence. Qed.

Lemma compare_digest_true_shape (m : bytes) (sig : pystr) :
  length m = 32%nat ->
  compare_digest (hexdigest m) sig = Ok true ->
  length sig = 64%nat /\ forallb is_lower_hex sig = true.
Proof.
  intros Hlen. unfold compare_digest.
  destruct (is_ascii _ && is_ascii _); [| discriminate].
  intros [= H]. apply bool_decide_eq_true in H. subst sig.
  split; [rewrite hexdigest_length; lia | apply hexdigest_lower_hex].
Qed.

(** X20.  A signature that is not made of exactly 64 lower-case hexadecimal
    digits is never accepted, by either verification method, whatever the
    client, the clock and the payload: upper-case digits, a shortened or
    padded value or any other text give [False] (or [InputTooLargeError]
    for a payload over the limit), never [True]. *)
Theorem malformed_signature_never_accepted
  (self : HMACClient) (now : datetime) (data : bytes)
  (signature timestamp nonce : pystr) :
  length signature <> 64%nat \/ forallb is_lower_hex signature = false ->
  sha256_verify self data signature <> Ok true
  /\ verify256 self now data signature timestamp nonce <> Ok true.
Proof.
  intros Hbad.
  assert (Hno : forall m, length m = 32%nat ->
                          compare_digest (hexdigest m) signature <> Ok true).
  { intros m Hm Hc.
    destruct (compare_digest_true_shape m signature Hm Hc) as [H1 H2].
    destruct Hbad; congruence. }
  split; intros H; apply verify_handlers_true in H.
  - unfold sha256_verify_try, sha256_sign in H.
    destruct (_check_input_size self data); cbn [bind] in H; [| discriminate].
    destruct (encode_utf8 (secret_key self)) as [kb |]; cbn [bind] in H;
      [| discriminate].
    exact (Hno _ (hmac_sha256_length _ _) H).
  - unfold verify256_try in H.
    destruct (_check_input_size self data); cbn [bind] in H; [| discriminate].
    destruct (negb _); [discriminate |].
    destruct (build_message _ _ _); cbn [bind] in H; [| discriminate].
    destruct (encode_utf8 (secret_key self)) as [kb |]; cbn [bind] in H;
      [| discriminate].
    destruct (encode_utf8 _) as [msg |]; cbn [bind] in H; [| discriminate].
    exact (Hno _ (hmac_sha256_length _ _) H).
Qed.

(** The signature of ["test data"] in upper case, and cut to 63 digits. *)
Lemma malformed_signature_never_accepted_witness :
  (sha256_verify demo_client (b_lit "test data")
     (py "E01301D91B3425A4BDAED491B18BD8EC841364FDD41345200C6EA0DE115BB72C")
   <> Ok true
   /\ verify256 demo_client noon (b_lit "test data")
        (py "E01301D91B3425A4BDAED491B18BD8EC841364FDD41345200C6EA0DE115BB72C")
        (isoformat noon) (uuid4 7)
      <> Ok true)
  /\ (sha256_verify demo_client (b_lit "test data")
        (py "e01301d91b3425a4bdaed491b18bd8ec841364fdd41345200c6ea0de115bb72")
      <> Ok true
      /\ verify256 demo_client noon (b_lit "test data")
           (py "e01301d91b3425a4bdaed491b18bd8ec841364fdd41345200c6ea0de115bb72")
           (isoformat noon) (uuid4 7)
         <> Ok true).
Proof.
  split.
  - apply (malformed_signature_never_accepted demo_client noon
             (b_lit "test data")).
    right. reflexivity.
  - apply (malformed_signature_never_accepted demo_client noon
             (b_lit "test data")).
    left. cbn. lia.
Defined.

(** ** The configured timeout *)

Lemma getitem_insert_other (kw : gmap string Z) (k k' : string) (t : Z) :
  k <> k' ->
  getitem (<[k' := t]> kw ∪ DEFAULT_CONFIG) k
  = getitem (kw ∪ DEFAULT_CONFIG) k.
Proof.
  intros Hk. unfold getitem.
  by rewrite <- insert_union_l, lookup_insert_ne.
Qed.

Lemma sign256_same_key_and_limit (self self' : HMACClient) (now : datetime)
  (rnd : Z) (data : bytes) :
  secret_key self' = secret_key self ->
  getitem (config self') "max_input_size"
  = getitem (config self) "max_input_size" ->
  sign256 self' now rnd data = sign256 self now rnd data.
Proof.
  intros Hk Hm. unfold sign256, _check_input_size. by rewrite Hk, Hm.
Qed.

Section TimeoutProperties.

Variable urljoin : pystr -> pystr -> result pystr.
Variables Passthrough Response TransportError : Type.
Variable request : Session -> Request Passthrough
                   -> outcome Response TransportError.

(** X21.  The [timeout] of the configuration is not validated and is only
    stored on the session: any integer is accepted, and [_make_request]
    passes no timeout to [Session.request].  So with a transport that does
    not read the session's [timeout] attribute, a client built with another
    timeout makes every request with the same outcome. *)
Theorem timeout_only_on_session
  (url key : pystr) (kw : gmap string Z) (t : Z) (self : HMACClient)
  (now : datetime) (rnd : Z) (method path : pystr) (json_data : json)
  (data : raw_data) (kwr : kwargs Passthrough) :
  __init__ url key kw = Ok self ->
  (forall s s' req, request s req = request s' req) ->
  exists self',
    __init__ url key (<["timeout"%string := t]> kw) = Ok self'
    /\ session self' = Some {| timeout := t |}
    /\ _make_request urljoin request self' now rnd method path json_data
         data kwr
       = _make_request urljoin request self now rnd method path json_data
           data kwr.
Proof.
  intros Hinit Hreq.
  pose proof Hinit as Hinv.
  apply init_inv in Hinv
    as (Hb & Hk & Hne & Hc & ki & mis & Hki & Hkipos & Hmis & Hmispos).
  rewrite Hc in Hki, Hmis.
  assert (Hs : exists s, session self = Some s).
  { revert Hinit. unfold __init__.
    destruct (_validate_config _); cbn [bind]; [| discriminate].
    destruct (getitem _ "timeout"); cbn [bind]; [| discriminate].
    intros [= <-]. cbn [session]. eauto. }
  destruct Hs as [s Hs].
  eexists. split.
  { unfold __init__, _validate_config. cbn [secret_key config base_url].
    rewrite bool_decide_eq_false_2 by exact Hne.
    rewrite (getitem_insert_other kw "key_interval" "timeout" t) by done.
    rewrite Hki. cbn [bind]. destruct (ki <=? 0) eqn:E1; [lia |].
    rewrite (getitem_insert_other kw "max_input_size" "timeout" t) by done.
    rewrite Hmis. cbn [bind]. destruct (mis <=? 0) eqn:E2; [lia |].
    unfold getitem at 1.
    rewrite (lookup_union_Some_l _ _ _ t) by apply lookup_insert_eq.
    cbn [bind]. reflexivity. }
  split; [reflexivity |].
  unfold _make_request. cbn [base_url session]. rewrite Hb.
  destruct (urljoin _ _) as [joined | e]; [| reflexivity].
  change (_prepare_request_body _ json_data data)
    with (_prepare_request_body self json_data data).
  destruct (_prepare_request_body self json_data data) as [body | e];
    [| reflexivity].
  rewrite (sign256_same_key_and_limit self _ now rnd body).
  - destruct (sign256 self now rnd body) as [[[h ts] n] | e]; [| reflexivity].
    rewrite Hs. f_equal. f_equal. apply Hreq.
  - cbn [secret_key]. by rewrite Hk.
  - cbn [config]. rewrite Hc.
    apply (getitem_insert_other kw "max_input_size" "timeout" t). done.
Qed.

End TimeoutProperties.

(** A timeout of zero. *)
Lemma timeout_only_on_session_witness :
  exists self',
    __init__ (py "http://localhost:8080/") (py "test-secret-key")
      (<["timeout"%string := 0]> ∅) = Ok self'
    /\ session self' = Some {| timeout := 0 |}
    /\ _make_request join_paths echo self' noon 7 (py "POST") (py "/api")
         json_sample DNone headers_kwargs
       = _make_request join_paths echo demo_client noon 7 (py "POST")
           (py "/api") json_sample DNone headers_kwargs.
Proof.
  apply (timeout_only_on_session join_paths unit (option bytes) unit echo
           (py "http://localhost:8080/") (py "test-secret-key") ∅ 0
           demo_client noon 7 (py "POST") (py "/api") json_sample DNone
           headers_kwargs).
  - exact demo_client_init.
  - reflexivity.
Defined.
